(** * WealthPulse: market-rate cache and portfolio reconstruction

    A shallow embedding of the rate/valuation core of the WealthPulse backend
    (backend/app) and the properties its specification states about it.

    Conventions of the embedding.
    - Python [str] is [string]; only ASCII case mapping is modelled.
    - Finite [Decimal] values are exact rationals ([Qc]); the rounding of the
      decimal context (28 significant digits) is outside the model.
    - Python [float] is the kernel's binary64 ([PrimFloat.float]); [math.pow]
      and [float(Decimal)] belong to the runtime and are parameters.
    - A [datetime] is a count of microseconds since 1970-01-01T00:00:00 and a
      [date] a count of days since 1970-01-01.
    - An exception is an explicit [Raise] result.
    - A table is the list of its rows.  A statement is its effect on that
      list: a unit of work that violates a constraint leaves the table as it
      was.  A [date] bound against a DateTime column is compared the way the
      database in use compares it ([dialect]): PostgreSQL casts the date to
      its midnight, SQLite (the default) compares the text [YYYY-MM-DD] with
      the stored text [YYYY-MM-DD HH:MM:SS.ffffff].
    - What a function reads from the provider, the clock or a table that is
      not modelled is a field of an [environment] record.
    - A query over a modelled table returns its rows; the handler that logs
      a failed read is outside the model.
    - Where the [tzinfo] of a [datetime] decides the outcome, the value
      carries it ([datetime_utils.pydatetime]). *)

From Stdlib Require Import ZArith QArith Qcanon Floats Ascii Lia.
From stdpp Require Import base option list strings gmap sorting.

Local Open Scope Z_scope.

(** ** Python values shared by the modules *)

Inductive exn : Type :=
  | TypeError
  | ZeroDivisionError
  | OverflowError
  | AttributeError
  | IntegrityError
  | InvalidOperation
  | ValueError
  | OperationalError.

Inductive result (A : Type) : Type :=
  | Ok (a : A)
  | Raise (e : exn).
Arguments Ok {A} a.
Arguments Raise {A} e.

#[global] Instance result_ret : MRet result := fun A a => Ok a.
#[global] Instance result_bind : MBind result := fun A B k r =>
  match r with
  | Ok a => k a
  | Raise e => Raise e
  end.

(** [Decimal] as Python has it: finite values and the special ones. *)
Inductive decimal : Type :=
  | DecFinite (q : Qc)
  | DecNaN
  | DecInf (negative : bool).

Abbreviation date := Z (only parsing).
Abbreviation datetime := Z (only parsing).

Definition MICROS_PER_DAY : Z := 86400000000.

(** The two databases [DATABASE_URL] selects between (core/config.py). *)
Inductive dialect : Type := postgresql | sqlite.

(** [dt.date()] *)
Definition date_of (dt : datetime) : date := dt / MICROS_PER_DAY.

(** [datetime.combine(d, time.min)] *)
Definition midnight (d : date) : datetime := d * MICROS_PER_DAY.

(** [d == 0], [a <= b] and [a < b] on finite decimals. *)
Definition dec_is_zero (d : Qc) : bool := Qeq_bool d 0.
Definition dec_leb (a b : Qc) : bool := Qle_bool a b.
Definition dec_ltb (a b : Qc) : bool := negb (Qle_bool b a).

(** Python string helpers. *)
Module PyStr.

Definition upper_ascii (c : ascii) : ascii :=
  let n := nat_of_ascii c in
  if (97 <=? n)%nat && (n <=? 122)%nat then ascii_of_nat (n - 32) else c.

Fixpoint upper (s : string) : string :=
  match s with
  | EmptyString => EmptyString
  | String c s' => String (upper_ascii c) (upper s')
  end.

(** [s.endswith(suffix)] *)
Definition endswith (s suffix : string) : bool :=
  let n := String.length s in
  let k := String.length suffix in
  (k <=? n)%nat && String.eqb (String.substring (n - k) k s) suffix.

(** [sub in s] *)
Fixpoint contains (sub s : string) : bool :=
  String.prefix sub s ||
  match s with
  | EmptyString => false
  | String _ s' => contains sub s'
  end.

(** [s.replace(old, "")] for a non-empty [old]: [skip] counts the characters
    of a match that are still to be dropped. *)
Fixpoint remove_from (old : string) (skip : nat) (s : string) : string :=
  match s with
  | EmptyString => EmptyString
  | String c s' =>
      match skip with
      | S k => remove_from old k s'
      | O =>
          if String.prefix old s
          then remove_from old (String.length old - 1) s'
          else String c (remove_from old 0 s')
      end
  end.

Definition remove (old s : string) : string := remove_from old 0 s.

End PyStr.

(** ** services/market/config.py *)
Module MarketDataConfig.

Definition dec (n : Z) (d : positive) : Qc := Q2Qc (n # d).

Definition FALLBACK_RATES : list (string * Qc) :=
  [ ("EUR", dec 109 100); ("GBP", dec 127 100); ("CHF", dec 112 100);
    ("CAD", dec 74 100); ("BTC", dec 94000 1); ("USD", dec 1 1);
    ("NEXO", dec 125 100); ("USDT", dec 1 1); ("CRO", dec 8 100) ]%string.

Definition CRYPTO_SET : list string :=
  [ "BTC"; "ETH"; "SOL"; "ADA"; "DOT"; "DOGE"; "SHIB"; "LINK"; "UNI";
    "MATIC"; "NEXO"; "USDT"; "CRO"; "LTC"; "XRP" ]%string.

Definition in_list (s : string) (l : list string) : bool :=
  existsb (String.eqb s) l.

Definition resolve_ticker (currency : string) : option string :=
  if String.eqb currency "" ||
     in_list (PyStr.upper currency) ["USD"; "UNKNOWN"; "-"; ""]%string
  then None
  else if PyStr.endswith currency "-USD" || PyStr.endswith currency "=X"
  then Some currency
  else if PyStr.contains "." currency
  then Some currency
  else if in_list currency CRYPTO_SET
  then Some (currency ++ "-USD")%string
  else if (String.length currency =? 3)%nat
  then Some (currency ++ "USD=X")%string
  else Some (currency ++ "-USD")%string.

(** [FALLBACK_RATES.get(c, default)] *)
Definition fallback_get (c : string) (default : Qc) : Qc :=
  match find (fun kv => String.eqb (fst kv) c) FALLBACK_RATES with
  | Some kv => snd kv
  | None => default
  end.

End MarketDataConfig.

(** ** math_utils.py *)
Module math_utils.

(** [Decimal.quantize(Decimal("1.00000000"), rounding=ROUND_HALF_UP)]:
    the nearest multiple of 10^-8, ties away from zero.  It signals
    InvalidOperation when the result needs more than the context's 28
    digits. *)
Definition round_half_up (q : Qc) : Z :=
  let n := Qnum q in
  let d := Zpos (Qden q) in
  Z.sgn n * ((2 * Z.abs n + d) / (2 * d)).

Definition quantize8 (q : Qc) : result Qc :=
  let units := round_half_up (q * Q2Qc (100000000 # 1))%Qc in
  if Z.abs units <? 10 ^ 28
  then Ok (Q2Qc (units # 100000000))
  else Raise InvalidOperation.

(** [sanitize_decimal(val)] for the values a Numeric column yields: [None]
    or a [Decimal]. *)
Definition sanitize_decimal (val : option decimal) : Qc :=
  let d_val :=
    match val with
    | None => 0%Qc
    | Some (DecFinite q) => q
    | Some DecNaN => 0%Qc
    | Some (DecInf _) => 0%Qc
    end in
  match quantize8 d_val with
  | Ok r => r
  | Raise _ => d_val
  end.

(** An element of a cash-flow tuple as Python sees it at run time. *)
Inductive pyval : Type :=
  | PyFloat (f : float)
  | PyDate (d : date).

(** [float(n)] for a day count (below 2^53 for every pair of dates). *)
Definition float_of_days (n : Z) : float :=
  if n <? 0
  then (- PrimFloat.of_uint63 (Uint63.of_Z (- n)))%float
  else PrimFloat.of_uint63 (Uint63.of_Z n).

(** [a / b] on floats. *)
Definition float_div (a b : float) : result float :=
  if PrimFloat.is_zero b then Raise ZeroDivisionError else Ok (a / b)%float.

(** The scan for a sign change: [for _, amount in cash_flows]. *)
Fixpoint sign_scan (cash_flows : list (pyval * pyval)) (positive negative : bool)
  : result (bool * bool) :=
  match cash_flows with
  | [] => Ok (positive, negative)
  | (_, PyFloat amount) :: rest =>
      sign_scan rest
        (if (0 <? amount)%float then true else positive)
        (if (amount <? 0)%float then true else negative)
  | (_, PyDate _) :: _ => Raise TypeError
  end.

(** The keys of [cash_flows.sort(key=lambda x: x[0])]: dates throughout, or
    not. *)
Fixpoint dated (cash_flows : list (pyval * pyval)) : option (list (date * float)) :=
  match cash_flows with
  | [] => Some []
  | (PyDate d, PyFloat a) :: rest =>
      match dated rest with
      | Some l => Some ((d, a) :: l)
      | None => None
      end
  | _ => None
  end.

Definition all_float_keys (cash_flows : list (pyval * pyval)) : bool :=
  forallb (fun cf => match fst cf with PyFloat _ => true | PyDate _ => false end)
          cash_flows.

(** [list.sort] is stable. *)
Fixpoint insert_by_date (x : date * float) (l : list (date * float))
  : list (date * float) :=
  match l with
  | [] => [x]
  | y :: ys => if fst x <=? fst y then x :: y :: ys else y :: insert_by_date x ys
  end.

Definition sort_by_date (l : list (date * float)) : list (date * float) :=
  foldr insert_by_date [] l.

Section newton.
(** [math.pow] is the C library's; it raises OverflowError on overflow. *)
Variable math_pow : float -> float -> result float.

Definition year_fraction (start_date d : date) : float :=
  (float_of_days (d - start_date) / 365)%float.

Fixpoint present_value_sum (start_date : date) (cash_flows : list (date * float))
    (rate total : float) : result float :=
  match cash_flows with
  | [] => Ok total
  | (d, amount) :: rest =>
      p ← math_pow (1 + rate)%float (year_fraction start_date d);
      t ← float_div amount p;
      present_value_sum start_date rest rate (total + t)%float
  end.

Definition total_present_value (start_date : date)
    (cash_flows : list (date * float)) (rate : float) : result float :=
  if (rate <=? -1)%float then Ok infinity
  else present_value_sum start_date cash_flows rate 0%float.

Fixpoint derivative_sum (start_date : date) (cash_flows : list (date * float))
    (rate total : float) : result float :=
  match cash_flows with
  | [] => Ok total
  | (d, amount) :: rest =>
      let y := year_fraction start_date d in
      p ← math_pow (1 + rate)%float (y + 1)%float;
      t ← float_div (- amount * y)%float p;
      derivative_sum start_date rest rate (total + t)%float
  end.

Definition total_present_value_derivative (start_date : date)
    (cash_flows : list (date * float)) (rate : float) : result float :=
  if (rate <=? -1)%float then Ok infinity
  else derivative_sum start_date cash_flows rate 0%float.

(** One pass of the loop body. *)
Inductive step_outcome : Type :=
  | Converged (rate : float)
  | ZeroDerivative
  | Failed (e : exn)
  | Continue (new_rate : float).

(** 1e-6 as binary64. *)
Definition TOLERANCE : float := 0x1.0c6f7a0b5ed8dp-20%float.

Definition newton_step (start_date : date) (cash_flows : list (date * float))
    (rate : float) : step_outcome :=
  match total_present_value start_date cash_flows rate with
  | Raise e => Failed e
  | Ok f_val =>
      match total_present_value_derivative start_date cash_flows rate with
      | Raise e => Failed e
      | Ok df_val =>
          if (abs f_val <? TOLERANCE)%float then Converged rate
          else if (df_val =? 0)%float then ZeroDerivative
          else
            let new_rate := (rate - f_val / df_val)%float in
            if (abs (new_rate - rate) <? TOLERANCE)%float
            then Converged new_rate
            else Continue new_rate
      end
  end.

(** [for _ in range(n)] with the [try]/[except (OverflowError,
    ZeroDivisionError)] around the body; any other exception escapes. *)
Fixpoint newton_loop (n : nat) (start_date : date)
    (cash_flows : list (date * float)) (rate : float) : result (option float) :=
  match n with
  | O => Ok None
  | S n' =>
      match newton_step start_date cash_flows rate with
      | Converged r => Ok (Some r)
      | ZeroDerivative => Ok None
      | Failed OverflowError => Ok None
      | Failed ZeroDivisionError => Ok None
      | Failed e => Raise e
      | Continue new_rate => newton_loop n' start_date cash_flows new_rate
      end
  end.

Definition MAX_ITERATIONS : nat := 50.

(** The rate the [k]-th pass starts from, when the loop gets that far. *)
Fixpoint iterate (k : nat) (start_date : date)
    (cash_flows : list (date * float)) (rate : float) : option float :=
  match k with
  | O => Some rate
  | S k' =>
      match newton_step start_date cash_flows rate with
      | Continue new_rate => iterate k' start_date cash_flows new_rate
      | _ => None
      end
  end.

(** [xirr] on tuples that are (date, amount) as its docstring asks. *)
Definition xirr_dated (cash_flows : list (date * float)) (guess : float)
  : result (option float) :=
  let sorted := sort_by_date cash_flows in
  match sorted with
  | [] => Ok None
  | (start_date, _) :: _ => newton_loop MAX_ITERATIONS start_date sorted guess
  end.

(** [xirr(cash_flows, guess)] on whatever tuples it is handed. *)
Definition xirr (cash_flows : list (pyval * pyval)) (guess : float)
  : result (option float) :=
  match cash_flows with
  | [] => Ok None
  | _ =>
      '(positive, negative) ← sign_scan cash_flows false false;
      if negb (positive && negative) then Ok None
      else
        match dated cash_flows with
        | Some l => xirr_dated l guess
        | None =>
            if all_float_keys cash_flows
            then Raise AttributeError   (* (d - start_date).days *)
            else Raise TypeError        (* sort compares a date with a float *)
        end
  end.

(** 0.1 as binary64. *)
Definition DEFAULT_GUESS : float := 0x1.999999999999ap-4%float.

End newton.

(** What [sanitize_float] is handed besides [None]: a [Decimal] or a
    [float]. *)
Inductive number : Type :=
  | NumDecimal (d : decimal)
  | NumFloat (f : float).

Section to_float.
(** [float(d)] for a finite [Decimal]. *)
Variable float_of_decimal : Qc -> float.

(** [float(d)]: NaN and the infinities convert to themselves. *)
Definition float_of (d : decimal) : float :=
  match d with
  | DecFinite q => float_of_decimal q
  | DecNaN => nan
  | DecInf negative => if negative then neg_infinity else infinity
  end.

Definition sanitize_float (val : option number) : float :=
  match val with
  | None => 0%float
  | Some (NumDecimal d) => float_of d
  | Some (NumFloat f) =>
      if PrimFloat.is_nan f || PrimFloat.is_infinity f then 0%float else f
  end.
End to_float.

End math_utils.

(** ** services/portfolio/performance.py *)
Module PerformanceCalculator.
Import math_utils.

(** [a / b] on decimals. *)
Definition dec_div (a b : Qc) : result Qc :=
  if dec_is_zero b then Raise ZeroDivisionError else Ok (a / b)%Qc.

Definition calculate_twr (start_value end_value net_flow : Qc) : result Qc :=
  if dec_is_zero start_value then
    if dec_ltb 0 net_flow then Ok 0%Qc else Ok 0%Qc
  else if dec_is_zero (start_value + net_flow)%Qc then Ok 0%Qc
  else
    r ← dec_div (end_value - net_flow)%Qc start_value;
    Ok (r - 1)%Qc.

(** What [calculate_mwr] returns: [Decimal(str(res))] or [Decimal("0.0")]. *)
Inductive mwr_value : Type :=
  | DecimalOfFloat (res : float)
  | DecimalZero.

Record flow : Type := { flow_date : date; flow_amount : Qc }.

Section mwr.
Variable math_pow : float -> float -> result float.
(** [float(d)] for a [Decimal]. *)
Variable float_of_decimal : Qc -> float.

(** The tuples are built amount first. *)
Definition cash_flow_tuples (start_value end_value : Qc) (flows : list flow)
    (start_date end_date : date) : list (pyval * pyval) :=
  [(PyFloat (- float_of_decimal start_value)%float, PyDate start_date)]
  ++ map (fun f => (PyFloat (- float_of_decimal (flow_amount f))%float,
                    PyDate (flow_date f))) flows
  ++ [(PyFloat (float_of_decimal end_value), PyDate end_date)].

Definition calculate_mwr (start_value end_value : Qc) (flows : list flow)
    (start_date end_date : date) : mwr_value :=
  let cfs := cash_flow_tuples start_value end_value flows start_date end_date in
  match xirr math_pow cfs DEFAULT_GUESS with
  | Ok (Some res) => DecimalOfFloat res
  | Ok None => DecimalZero
  | Raise _ => DecimalZero
  end.
End mwr.

End PerformanceCalculator.

(** ** services/market/persistence.py *)
Module MarketDataPersistence.

(** What a caller hands over as a rate. *)
Inductive rate_value : Type :=
  | RNone
  | RDecimal (d : decimal)
  | RFloat (f : float).

(** A row of exchange_rate_history.  [rate] is the value that went through
    [float(...)] on its way in. *)
Record ExchangeRateHistory : Type := mkRow {
  row_id : Z;
  currency : string;
  rate : rate_value;
  timestamp : datetime
}.

Abbreviation store := (list ExchangeRateHistory).

(** A record of a history batch: [{"currency", "rate", "timestamp"}]. *)
Record rate_record : Type := mkRecord {
  rec_currency : string;
  rec_rate : rate_value;
  rec_timestamp : datetime
}.

Definition decimal_invalid (d : decimal) : bool :=
  match d with
  | DecNaN => true
  | DecInf _ => true
  | DecFinite q => dec_leb q 0
  end.

Definition float_invalid (f : float) : bool :=
  PrimFloat.is_nan f || PrimFloat.is_infinity f || (f <=? 0)%float.

(** The validation of [save_rates]. *)
Definition is_invalid (r : rate_value) : bool :=
  match r with
  | RNone => true
  | RDecimal d => decimal_invalid d
  | RFloat f => float_invalid f
  end.

(** uq_currency_timestamp *)
Definition key_taken (db : store) (c : string) (ts : datetime) : bool :=
  existsb (fun r => String.eqb (currency r) c && (timestamp r =? ts)) db.

Definition next_id (db : store) : Z := 1 + foldr Z.max 0 (map row_id db).

(** [float(x)]: of [None] it raises. *)
Definition to_float_arg (r : rate_value) : result rate_value :=
  match r with
  | RNone => Raise TypeError
  | _ => Ok r
  end.

(** A single INSERT under the unique constraint. *)
Definition insert_row (db : store) (c : string) (r : rate_value) (ts : datetime)
  : result store :=
  if key_taken db c ts then Raise IntegrityError
  else Ok (db ++ [mkRow (next_id db) c r ts]).

(** The flush of a unit of work: the rows go in one by one, and the first
    violation aborts the whole transaction. *)
Fixpoint insert_all (db : store) (rows : list rate_record) : result store :=
  match rows with
  | [] => Ok db
  | r :: rest =>
      db' ← insert_row db (rec_currency r) (rec_rate r) (rec_timestamp r);
      insert_all db' rest
  end.

(** The rows [save_rates] adds to the session. *)
Fixpoint rates_to_add (rates : list (string * rate_value)) (ts : datetime)
  : list rate_record :=
  match rates with
  | [] => []
  | (curr, r) :: rest =>
      if String.eqb curr "USD" then rates_to_add rest ts
      else if is_invalid r then rates_to_add rest ts
      else mkRecord curr r ts :: rates_to_add rest ts
  end.

(** [save_rates(rates, timestamp)]; a failed commit is logged and dropped. *)
Definition save_rates (db : store) (rates : list (string * rate_value))
    (ts : datetime) : store :=
  match insert_all db (rates_to_add rates ts) with
  | Ok db' => db'
  | Raise _ => db
  end.

(** [ranges]: per currency of the batch, the least and the greatest
    timestamp and the set of timestamps. *)
Record currency_range : Type := mkRange {
  range_min : datetime;
  range_max : datetime;
  range_timestamps : list datetime
}.

Fixpoint range_update (c : string) (ts : datetime)
    (ranges : list (string * currency_range)) : list (string * currency_range) :=
  match ranges with
  | [] => [(c, mkRange ts ts [ts])]
  | (c', g) :: rest =>
      if String.eqb c' c
      then (c', mkRange (Z.min (range_min g) ts) (Z.max (range_max g) ts)
                        (if existsb (Z.eqb ts) (range_timestamps g)
                         then range_timestamps g
                         else range_timestamps g ++ [ts])) :: rest
      else (c', g) :: range_update c ts rest
  end.

Definition batch_ranges (records : list rate_record) : list (string * currency_range) :=
  fold_left (fun ranges r => range_update (rec_currency r) (rec_timestamp r) ranges)
            records [].

(** [for i in range(0, len(timestamps), chunk_size)]: the timestamps in
    slices of 500. *)
Definition CHUNK_SIZE : nat := 500.

Fixpoint chunks_of (fuel : nat) (timestamps : list datetime) : list (list datetime) :=
  match fuel with
  | O => []
  | S fuel' =>
      match timestamps with
      | [] => []
      | _ => take CHUNK_SIZE timestamps :: chunks_of fuel' (drop CHUNK_SIZE timestamps)
      end
  end.

(** [DELETE ... WHERE currency = :c AND timestamp IN (:chunk)] *)
Definition delete_where (db : store) (c : string) (chunk : list datetime) : store :=
  filter (fun r => negb (String.eqb (currency r) c &&
                         existsb (Z.eqb (timestamp r)) chunk)) db.

(** The deletes of an upsert: per currency of the batch, one statement per
    chunk of its timestamps. *)
Definition delete_colliding (db : store) (ranges : list (string * currency_range))
  : store :=
  fold_left
    (fun db cg =>
       let timestamps := range_timestamps (snd cg) in
       fold_left (fun db chunk => delete_where db (fst cg) chunk)
                 (chunks_of (length timestamps) timestamps) db)
    ranges db.

(** [existing_keys]: the keys stored inside the batch's range of a currency. *)
Definition existing_keys (db : store) (ranges : list (string * currency_range))
  : list (string * datetime) :=
  flat_map
    (fun cg =>
       map (fun r => (fst cg, timestamp r))
           (filter (fun r => String.eqb (currency r) (fst cg) &&
                             (range_min (snd cg) <=? timestamp r) &&
                             (timestamp r <=? range_max (snd cg)))
                   db))
    ranges.

Definition key_in (keys : list (string * datetime)) (c : string) (ts : datetime) : bool :=
  existsb (fun k => String.eqb (fst k) c && (snd k =? ts)) keys.

(** Building the models evaluates [float(r["rate"])] for each record. *)
Fixpoint build_models (records : list rate_record) : result (list rate_record) :=
  match records with
  | [] => Ok []
  | r :: rest =>
      v ← to_float_arg (rec_rate r);
      ms ← build_models rest;
      Ok (mkRecord (rec_currency r) v (rec_timestamp r) :: ms)
  end.

(** The row-by-row fallback: a record that collides, or cannot be built, is
    skipped. *)
Fixpoint save_row_by_row (db : store) (records : list rate_record) (saved : Z)
  : store * Z :=
  match records with
  | [] => (db, saved)
  | r :: rest =>
      match (v ← to_float_arg (rec_rate r);
             insert_row db (rec_currency r) v (rec_timestamp r)) with
      | Ok db' => save_row_by_row db' rest (saved + 1)
      | Raise _ => save_row_by_row db rest saved
      end
  end.

(** [save_history_batch(records, upsert)]: the store afterwards and the
    value returned ([None] for an empty batch). *)
Definition save_history_batch (db : store) (records : list rate_record)
    (upsert : bool) : store * option Z :=
  match records with
  | [] => (db, None)
  | _ =>
      let ranges := batch_ranges records in
      let session := if upsert then delete_colliding db ranges else db in
      let candidates :=
        if upsert then records
        else
          let keys := existing_keys db ranges in
          filter (fun r => negb (key_in keys (rec_currency r) (rec_timestamp r)))
                 records in
      match build_models candidates with
      | Raise _ => (db, Some 0)
      | Ok to_add_models =>
          match to_add_models with
          | [] => (db, Some 0)
          | _ =>
              match insert_all session to_add_models with
              | Ok db' => (db', Some (Z.of_nat (length to_add_models)))
              | Raise _ =>
                  let '(db', saved) := save_row_by_row db records 0 in
                  (db', Some saved)
              end
          end
      end
  end.

(** [ORDER BY timestamp ASC] and [ORDER BY timestamp DESC] *)
Definition ts_le (a b : ExchangeRateHistory) : Prop := timestamp a <= timestamp b.
#[global] Instance ts_le_dec a b : Decision (ts_le a b) :=
  Z_le_dec (timestamp a) (timestamp b).

Definition ts_ge (a b : ExchangeRateHistory) : Prop := timestamp b <= timestamp a.
#[global] Instance ts_ge_dec a b : Decision (ts_ge a b) :=
  Z_le_dec (timestamp b) (timestamp a).

Definition order_by_timestamp_asc (rows : store) : store := merge_sort ts_le rows.
Definition order_by_timestamp_desc (rows : store) : store := merge_sort ts_ge rows.

(** [currency IN (:currencies) AND timestamp >= :start AND timestamp <= :end] *)
Definition in_range (currencies : list string) (start end_ : datetime)
    (r : ExchangeRateHistory) : bool :=
  existsb (String.eqb (currency r)) currencies &&
  (start <=? timestamp r) && (timestamp r <=? end_).

(** [get_rates_series(currencies, start, end)] *)
Definition get_rates_series (db : store) (currencies : list string)
    (start end_ : datetime) : store :=
  order_by_timestamp_asc (filter (fun r => in_range currencies start end_ r) db).

(** [get_earliest_record(currency)]: [ORDER BY timestamp ASC LIMIT 1] *)
Definition get_earliest_record (db : store) (c : string) : option ExchangeRateHistory :=
  head (order_by_timestamp_asc (filter (fun r => String.eqb (currency r) c) db)).

Section reads.
(** What the Numeric(20, 8) column gives back for a stored value. *)
Variable numeric : rate_value -> option decimal.

(** [get_latest_rates_in_range(currencies, start, end)] *)
Definition get_latest_rates_in_range (db : store) (currencies : list string)
    (start end_ : datetime) : gmap string Qc :=
  fold_left
    (fun rates r =>
       match rates !! currency r with
       | Some _ => rates
       | None => <[currency r := math_utils.sanitize_decimal (numeric (rate r))]> rates
       end)
    (order_by_timestamp_desc (filter (fun r => in_range currencies start end_ r) db))
    ∅.
End reads.

End MarketDataPersistence.

(** ** agents/history_backfill.py *)
Module HistoryBackfillAgent.
Import MarketDataPersistence.

(** [series]: [{ iso timestamp: { currency: rate } }], the keys already
    parsed by [datetime.fromisoformat]. *)
Abbreviation series := (list (datetime * list (string * rate_value))).

Record persist_stats : Type := mkStats {
  added : Z;
  updated : Z;
  skipped : Z
}.

Definition flatten_rates (dt : datetime) (rates : list (string * rate_value))
  : list rate_record :=
  map (fun cr => mkRecord (fst cr) (snd cr) dt)
      (filter (fun cr => negb (String.eqb (fst cr) "USD")) rates).

Definition flatten_series (s : series) : list rate_record :=
  flat_map (fun e => flatten_rates (fst e) (snd e)) s.

Definition _persist_history (db : store) (s : series) (force : bool)
  : store * persist_stats :=
  let records := flatten_series s in
  let total_items := Z.of_nat (length records) in
  if total_items =? 0 then (db, mkStats 0 0 0)
  else
    let '(db', ret) := save_history_batch db records force in
    let saved_count := default 0 ret in
    let skipped := total_items - saved_count in
    (db', mkStats (if force then 0 else saved_count)
                  (if force then saved_count else 0)
                  skipped).

(** What the run reads from outside: the clock, the asset and user tables,
    and the market data service's fresh series. *)
Record environment : Type := mkEnv {
  utcnow_date : date;
  today : date;
  earliest_purchase_date : option date;
  managed_currencies : list string;
  get_historical_rates_series :
    date -> date -> list string -> string -> result series
}.

Definition config_int (cfg : list (string * Z)) (key : string) (dflt : Z) : Z :=
  match find (fun kv => String.eqb (fst kv) key) cfg with
  | Some kv => snd kv
  | None => dflt
  end.

Definition tiers (r_cfg : list (string * Z)) : list (string * Z * Z) :=
  let ret_5m := config_int r_cfg "retention_5min_days" 14 in
  let ret_15m := config_int r_cfg "retention_15min_days" 59 in
  let ret_1h := config_int r_cfg "retention_1h_days" 365 in
  [ ("5m", 0, ret_5m); ("15m", ret_5m, ret_15m);
    ("1h", ret_15m, ret_1h); ("1d", ret_1h, 36500) ]%string.

(** The loop over the tiers. *)
Fixpoint run_tiers (env : environment) (ts : list (string * Z * Z))
    (s_date e_date : date) (currencies : list string) (force : bool)
    (db : store) (totals : persist_stats) : store * persist_stats :=
  match ts with
  | [] => (db, totals)
  | (interval_label, min_age_days, max_age_days) :: rest =>
      let tier_start_limit := utcnow_date env - max_age_days in
      let tier_end_limit := utcnow_date env - min_age_days in
      let eff_start := Z.max s_date tier_start_limit in
      let eff_end := Z.min e_date tier_end_limit in
      if eff_end <=? eff_start
      then run_tiers env rest s_date e_date currencies force db totals
      else
        match get_historical_rates_series env eff_start eff_end currencies
                interval_label with
        | Raise _ => run_tiers env rest s_date e_date currencies force db totals
        | Ok [] => run_tiers env rest s_date e_date currencies force db totals
        | Ok s =>
            let '(db', res) := _persist_history db s force in
            run_tiers env rest s_date e_date currencies force db'
              (mkStats (added totals + added res)
                       (updated totals + updated res)
                       (skipped totals + skipped res))
        end
  end.

(** [execute(currency, start_date, end_date, force, agent_config)]: the
    store afterwards and the totals reported ([None] when the run returns
    early). *)
Definition execute (env : environment) (currency : option string)
    (start_date end_date : option date) (force : bool)
    (agent_config : list (string * Z)) (db : store)
  : store * option persist_stats :=
  let run s_date e_date currencies :=
    let '(db', totals) :=
      run_tiers env (tiers agent_config) s_date e_date currencies force db
                (mkStats 0 0 0) in
    (db', Some totals) in
  let auto :=
    match earliest_purchase_date env, managed_currencies env with
    | None, _ => (db, None)
    | Some _, [] => (db, None)
    | Some earliest, cs => run earliest (today env) cs
    end in
  match currency, start_date, end_date with
  | Some c, Some s_date, Some e_date =>
      if String.eqb c "" then auto          (* [is_manual] is falsy *)
      else if String.eqb c "USD" then (db, None)
      else run s_date e_date [c]
  | _, _, _ => auto
  end.

End HistoryBackfillAgent.

(** ** models.py: the columns the core reads *)
Module models.

Record Asset : Type := mkAsset {
  asset_id : Z;
  ticker_symbol : option string;
  quantity : option decimal;          (* Numeric(20, 8) *)
  purchase_price : option Qc;         (* Numeric(20, 8), nullable *)
  asset_currency : option string
}.

Record Transaction : Type := mkTransaction {
  tx_asset_id : Z;
  tx_type : string;                   (* Column(String) *)
  tx_date : datetime;                 (* Column(DateTime) *)
  tx_quantity_change : option decimal (* Numeric(20, 8) *)
}.

(** [class TransactionType(str, enum.Enum)] and the string each member is. *)
Inductive TransactionType : Type :=
  | BUY
  | SELL
  | TRANSFER_BETWEEN
  | TRANSFER_IN
  | TRANSFER_OUT
  | VALUE_ADJUSTMENT
  | DIVIDEND
  | SPLIT.

Definition TransactionType_value (t : TransactionType) : string :=
  match t with
  | BUY => "Buy"
  | SELL => "Sell"
  | TRANSFER_BETWEEN => "Transfer between custodians"
  | TRANSFER_IN => "Transfer in"
  | TRANSFER_OUT => "Transfer out"
  | VALUE_ADJUSTMENT => "Value adjustment"
  | DIVIDEND => "Dividend/Interest"
  | SPLIT => "Split/Fork"
  end.

(** A row of price_history. *)
Record PriceHistory : Type := mkPriceHistory {
  ph_asset_id : Z;
  ph_date : datetime;                 (* Column(DateTime) *)
  ph_price : option decimal;          (* Numeric(20, 8) *)
  ph_currency : option string
}.

End models.

(** ** services/portfolio/valuation.py *)
Module ValuationService.
Import models.

(** [alt in rates and rates[alt] is not None] *)
Definition rate_hit (rates : gmap string (option Qc)) (alt : string) : option Qc :=
  match rates !! alt with
  | Some (Some r) => Some r
  | _ => None
  end.

Definition alternatives (symbol : string) : list string :=
  [ symbol;
    symbol ++ "=X";
    symbol ++ "-USD";
    PyStr.remove "-USD" symbol;
    PyStr.remove "=X" symbol ]%string.

Fixpoint first_hit (rates : gmap string (option Qc)) (alts : list string) : option Qc :=
  match alts with
  | [] => None
  | alt :: rest =>
      match rate_hit rates alt with
      | Some r => Some r
      | None => first_hit rates rest
      end
  end.

(** [_get_rate_safe(rates, symbol, default)].  The default is a [Decimal] at
    four call sites and [None] at one: [A] is the type of what comes back
    and [ret] embeds a rate found in the map into it. *)
Definition _get_rate_safe {A : Type} (ret : Qc -> A)
    (rates : gmap string (option Qc)) (symbol : option string) (default : A) : A :=
  match symbol with
  | None => default
  | Some sym =>
      if String.eqb sym "" then default
      else
        match rate_hit rates sym with
        | Some r => ret r
        | None =>
            match first_hit rates (alternatives sym) with
            | Some r => ret r
            | None => default
            end
        end
  end.

(** [x or y] on an optional decimal. *)
Definition dec_or (x : option Qc) (y : Qc) : Qc :=
  match x with
  | Some v => if dec_is_zero v then y else v
  | None => y
  end.

(** [x or y] on an optional string. *)
Definition str_or (x : option string) (y : string) : string :=
  match x with
  | Some v => if String.eqb v "" then y else v
  | None => y
  end.

Definition truthy_str (x : option string) : bool :=
  match x with
  | Some v => negb (String.eqb v "")
  | None => false
  end.

Definition purchase_price_in_usd (asset : Asset) (rates : gmap string (option Qc)) : Qc :=
  let pp := dec_or (purchase_price asset) 0%Qc in
  let curr := str_or (asset_currency asset) "USD" in
  let rate := _get_rate_safe id rates (Some curr) 1%Qc in
  (pp * rate)%Qc.

(** The price in the pivot, before the conversion to the main currency. *)
Definition price_in_usd (asset : Asset) (rates : gmap string (option Qc))
    (manual_prices : gmap Z (Qc * option string)) : Qc :=
  match manual_prices !! asset_id asset with
  | Some (price, currency) =>
      let rate_to_usd := _get_rate_safe id rates currency 1%Qc in
      (price * rate_to_usd)%Qc
  | None =>
      if truthy_str (ticker_symbol asset) then
        match _get_rate_safe Some rates (ticker_symbol asset) None with
        | Some rate => rate
        | None => purchase_price_in_usd asset rates
        end
      else purchase_price_in_usd asset rates
  end.

Definition get_price (asset : Asset) (rates : gmap string (option Qc))
    (manual_prices : gmap Z (Qc * option string)) (main_currency : string)
  : result Qc :=
  let p := price_in_usd asset rates manual_prices in
  let main_rate_usd := _get_rate_safe id rates (Some main_currency) 1%Qc in
  if dec_is_zero main_rate_usd then Ok 0%Qc
  else PerformanceCalculator.dec_div p main_rate_usd.

(** The loop of [calculate_portfolio_value]. *)
Fixpoint value_assets (assets : list Asset) (quantities : gmap Z Qc)
    (rates : gmap string (option Qc)) (manual_prices : gmap Z (Qc * option string))
    (main_currency : string) (total_value : Qc) (asset_values : gmap Z Qc)
  : result (Qc * gmap Z Qc) :=
  match assets with
  | [] => Ok (total_value, asset_values)
  | asset :: rest =>
      let qty := default 0%Qc (quantities !! asset_id asset) in
      if dec_is_zero qty
      then value_assets rest quantities rates manual_prices main_currency total_value
             (<[asset_id asset := 0%Qc]> asset_values)
      else
        unit_price ← get_price asset rates manual_prices main_currency;
        let val := (qty * unit_price)%Qc in
        value_assets rest quantities rates manual_prices main_currency
          (total_value + val)%Qc (<[asset_id asset := val]> asset_values)
  end.

(** [calculate_portfolio_value(assets, quantities, rates, manual_prices,
    main_currency)]: the total and the value per asset id. *)
Definition calculate_portfolio_value (assets : list Asset) (quantities : gmap Z Qc)
    (rates : gmap string (option Qc)) (manual_prices : gmap Z (Qc * option string))
    (main_currency : string) : result (Qc * gmap Z Qc) :=
  value_assets assets quantities rates manual_prices main_currency 0%Qc ∅.

End ValuationService.

(** ** services/portfolio/service.py *)
Module PortfolioService.
Import models math_utils.

Abbreviation quantities := (gmap Z Qc).

(** [{a.id: sanitize_decimal(a.quantity) for a in assets}] *)
Definition current_quantities (assets : list Asset) : gmap Z Qc :=
  fold_left (fun m a => <[asset_id a := sanitize_decimal (quantity a)]> m) assets ∅.

Definition asset_ids (assets : list Asset) : list Z := map asset_id assets.

Definition id_in (ids : list Z) (i : Z) : bool := existsb (Z.eqb i) ids.

(** [column > :d] and [column <= :d] for a DateTime column and a bound
    [date].  PostgreSQL compares the timestamp with the midnight of the
    date.  SQLite compares two texts, and the stored text of a timestamp
    extends the text of its own day, so it sorts after it: every instant of
    the day [d], its midnight included, is greater than [d]. *)
Definition sql_date_gt (dia : dialect) (dt : datetime) (d : date) : bool :=
  match dia with
  | postgresql => midnight d <? dt
  | sqlite => d <=? date_of dt
  end.

Definition sql_date_le (dia : dialect) (dt : datetime) (d : date) : bool :=
  match dia with
  | postgresql => dt <=? midnight d
  | sqlite => date_of dt <? d
  end.

(** The body of both replay loops: undo one transaction. *)
Definition revert (tx : Transaction) (qty : gmap Z Qc) : gmap Z Qc :=
  let q := sanitize_decimal (tx_quantity_change tx) in
  if String.eqb (tx_type tx) "BUY"
  then alter (fun x => x - q)%Qc (tx_asset_id tx) qty
  else if String.eqb (tx_type tx) "SELL"
  then alter (fun x => x + q)%Qc (tx_asset_id tx) qty
  else qty.

(** [select(Transaction).where(asset_id.in_(ids), date > d)] *)
Definition transactions_after (dia : dialect) (ledger : list Transaction)
    (ids : list Z) (d : date) : list Transaction :=
  filter (fun tx => id_in ids (tx_asset_id tx) && sql_date_gt dia (tx_date tx) d) ledger.

Definition _calculate_historical_quantities (dia : dialect) (ledger : list Transaction)
    (assets : list Asset) (target_date : date) : gmap Z Qc :=
  let quantities := current_quantities assets in
  match asset_ids assets with
  | [] => quantities
  | ids => fold_left (fun qty tx => revert tx qty)
                     (transactions_after dia ledger ids target_date) quantities
  end.

(** [ORDER BY date DESC] and [sorted(dates, reverse=True)] *)
Definition tx_date_ge (a b : Transaction) : Prop := tx_date b <= tx_date a.
#[global] Instance tx_date_ge_dec a b : Decision (tx_date_ge a b) :=
  Z_le_dec (tx_date b) (tx_date a).

Definition order_by_date_desc (txs : list Transaction) : list Transaction :=
  merge_sort tx_date_ge txs.

Definition date_ge (a b : date) : Prop := b <= a.
#[global] Instance date_ge_dec a b : Decision (date_ge a b) := Z_le_dec b a.

Definition sorted_reverse (dates : list date) : list date :=
  merge_sort date_ge dates.

(** The inner [while]: [tx_ptr] is the list of transactions not yet
    replayed. *)
Fixpoint replay_until (d : date) (txs : list Transaction) (temp_qty : gmap Z Qc)
  : list Transaction * gmap Z Qc :=
  match txs with
  | [] => ([], temp_qty)
  | tx :: rest =>
      if d <? date_of (tx_date tx)
      then replay_until d rest (revert tx temp_qty)
      else (txs, temp_qty)
  end.

(** The outer [for d in dates_desc]; the keys are [d.isoformat()]. *)
Fixpoint sweep (dates_desc : list date) (txs : list Transaction)
    (temp_qty : gmap Z Qc) (daily_quantities : gmap Z (gmap Z Qc))
  : gmap Z (gmap Z Qc) :=
  match dates_desc with
  | [] => daily_quantities
  | d :: ds =>
      let '(txs', temp_qty') := replay_until d txs temp_qty in
      sweep ds txs' temp_qty' (<[d := temp_qty']> daily_quantities)
  end.

(** Step 5 of [get_history]: the batch replay. *)
Definition batch_quantities (dia : dialect) (ledger : list Transaction)
    (assets : list Asset) (start_date : date) (dates : list date)
  : gmap Z (gmap Z Qc) :=
  let all_txs :=
    order_by_date_desc (transactions_after dia ledger (asset_ids assets) start_date) in
  sweep (sorted_reverse dates) all_txs (current_quantities assets) ∅.

(** Step 1 of [get_history]: the dates of the series. *)
Fixpoint dates_from (fuel : nat) (curr end_date step : Z) : list date :=
  match fuel with
  | O => []
  | S fuel' =>
      if curr <=? end_date
      then curr :: dates_from fuel' (curr + step) end_date step
      else []
  end.

Definition history_dates (start_date end_date : date) : list date :=
  let days := end_date - start_date in
  let step := if 90 <? days then 7 else 1 in
  dates_from (Z.to_nat (days + 1)) start_date end_date step.

(** [daily_quantities] of [get_history] for a range of dates. *)
Definition get_history_quantities (dia : dialect) (ledger : list Transaction)
    (assets : list Asset) (start_date end_date : date) : gmap Z (gmap Z Qc) :=
  match assets with
  | [] => ∅
  | _ => batch_quantities dia ledger assets start_date
           (history_dates start_date end_date)
  end.

(** Step 1 of [get_history]: the start of the range a [time_range] names. *)
Definition range_start (time_range : string) (end_date : date) : date :=
  if String.eqb time_range "1w" then end_date - 7
  else if String.eqb time_range "3m" then end_date - 90
  else if String.eqb time_range "1y" then end_date - 365
  else if String.eqb time_range "all" then end_date - 365 * 5
  else end_date - 30.

(** [dates] of [get_history(time_range, custom_start, custom_end)] on the day
    [today]. *)
Definition get_history_dates (today : date) (time_range : string)
    (custom_start custom_end : option date) : list date :=
  let end_date := default today custom_end in
  let start_date :=
    match custom_start with
    | Some s => s
    | None => range_start time_range end_date
    end in
  history_dates start_date end_date.

Definition ph_date_le (a b : PriceHistory) : Prop := ph_date a <= ph_date b.
#[global] Instance ph_date_le_dec a b : Decision (ph_date_le a b) :=
  Z_le_dec (ph_date a) (ph_date b).

(** Step 4 of [get_history]:
    [select(PriceHistory).where(asset_id.in_(asset_ids), date <= end_date)
     .order_by(date.asc())] *)
Definition manual_prices_until (dia : dialect) (price_history : list PriceHistory)
    (ids : list Z) (end_date : date) : list PriceHistory :=
  merge_sort ph_date_le
    (filter (fun mp => id_in ids (ph_asset_id mp) && sql_date_le dia (ph_date mp) end_date)
            price_history).

(** [asset_mp_history[aid]] *)
Definition asset_mp_history (all_mp : list PriceHistory) (aid : Z) : list PriceHistory :=
  filter (fun mp => ph_asset_id mp =? aid) all_mp.

(** The loop over [mps] with its [break]. *)
Fixpoint latest_until (d : date) (mps : list PriceHistory) (latest : option PriceHistory)
  : option PriceHistory :=
  match mps with
  | [] => latest
  | mp :: rest =>
      if date_of (ph_date mp) <=? d then latest_until d rest (Some mp) else latest
  end.

(** [dt_manual_prices] of the date [d]. *)
Definition dt_manual_prices (all_mp : list PriceHistory) (ids : list Z) (d : date)
  : gmap Z (Qc * option string) :=
  fold_left
    (fun prices aid =>
       match latest_until d (asset_mp_history all_mp aid) None with
       | Some latest =>
           <[aid := (sanitize_decimal (ph_price latest), ph_currency latest)]> prices
       | None => prices
       end)
    ids ∅.

(** An entry of [summary["assets"]], the dict [get_summary] builds for an
    asset. *)
Record summary_item : Type := mkItem {
  item_id : Z;
  item_name : string;
  item_asset_type : string;
  item_category : option string;
  item_quantity : float;
  item_value : float;
  item_currency : string;
  item_asset_currency : option string;
  item_custodian : string;
  item_primary_group : string;
  item_tags : list string
}.

(** The entries of that dict whose value is a string or [None], under their
    keys. *)
Definition item_strings (a : summary_item) : list (string * option string) :=
  [ ("name", Some (item_name a));
    ("asset_type", Some (item_asset_type a));
    ("category", item_category a);
    ("currency", Some (item_currency a));
    ("asset_currency", item_asset_currency a);
    ("custodian", Some (item_custodian a));
    ("primary_group", Some (item_primary_group a)) ]%string.

(** [a.get(key)] *)
Definition item_get (key : string) (a : summary_item) : option string :=
  match find (fun kv => String.eqb (fst kv) key) (item_strings a) with
  | Some kv => snd kv
  | None => None
  end.

(** [groups[k] = groups.get(k, 0) + val] on a dict kept in insertion order. *)
Fixpoint groups_add (k : string) (val : float) (groups : list (string * float))
  : list (string * float) :=
  match groups with
  | [] => [(k, (0 + val)%float)]
  | (k', v) :: rest =>
      if String.eqb k' k then (k', (v + val)%float) :: rest
      else (k', v) :: groups_add k val rest
  end.

(** [k = key_func(a); if not k: k = "Other"] *)
Definition group_key (key_func : summary_item -> option string) (a : summary_item)
  : string :=
  match key_func a with
  | Some k => if String.eqb k "" then "Other" else k
  | None => "Other"
  end.

Section allocation.
(** [float(round(v, 2))] *)
Variable round2 : float -> float.

Definition group_by (key_func : summary_item -> option string)
    (assets : list summary_item) : list (string * float) :=
  let groups :=
    fold_left (fun groups a => groups_add (group_key key_func a) (item_value a) groups)
              assets [] in
  map (fun kv => (fst kv, round2 (snd kv))) groups.

Definition _group_assets_by_tag (assets : list summary_item) : list (string * float) :=
  let tag_groups :=
    fold_left
      (fun tag_groups a =>
         match item_tags a with
         | [] => groups_add "No Tag" (item_value a) tag_groups
         | tags => fold_left (fun g t => groups_add t (item_value a) g) tags tag_groups
         end)
      assets [] in
  map (fun kv => (fst kv, round2 (snd kv))) tag_groups.

Record allocation : Type := mkAllocation {
  by_asset_type : list (string * float);
  by_category : list (string * float);
  by_currency : list (string * float);
  by_custodian : list (string * float);
  by_group : list (string * float);
  by_tag : list (string * float);
  alloc_total : float
}.

(** [get_allocation], from the [assets] and the [total_value] of the
    summary. *)
Definition get_allocation (assets : list summary_item) (total_val : float) : allocation :=
  mkAllocation
    (group_by (item_get "type") assets)
    (group_by (item_get "category") assets)
    (group_by (item_get "asset_currency") assets)
    (group_by (item_get "custodian") assets)
    (group_by (item_get "primary_group") assets)
    (_group_assets_by_tag assets)
    total_val.
End allocation.

End PortfolioService.

(** ** agents/market_compactor.py *)
Module MarketCompactorAgent.
Import MarketDataPersistence.

Definition MICROS_PER_HOUR : Z := 3600000000.
Definition MICROS_PER_MINUTE : Z := 60000000.

Definition hour_of (ts : datetime) : Z := ts / MICROS_PER_HOUR.
Definition minute_of (ts : datetime) : Z := (ts mod MICROS_PER_HOUR) / MICROS_PER_MINUTE.

(** The civil year of a day count, and the day count of its first of
    January (the proleptic Gregorian calendar). *)
Definition year_of_day (days : Z) : Z :=
  let z := days + 719468 in
  let era := z / 146097 in
  let doe := z - era * 146097 in
  let yoe := (doe - doe / 1460 + doe / 36524 - doe / 146096) / 365 in
  let doy := doe - (365 * yoe + yoe / 4 - yoe / 100) in
  let mp := (5 * doy + 2) / 153 in
  yoe + era * 400 + (if mp <? 10 then 0 else 1).

Definition first_day_of_year (y : Z) : Z :=
  let y' := y - 1 in
  let era := y' / 400 in
  let yoe := y' - era * 400 in
  era * 146097 + (yoe * 365 + yoe / 4 - yoe / 100 + 306) - 719468.

(** [strftime('%W', ts)]: the week of the year, weeks starting on Monday. *)
Definition week_of_year (days : Z) : Z :=
  let yday := days - first_day_of_year (year_of_day days) in
  let wday := (days + 4) mod 7 in           (* 0 is Sunday *)
  (yday + 7 - (wday + 6) mod 7) / 7.

(** The PARTITION BY expressions after [currency], per tier and dialect. *)
Definition bucket_15min (ts : datetime) : Z * Z := (hour_of ts, minute_of ts / 15).
Definition bucket_1h (ts : datetime) : Z * Z := (hour_of ts, 0).
Definition bucket_1d (ts : datetime) : Z * Z := (date_of ts, 0).
Definition bucket_1w (d : dialect) (ts : datetime) : Z * Z :=
  match d with
  | postgresql => ((date_of ts + 3) / 7, 0)                (* DATE_TRUNC('week') *)
  | sqlite => (year_of_day (date_of ts), week_of_year (date_of ts)) (* '%Y-%W' *)
  end.

Section tier.
Variable bucket : datetime -> Z * Z.
Variable cutoff : datetime.

Definition selected (r : ExchangeRateHistory) : bool := timestamp r <? cutoff.

Definition same_partition (r r' : ExchangeRateHistory) : bool :=
  String.eqb (currency r) (currency r') &&
  (fst (bucket (timestamp r)) =? fst (bucket (timestamp r'))) &&
  (snd (bucket (timestamp r)) =? snd (bucket (timestamp r'))).

(** [ORDER BY timestamp ASC]; rows of one partition never tie under
    uq_currency_timestamp, and a tie is broken by the primary key. *)
Definition sorts_before (r' r : ExchangeRateHistory) : bool :=
  (timestamp r' <? timestamp r) ||
  ((timestamp r' =? timestamp r) && (row_id r' <? row_id r)).

(** [ROW_NUMBER() OVER (PARTITION BY ... ORDER BY timestamp ASC)] *)
Definition row_number (db : store) (r : ExchangeRateHistory) : Z :=
  1 + Z.of_nat (length
        (filter (fun r' => selected r' && same_partition r' r && sorts_before r' r)
                db)).

(** The ids of the sub-select: [WHERE t.rn > 1]. *)
Definition surplus_ids (db : store) : list Z :=
  map row_id (filter (fun r => selected r && (1 <? row_number db r)) db).

(** [DELETE ... WHERE id IN (...)]: the store afterwards and [rowcount]. *)
Definition compact (db : store) : store * Z :=
  let ids := surplus_ids db in
  let db' := filter (fun r => negb (existsb (Z.eqb (row_id r)) ids)) db in
  (db', Z.of_nat (length db) - Z.of_nat (length db')).
End tier.

Record compaction_results : Type := mkResults {
  deleted_15min : Z;
  deleted_1h : Z;
  deleted_1d : Z;
  deleted_1w : Z
}.

Definition config_get (cfg : list (string * Z)) (key : string) (dflt : Z) : Z :=
  match find (fun kv => String.eqb (fst kv) key) cfg with
  | Some kv => snd kv
  | None => dflt
  end.

(** [utc_now() - timedelta(days=n)] *)
Definition days_before (now : datetime) (n : Z) : datetime := now - n * MICROS_PER_DAY.

(** [execute(agent_config)]: [utc_now k] is the clock at its [k]-th reading,
    one per cutoff. *)
Definition execute (utc_now : nat -> datetime) (d : dialect)
    (agent_config : list (string * Z)) (db : store) : store * compaction_results :=
  let ret_5min := config_get agent_config "retention_5min_days" 3 in
  let ret_15min := config_get agent_config "retention_15min_days" 14 in
  let ret_1h := config_get agent_config "retention_1h_days" 90 in
  let ret_1d := config_get agent_config "retention_1d_days" 365 in
  let cutoff_15min := days_before (utc_now 0%nat) ret_5min in
  let cutoff_1h := days_before (utc_now 1%nat) ret_15min in
  let cutoff_1d := days_before (utc_now 2%nat) ret_1h in
  let cutoff_1w := days_before (utc_now 3%nat) ret_1d in
  let '(db1, n1) := compact bucket_15min cutoff_15min db in
  let '(db2, n2) := compact bucket_1h cutoff_1h db1 in
  let '(db3, n3) := compact bucket_1d cutoff_1d db2 in
  let '(db4, n4) := compact (bucket_1w d) cutoff_1w db3 in
  (db4, mkResults n1 n2 n3 n4).

End MarketCompactorAgent.

(** ** services/market/service.py *)
Module MarketDataService.
Import math_utils.

(** A row of exchange_rate_history as the ORM reads it back. *)
Record stored_rate : Type := mkStored {
  sr_currency : string;
  sr_rate : option decimal;
  sr_timestamp : datetime
}.

(** A row of the provider's frame of closes: its index and, per ticker
    column, the cell. *)
Record frame_row : Type := mkFrameRow {
  fr_index : datetime;
  fr_cells : list (string * decimal)
}.

(** What the service asks of the store and of the provider, in order. *)
Inductive event : Type :=
  | StoreLatest (currency : string)
  | StoreSeries (currencies : list string) (start_dt end_dt : datetime)
  | ProviderCurrent (tickers : list string)
  | ProviderHistorical (tickers : list string) (start_date end_date : date)
  | SaveRates (rates : list (string * Qc))
  | SaveHistoryBatch (records : list (string * Qc * datetime)) (upsert : bool).

(** The answers of the store, the provider and the fetch lock. *)
Record environment : Type := mkEnv {
  latest_record : string -> result (option stored_rate);
  get_rates_series : list string -> datetime -> datetime -> list stored_rate;
  lock_acquired : bool;
  fetch_current_rates : list string -> result (gmap string Qc);
  fetch_historical_rates : list string -> date -> date -> list frame_row;
  save_rates : list (string * Qc) -> result unit
}.

Definition USD : string := "USD".

(** [d[k] = v] on a dict kept in insertion order. *)
Fixpoint dict_set {V : Type} (k : string) (v : V) (d : list (string * V))
  : list (string * V) :=
  match d with
  | [] => [(k, v)]
  | (k', v') :: rest =>
      if String.eqb k' k then (k', v) :: rest else (k', v') :: dict_set k v rest
  end.

Definition dict_get {V : Type} (k : string) (d : list (string * V)) : option V :=
  match find (fun kv => String.eqb (fst kv) k) d with
  | Some kv => Some (snd kv)
  | None => None
  end.

(** The truth value of a [Decimal]. *)
Definition decimal_truthy (d : decimal) : bool :=
  match d with
  | DecFinite q => negb (dec_is_zero q)
  | _ => true
  end.

Definition fallback_all (currencies : list string) (rates : gmap string Qc)
  : gmap string Qc :=
  fold_left (fun rates c => <[c := MarketDataConfig.fallback_get c 0%Qc]> rates)
            currencies rates.

Fixpoint _get_rates_from_db (env : environment) (currencies : list string)
    (rates : gmap string Qc) : result (gmap string Qc) * list event :=
  match currencies with
  | [] => (Ok rates, [])
  | c :: rest =>
      match latest_record env c with
      | Raise e => (Raise e, [StoreLatest c])
      | Ok record =>
          let rates' :=
            match record with
            | Some (mkStored _ (Some r) _) =>
                if decimal_truthy r
                then <[c := sanitize_decimal (Some r)]> rates
                else <[c := MarketDataConfig.fallback_get c 0%Qc]> rates
            | _ => <[c := MarketDataConfig.fallback_get c 0%Qc]> rates
            end in
          let '(res, tr) := _get_rates_from_db env rest rates' in
          (res, StoreLatest c :: tr)
      end
  end.

Definition build_ticker_map (currencies : list string) : list (string * string) :=
  fold_left
    (fun m c =>
       match MarketDataConfig.resolve_ticker c with
       | Some ticker => if String.eqb ticker "" then m else dict_set c ticker m
       | None => m
       end)
    currencies [].

(** The loop that merges the provider's answer into [rates] and collects
    what is to be persisted. *)
Fixpoint merge_fresh (ticker_map : list (string * string))
    (new_rates_map : gmap string Qc) (currencies : list string)
    (rates : gmap string Qc) (persistence_data : list (string * Qc))
  : gmap string Qc * list (string * Qc) :=
  match currencies with
  | [] => (rates, persistence_data)
  | c :: rest =>
      match dict_get c ticker_map with
      | Some ticker =>
          match new_rates_map !! ticker with
          | Some rate =>
              merge_fresh ticker_map new_rates_map rest
                (<[c := rate]> rates) (dict_set c rate persistence_data)
          | None =>
              merge_fresh ticker_map new_rates_map rest
                (<[c := MarketDataConfig.fallback_get c 0%Qc]> rates) persistence_data
          end
      | None =>
          merge_fresh ticker_map new_rates_map rest
            (<[c := MarketDataConfig.fallback_get c 0%Qc]> rates) persistence_data
      end
  end.

Definition _fetch_fresh_rates (env : environment) (currencies : list string)
    (rates : gmap string Qc) : gmap string Qc * list event :=
  let ticker_map := build_ticker_map currencies in
  match ticker_map with
  | [] => (rates, [])
  | _ =>
      if negb (lock_acquired env) then (fallback_all currencies rates, [])
      else
        let tickers_to_query := map snd ticker_map in
        match fetch_current_rates env tickers_to_query with
        | Raise _ =>
            (fallback_all currencies rates, [ProviderCurrent tickers_to_query])
        | Ok new_rates_map =>
            let '(rates', persistence_data) :=
              merge_fresh ticker_map new_rates_map currencies rates [] in
            let valid_persistence :=
              filter (fun kv => dec_ltb 0 (snd kv)) persistence_data in
            match valid_persistence with
            | [] => (rates', [ProviderCurrent tickers_to_query])
            | _ =>
                match save_rates env valid_persistence with
                | Ok _ =>
                    (rates', [ProviderCurrent tickers_to_query;
                              SaveRates valid_persistence])
                | Raise _ =>
                    (fallback_all currencies rates',
                     [ProviderCurrent tickers_to_query;
                      SaveRates valid_persistence])
                end
            end
        end
  end.

Inductive source : Type := fresh | cache.

Definition get_rates (env : environment) (currencies : list string) (src : source)
  : result (gmap string Qc) * list event :=
  let rates : gmap string Qc := {[ USD := 1%Qc ]} in
  let to_fetch := filter (fun c => negb (String.eqb c USD)) currencies in
  match to_fetch with
  | [] => (Ok rates, [])
  | _ =>
      match src with
      | fresh =>
          let '(r, tr) := _fetch_fresh_rates env to_fetch rates in (Ok r, tr)
      | cache => _get_rates_from_db env to_fetch rates
      end
  end.

(** [db_cache[d_str][c] = rate], creating the inner dict when missing. *)
Definition cache_set (d : date) (c : string) (rate : Qc)
    (db_cache : gmap Z (gmap string Qc)) : gmap Z (gmap string Qc) :=
  <[d := <[c := rate]> (default ∅ (db_cache !! d))]> db_cache.

(** [db_cache.get(d_str, {}).get(c)] *)
Definition cache_get (d : date) (c : string) (db_cache : gmap Z (gmap string Qc))
  : option Qc :=
  default ∅ (db_cache !! d) !! c.

Definition cache_of_records (db_records : list stored_rate) : gmap Z (gmap string Qc) :=
  fold_left
    (fun cache r =>
       cache_set (date_of (sr_timestamp r)) (sr_currency r)
                 (sanitize_decimal (sr_rate r)) cache)
    db_records ∅.

Definition build_needed_tickers (currencies : list string)
  : list (string * option string) :=
  fold_left
    (fun m c =>
       if String.eqb c USD then m
       else dict_set c (MarketDataConfig.resolve_ticker c) m)
    currencies [].

Definition is_missing (db_cache : gmap Z (gmap string Qc)) (d : date) (c : string) : bool :=
  match db_cache !! d with
  | None => true
  | Some m => match m !! c with None => true | Some _ => false end
  end.

Definition missing_any (db_cache : gmap Z (gmap string Qc)) (dates : list date)
    (currencies : list string) : bool :=
  existsb
    (fun d => existsb (fun c => negb (String.eqb c USD) && is_missing db_cache d c)
                      currencies)
    dates.

Definition truthy_ticker (t : option string) : bool :=
  match t with
  | Some s => negb (String.eqb s "")
  | None => false
  end.

(** [list(set(t for t in needed_tickers.values() if t))] *)
Definition unique_tickers (needed : list (string * option string)) : list string :=
  remove_dups (omap (fun kv => if truthy_ticker (snd kv) then snd kv else None) needed).

(** The cell read for a ticker: the row itself when a single ticker was
    asked for ([.item()] of anything but one cell raises). *)
Definition cell_value (n_tickers : nat) (row : frame_row) (ticker : string)
  : result (option decimal) :=
  if (n_tickers =? 1)%nat then
    match fr_cells row with
    | [(_, v)] => Ok (Some v)
    | _ => Raise ValueError
    end
  else Ok (dict_get ticker (fr_cells row)).

(** The inner loop over [needed_tickers.items()] for one row of the frame. *)
Fixpoint merge_row (n_tickers : nat) (row : frame_row)
    (needed : list (string * option string))
    (db_cache : gmap Z (gmap string Qc)) (records_to_save : list (string * Qc * datetime))
  : result (gmap Z (gmap string Qc) * list (string * Qc * datetime)) :=
  match needed with
  | [] => Ok (db_cache, records_to_save)
  | (c, ticker) :: rest =>
      if negb (truthy_ticker ticker)
      then merge_row n_tickers row rest db_cache records_to_save
      else
        val ← cell_value n_tickers row (default "" ticker);
        match val with
        | None => merge_row n_tickers row rest db_cache records_to_save
        | Some v =>
            let rate := sanitize_decimal (Some v) in
            if dec_is_zero rate
            then merge_row n_tickers row rest db_cache records_to_save
            else merge_row n_tickers row rest
                   (cache_set (date_of (fr_index row)) c rate db_cache)
                   (records_to_save ++ [(c, rate, fr_index row)])
        end
  end.

Fixpoint merge_frame (n_tickers : nat) (frame : list frame_row)
    (needed : list (string * option string))
    (db_cache : gmap Z (gmap string Qc)) (records_to_save : list (string * Qc * datetime))
  : result (gmap Z (gmap string Qc) * list (string * Qc * datetime)) :=
  match frame with
  | [] => Ok (db_cache, records_to_save)
  | row :: rest =>
      let d := date_of (fr_index row) in
      let db_cache' :=
        match db_cache !! d with
        | None => <[d := ∅]> db_cache
        | Some _ => db_cache
        end in
      '(cache', recs') ← merge_row n_tickers row needed db_cache' records_to_save;
      merge_frame n_tickers rest needed cache' recs'
  end.

(** [for i in range(1, 8)]: the most recent value of the seven days before. *)
Fixpoint look_back (db_cache : gmap Z (gmap string Qc)) (d : date) (c : string)
    (i : Z) (n : nat) : option Qc :=
  match n with
  | O => None
  | S n' =>
      match cache_get (d - i) c db_cache with
      | Some v => Some v
      | None => look_back db_cache d c (i + 1) n'
      end
  end.

(** [val or Decimal("0.0")] *)
Definition value_or_zero (val : option Qc) : Qc :=
  match val with
  | Some v => v
  | None => 0%Qc
  end.

Definition rates_for_date (db_cache : gmap Z (gmap string Qc)) (d : date)
    (currencies : list string) : gmap string Qc :=
  fold_left
    (fun m c =>
       if String.eqb c USD then m
       else
         let val :=
           match cache_get d c db_cache with
           | Some v => Some v
           | None => look_back db_cache d c 1 7
           end in
         <[c := value_or_zero val]> m)
    currencies {[ USD := 1%Qc ]}.

Definition finalize (db_cache : gmap Z (gmap string Qc)) (dates : list date)
    (currencies : list string) : gmap Z (gmap string Qc) :=
  fold_left (fun result d => <[d := rates_for_date db_cache d currencies]> result)
            dates ∅.

Definition list_min (l : list Z) : Z :=
  match l with [] => 0 | x :: xs => fold_left Z.min xs x end.
Definition list_max (l : list Z) : Z :=
  match l with [] => 0 | x :: xs => fold_left Z.max xs x end.

(** [datetime.combine(d, time.max)] *)
Definition end_of_day (d : date) : datetime := midnight d + (MICROS_PER_DAY - 1).

Definition get_historical_rates_range (env : environment) (dates : list date)
    (currencies : list string)
  : result (gmap Z (gmap string Qc)) * list event :=
  match dates, currencies with
  | [], _ => (Ok ∅, [])
  | _, [] => (Ok ∅, [])
  | _, _ =>
      let start_date := list_min dates in
      let end_date := list_max dates in
      let start_dt := midnight (start_date - 7) in
      let end_dt := end_of_day end_date in
      let db_cache := cache_of_records (get_rates_series env currencies start_dt end_dt) in
      let read := StoreSeries currencies start_dt end_dt in
      let needed_tickers := build_needed_tickers currencies in
      if missing_any db_cache dates currencies then
        match unique_tickers needed_tickers with
        | [] => (Ok (finalize db_cache dates currencies), [read])
        | tickers =>
            let ask := ProviderHistorical tickers (start_date - 7) (end_date + 1) in
            let raw_df := fetch_historical_rates env tickers (start_date - 7) (end_date + 1) in
            match merge_frame (length tickers) raw_df needed_tickers db_cache [] with
            | Raise e => (Raise e, [read; ask])
            | Ok (db_cache', records_to_save) =>
                match records_to_save with
                | [] => (Ok (finalize db_cache' dates currencies), [read; ask])
                | _ => (Ok (finalize db_cache' dates currencies),
                        [read; ask; SaveHistoryBatch records_to_save true])
                end
            end
        end
      else (Ok (finalize db_cache dates currencies), [read])
  end.

(** [get_historical_rates(target_date, currencies)]: the range lookup of the
    one date, then [res.get(target_date.isoformat(), {"USD": Decimal("1.0")})]. *)
Definition get_historical_rates (env : environment) (target_date : date)
    (currencies : list string) : result (gmap string Qc) * list event :=
  let '(res, tr) := get_historical_rates_range env [target_date] currencies in
  (m ← res; Ok (default {[ USD := 1%Qc ]} (m !! target_date)), tr).

End MarketDataService.

(** ** utils/datetime_utils.py *)
Module datetime_utils.

(** A [datetime] object as Python orders it: its reading in microseconds and
    whether it carries a [tzinfo]. *)
Record pydatetime : Type := mkDatetime {
  reading : Z;
  tzinfo : bool
}.

(** [utc_now()]: the UTC clock with the [tzinfo] stripped. *)
Definition utc_now (clock : Z) : pydatetime := mkDatetime clock false.

(** [dt.replace(tzinfo=timezone.utc)] *)
Definition replace_tzinfo_utc (dt : pydatetime) : pydatetime :=
  mkDatetime (reading dt) true.

(** [dt + timedelta(minutes=n)] *)
Definition plus_minutes (dt : pydatetime) (n : Z) : pydatetime :=
  mkDatetime (reading dt + n * 60000000) (tzinfo dt).

(** [a > b]: an offset-naive and an offset-aware datetime do not order. *)
Definition datetime_gt (a b : pydatetime) : result bool :=
  if Bool.eqb (tzinfo a) (tzinfo b) then Ok (reading b <? reading a)
  else Raise TypeError.

End datetime_utils.

(** ** validators/transaction_validator.py *)
Module TransactionValidator.
Import datetime_utils.

Definition MAX_TRANSACTION_VALUE : Qc := Q2Qc (1000000000000 # 1).
Definition MAX_ASSET_QUANTITY : Qc := Q2Qc (1000000000 # 1).

(** The fields of [schemas.TransactionCreate] the validator reads. *)
Record TransactionCreate : Type := mkTransactionCreate {
  txn_date : pydatetime;
  quantity_change : decimal;
  price_per_unit : decimal;
  fees : decimal
}.

(** [a < b] on decimals: an ordering with NaN signals InvalidOperation. *)
Definition decimal_lt (a b : decimal) : result bool :=
  match a, b with
  | DecNaN, _ => Raise InvalidOperation
  | _, DecNaN => Raise InvalidOperation
  | DecFinite x, DecFinite y => Ok (dec_ltb x y)
  | DecInf n, DecInf n' => Ok (n && negb n')
  | DecInf n, DecFinite _ => Ok n
  | DecFinite _, DecInf n => Ok (negb n)
  end.

(** [abs(x)] *)
Definition dec_abs (x : Qc) : Qc := if dec_ltb x 0 then (- x)%Qc else x.

(** [current_quantity + q] for a finite [q]; [None + q] raises. *)
Definition add_change (current_quantity : option decimal) (q : Qc) : result decimal :=
  match current_quantity with
  | None => Raise TypeError
  | Some (DecFinite c) => Ok (DecFinite (c + q)%Qc)
  | Some DecNaN => Ok DecNaN
  | Some (DecInf n) => Ok (DecInf n)
  end.

(** [validate_transaction(transaction, asset, current_quantity)], with the
    clock reading [utc_now()] takes. *)
Definition validate_transaction (clock : Z) (transaction : TransactionCreate)
    (current_quantity : option decimal) : result bool :=
  match price_per_unit transaction with
  | DecFinite price =>
      match quantity_change transaction with
      | DecFinite change =>
          let aware_date :=
            if tzinfo (txn_date transaction) then txn_date transaction
            else replace_tzinfo_utc (txn_date transaction) in
          let now_val := utc_now clock in
          future ← datetime_gt aware_date (plus_minutes now_val 5);
          if (future : bool) then Raise ValueError
          else if dec_ltb price 0 then Raise ValueError
          else
            negative_fees ← decimal_lt (fees transaction) (DecFinite 0%Qc);
            if (negative_fees : bool) then Raise ValueError
            else if dec_ltb MAX_TRANSACTION_VALUE price then Raise ValueError
            else
              let total_value := dec_abs (change * price)%Qc in
              if dec_ltb MAX_TRANSACTION_VALUE total_value then Raise ValueError
              else if dec_ltb MAX_ASSET_QUANTITY (dec_abs change) then Raise ValueError
              else
                new_quantity ← add_change current_quantity change;
                negative ← decimal_lt new_quantity (DecFinite 0%Qc);
                if (negative : bool) then Raise ValueError
                else
                  over ← decimal_lt (DecFinite MAX_ASSET_QUANTITY) new_quantity;
                  if (over : bool) then Raise ValueError else Ok true
      | _ => Raise ValueError
      end
  | _ => Raise ValueError
  end.

End TransactionValidator.

(** ** api/endpoints/transactions.py *)
Module transactions_endpoint.
Import TransactionValidator.

(** What a handler gives back: its return value or the [HTTPException] it
    raises. *)
Inductive response (A : Type) : Type :=
  | Returned (a : A)
  | HTTPException (status_code : Z).
Arguments Returned {A} a.
Arguments HTTPException {A} status_code.

(** [create_transaction]: [asset] is what [crud.get_asset] found, and
    [crud_create_transaction] what [crud.create_transaction] does when it is
    reached. *)
Definition create_transaction {A : Type} (clock : Z) (asset : option models.Asset)
    (transaction : TransactionCreate) (crud_create_transaction : unit -> result A)
  : response A :=
  match asset with
  | None => HTTPException 404
  | Some a =>
      match (_ ← validate_transaction clock transaction (models.quantity a);
             crud_create_transaction tt) with
      | Ok created => Returned created
      | Raise ValueError => HTTPException 400
      | Raise _ => HTTPException 500
      end
  end.

End transactions_endpoint.

(** ** Vocabulary of the statements *)
Module vocabulary.
Import math_utils.

(** A cash-flow series in the order [xirr] documents: (date, amount). *)
Definition dated_tuples (l : list (date * float)) : list (pyval * pyval) :=
  map (fun x => (PyDate (fst x), PyFloat (snd x))) l.

Definition has_positive (l : list (date * float)) : bool :=
  existsb (fun x => (0 <? snd x)%float) l.

Definition has_negative (l : list (date * float)) : bool :=
  existsb (fun x => (snd x <? 0)%float) l.

(** The date [xirr] measures from: the first of the sorted series. *)
Definition start_date_of (l : list (date * float)) : date :=
  match sort_by_date l with
  | (d, _) :: _ => d
  | [] => 0
  end.

(** The unique key of a batch record and of a stored row. *)
Definition rec_key (rec : MarketDataPersistence.rate_record) : string * datetime :=
  (MarketDataPersistence.rec_currency rec, MarketDataPersistence.rec_timestamp rec).

Definition row_key (row : MarketDataPersistence.ExchangeRateHistory) : string * datetime :=
  (MarketDataPersistence.currency row, MarketDataPersistence.timestamp row).

(** The row holds the record's currency, rate and timestamp. *)
Definition stored_as (row : MarketDataPersistence.ExchangeRateHistory)
    (rec : MarketDataPersistence.rate_record) : Prop :=
  MarketDataPersistence.currency row = MarketDataPersistence.rec_currency rec /\
  MarketDataPersistence.rate row = MarketDataPersistence.rec_rate rec /\
  MarketDataPersistence.timestamp row = MarketDataPersistence.rec_timestamp rec.

(** The batch's ranges name the timestamp [ts] for the currency [c]. *)
Definition covers (ranges : list (string * MarketDataPersistence.currency_range))
    (c : string) (ts : datetime) : Prop :=
  exists g, (c, g) ∈ ranges /\ ts ∈ MarketDataPersistence.range_timestamps g.

(** The rate map holds the rate [r] under [key], or holds none there: the
    key is missing or maps to [None]. *)
Definition has_rate (rates : gmap string (option Qc)) (key : string) (r : Qc) : Prop :=
  rates !! key = Some (Some r).

Definition no_rate (rates : gmap string (option Qc)) (key : string) : Prop :=
  rates !! key = None \/ rates !! key = Some None.

(** The alias variants of a symbol, in the order of preference: the symbol,
    the symbol with the FX suffix, with the USD-quote suffix, without the
    USD-quote suffix, without the FX suffix. *)
Definition alias_variants (symbol : string) : list string :=
  [ symbol;
    symbol ++ "=X";
    symbol ++ "-USD";
    PyStr.remove "-USD" symbol;
    PyStr.remove "=X" symbol ]%string.

(** [r] is the pivot rate of the currency in the rate map: the rate under
    the first alias variant that has one.  The currency is absent from the
    map when no variant has a rate. *)
Definition pivot_rate (rates : gmap string (option Qc)) (currency : string) (r : Qc)
  : Prop :=
  exists (i : nat) (alt : string),
    alias_variants currency !! i = Some alt /\
    has_rate rates alt r /\
    forall (j : nat) (alt' : string),
      (j < i)%nat -> alias_variants currency !! j = Some alt' -> no_rate rates alt'.

Definition absent (rates : gmap string (option Qc)) (currency : string) : Prop :=
  forall alt, alt ∈ alias_variants currency -> no_rate rates alt.

(** The span and the currencies a backfill run works on: those it is given
    when it is manual, those it discovers otherwise; [None] when the run
    returns before it reaches the tiers. *)
Definition run_request (env : HistoryBackfillAgent.environment)
    (currency : option string) (start_date end_date : option date)
  : option (date * date * list string) :=
  let discovered :=
    match HistoryBackfillAgent.earliest_purchase_date env,
          HistoryBackfillAgent.managed_currencies env with
    | Some earliest, c :: cs => Some (earliest, HistoryBackfillAgent.today env, c :: cs)
    | _, _ => None
    end in
  match currency, start_date, end_date with
  | Some c, Some s_date, Some e_date =>
      if String.eqb c "" then discovered
      else if String.eqb c "USD" then None
      else Some (s_date, e_date, [c])
  | _, _, _ => discovered
  end.

(** The store as the first [k] tiers of a run leave it. *)
Definition store_after_tiers (env : HistoryBackfillAgent.environment)
    (agent_config : list (string * Z)) (s_date e_date : date)
    (currencies : list string) (force : bool) (db : MarketDataPersistence.store)
    (k : nat) : MarketDataPersistence.store :=
  fst (HistoryBackfillAgent.run_tiers env
         (take k (HistoryBackfillAgent.tiers agent_config))
         s_date e_date currencies force db (HistoryBackfillAgent.mkStats 0 0 0)).

(** The quantity effect of a transaction on asset [k], as the
    reconstruction reads the ledger: a BUY counts its quantity, a SELL its
    opposite, any other type nothing. *)
Definition signed_change (tx : models.Transaction) (k : Z) : Qc :=
  if decide (models.tx_asset_id tx = k) then
    if String.eqb (models.tx_type tx) "BUY"
    then sanitize_decimal (models.tx_quantity_change tx)
    else if String.eqb (models.tx_type tx) "SELL"
    then (- sanitize_decimal (models.tx_quantity_change tx))%Qc
    else 0%Qc
  else 0%Qc.

Definition net_change (txs : list models.Transaction) (k : Z) : Qc :=
  foldr (fun tx acc => (signed_change tx k + acc)%Qc) 0%Qc txs.

(** The test of the sweep's inner loop: [tx.date.date() > d]. *)
Definition later_day (d : date) (tx : models.Transaction) : bool :=
  d <? date_of (models.tx_date tx).

(** The transaction is of the member [t] of [TransactionType]. *)
Definition is_type (t : models.TransactionType) (tx : models.Transaction) : bool :=
  String.eqb (models.tx_type tx) (models.TransactionType_value t).

(** The forward replay of the consistency property, in the words of the
    specification: of the transactions dated after [d], a purchase adds its
    quantity and a sale subtracts it.  Purchase and sale are the members
    [BUY] and [SELL] of [TransactionType], the type the ledger's writers
    set. *)
Definition forward_apply (tx : models.Transaction) (qty : gmap Z Qc) : gmap Z Qc :=
  let q := sanitize_decimal (models.tx_quantity_change tx) in
  if is_type models.BUY tx
  then alter (fun x => x + q)%Qc (models.tx_asset_id tx) qty
  else if is_type models.SELL tx
  then alter (fun x => x - q)%Qc (models.tx_asset_id tx) qty
  else qty.

Definition dated_after (d : date) (ledger : list models.Transaction)
  : list models.Transaction :=
  filter (fun tx => d <? date_of (models.tx_date tx)) ledger.

Definition forward_replay (d : date) (ledger : list models.Transaction)
    (qty : gmap Z Qc) : gmap Z Qc :=
  fold_left (fun qty tx => forward_apply tx qty) (dated_after d ledger) qty.

(** The two readings of "after the date [d]" agree on the ledger at the
    listed dates.  On PostgreSQL a transaction dated on a listed date is
    stamped at its midnight; on SQLite no transaction is dated on a listed
    date. *)
Definition day_aligned (dia : dialect) (ledger : list models.Transaction)
    (dates : list date) : Prop :=
  forall tx d, tx ∈ ledger -> d ∈ dates ->
    date_of (models.tx_date tx) = d ->
    match dia with
    | postgresql => models.tx_date tx = midnight d
    | sqlite => False
    end.

(** A store in which a tier finds nothing to delete: no row older than the
    cutoff has another such row of its partition sorting before it. *)
Definition no_surplus (bucket : datetime -> Z * Z) (cutoff : datetime)
    (db : MarketDataPersistence.store) : Prop :=
  forall r r', r ∈ db -> r' ∈ db ->
    MarketCompactorAgent.selected cutoff r = true ->
    MarketCompactorAgent.selected cutoff r' = true ->
    MarketCompactorAgent.same_partition bucket r' r = true ->
    MarketCompactorAgent.sorts_before r' r = false.

(** The event names the pivot: a store or provider request, or a write,
    that has USD among its symbols. *)
Definition names_usd (e : MarketDataService.event) : Prop :=
  match e with
  | MarketDataService.StoreLatest c => c = MarketDataService.USD
  | MarketDataService.StoreSeries cs _ _ => MarketDataService.USD ∈ cs
  | MarketDataService.ProviderCurrent ts => MarketDataService.USD ∈ ts
  | MarketDataService.ProviderHistorical ts _ _ => MarketDataService.USD ∈ ts
  | MarketDataService.SaveRates rates => MarketDataService.USD ∈ map fst rates
  | MarketDataService.SaveHistoryBatch records _ =>
      MarketDataService.USD ∈ map (fun r => fst (fst r)) records
  end.

(** A ticker in the form the provider is asked in: it carries the USD-quote
    or the FX suffix, or a dot. *)
Definition provider_shaped (t : string) : bool :=
  PyStr.endswith t "-USD" || PyStr.endswith t "=X" || PyStr.contains "." t.

(** The rate a fresh lookup settles on for a currency: the provider's rate
    for its ticker, else the static fallback, else zero. *)
Definition provider_or_fallback (new_rates_map : gmap string Qc) (c : string) : Qc :=
  match MarketDataConfig.resolve_ticker c with
  | Some ticker =>
      match new_rates_map !! ticker with
      | Some rate => rate
      | None => MarketDataConfig.fallback_get c 0%Qc
      end
  | None => MarketDataConfig.fallback_get c 0%Qc
  end.

(** The rate the store holds for a currency on a calendar day: that of the
    last record of the day, in the order the store returned the records. *)
Definition stored_on (records : list MarketDataService.stored_rate) (d : date)
    (c : string) : option Qc :=
  (fun r => sanitize_decimal (MarketDataService.sr_rate r))
    <$> last (filter (fun r => (date_of (MarketDataService.sr_timestamp r) =? d) &&
                               String.eqb (MarketDataService.sr_currency r) c)
                     records).

(** The cutoffs of the four compaction tiers of a run. *)
Definition tier_cutoffs (utc_now : nat -> datetime) (cfg : list (string * Z))
  : list datetime :=
  [ MarketCompactorAgent.days_before (utc_now 0%nat)
      (MarketCompactorAgent.config_get cfg "retention_5min_days" 3);
    MarketCompactorAgent.days_before (utc_now 1%nat)
      (MarketCompactorAgent.config_get cfg "retention_15min_days" 14);
    MarketCompactorAgent.days_before (utc_now 2%nat)
      (MarketCompactorAgent.config_get cfg "retention_1h_days" 90);
    MarketCompactorAgent.days_before (utc_now 3%nat)
      (MarketCompactorAgent.config_get cfg "retention_1d_days" 365) ].

(** Every transaction of the ledger is typed with the value of a member of
    [TransactionType], as [crud.create_asset] types the opening purchase. *)
Definition enum_typed (ledger : list models.Transaction) : Prop :=
  forall tx, tx ∈ ledger ->
    exists t, models.tx_type tx = models.TransactionType_value t.

(** Neither [is_infinite()] nor [is_nan()]. *)
Definition decimal_is_finite (d : decimal) : bool :=
  match d with
  | DecFinite _ => true
  | _ => false
  end.

(** The rows of price_history [get_history] may use for asset [aid] at the
    date [d]: those of the asset dated on or before [d] that the query up to
    [end_date] returns, which on PostgreSQL are the rows not after the
    midnight that starts [end_date] and on SQLite the rows of the days
    before [end_date]. *)
Definition price_candidate (dia : dialect) (end_date d : date) (aid : Z)
    (mp : models.PriceHistory) : Prop :=
  models.ph_asset_id mp = aid /\
  match dia with
  | postgresql => models.ph_date mp <= midnight end_date
  | sqlite => date_of (models.ph_date mp) < end_date
  end /\
  date_of (models.ph_date mp) <= d.

(** 10^8, the scale [quantize8] rounds at. *)
Definition scale8 : Qc := Q2Qc (100000000 # 1).

(** The unit price [get_price] settles on for an asset, and the value of the
    asset at the quantity the map holds for it. *)
Definition unit_price_of (rates : gmap string (option Qc))
    (manual_prices : gmap Z (Qc * option string)) (main_currency : string)
    (a : models.Asset) : Qc :=
  let r := ValuationService._get_rate_safe id rates (Some main_currency) 1%Qc in
  if dec_is_zero r then 0%Qc
  else (ValuationService.price_in_usd a rates manual_prices / r)%Qc.

Definition asset_value (quantities : gmap Z Qc) (rates : gmap string (option Qc))
    (manual_prices : gmap Z (Qc * option string)) (main_currency : string)
    (a : models.Asset) : Qc :=
  (default 0%Qc (quantities !! models.asset_id a)
   * unit_price_of rates manual_prices main_currency a)%Qc.

End vocabulary.

(** ** Sample data for the worked examples *)
Module samples.

(** [math.pow] at the exponents 0 and 1, where IEEE 754 fixes its value; the
    examples run through it use no other exponent (it raises there). *)
Definition pow_exact (x y : float) : result float :=
  if (y =? 0)%float then Ok 1%float
  else if (y =? 1)%float then Ok x
  else Raise ValueError.

(** 1000 paid and 1100 received on the same day. *)
Definition same_day_flows : list (date * float) :=
  [(0, (-1000)%float); (0, 1100%float)].

(** A store that caches EUR at 1.0 for day 99, and a provider series that has
    1.25 for the same instant. *)
Definition cached_store : MarketDataPersistence.store :=
  [ MarketDataPersistence.mkRow 1 "EUR" (MarketDataPersistence.RFloat 1) (midnight 99) ].

Definition fetched_series : HistoryBackfillAgent.series :=
  [ (midnight 99, [("EUR"%string, MarketDataPersistence.RFloat 1.25)]) ].

(** Day 100, a provider that answers the 5-minute tier with that series. *)
Definition backfill_env : HistoryBackfillAgent.environment :=
  HistoryBackfillAgent.mkEnv 100 100 None []
    (fun _ _ _ interval =>
       if String.eqb interval "5m" then Ok fetched_series else Ok []).

(** A series with an amount that is not a number. *)
Definition nan_flows : list (date * float) :=
  [(0, (-1000)%float); (0, 1100%float); (0, nan)].

(** An asset without ticker, bought at 10 USD. *)
Definition usd_asset : models.Asset :=
  models.mkAsset 1 None None (Some (Q2Qc 10)) (Some "USD"%string).

(** A rate map with EUR at 5/4, and one that holds a zero for EUR under its
    FX symbol. *)
Definition eur_rates : gmap string (option Qc) :=
  {[ "EUR"%string := Some (Q2Qc (5 # 4)) ]}.

Definition zero_rates : gmap string (option Qc) :=
  {[ "EUR=X"%string := Some 0%Qc ]}.

(** One asset holding 10 units, bought into by 4 units at noon of day 5 and
    sold out of by 1 unit on day 8. *)
Definition one_asset : list models.Asset :=
  [ models.mkAsset 1 None (Some (DecFinite (Q2Qc 10))) None None ].

Definition noon : datetime := 43200000000.

Definition noon_buy : models.Transaction :=
  models.mkTransaction 1 "BUY" (midnight 5 + noon) (Some (DecFinite (Q2Qc 4))).

Definition later_sell : models.Transaction :=
  models.mkTransaction 1 "SELL" (midnight 8) (Some (DecFinite (Q2Qc 1))).

Definition sample_ledger : list models.Transaction := [noon_buy; later_sell].

(** An empty store behind a provider that answers nothing. *)
Definition offline_env : MarketDataService.environment :=
  MarketDataService.mkEnv
    (fun _ => Ok None) (fun _ _ _ => []) true
    (fun _ => Ok ∅) (fun _ _ _ => []) (fun _ => Ok tt).

(** Day 100 at every reading of the clock, and a store with two EUR points
    in one quarter of an hour of day 90 and one a day later. *)
Definition clock_day_100 : nat -> datetime := fun _ => midnight 100.

Definition crowded_store : MarketDataPersistence.store :=
  [ MarketDataPersistence.mkRow 1 "EUR" (MarketDataPersistence.RFloat 1.25)
      (midnight 90 + 120000000);
    MarketDataPersistence.mkRow 2 "EUR" (MarketDataPersistence.RFloat 1.5)
      (midnight 90 + 60000000);
    MarketDataPersistence.mkRow 3 "EUR" (MarketDataPersistence.RFloat 1.75)
      (midnight 91) ].

(** A purchase typed with the value of [TransactionType.BUY]. *)
Definition stored_buy : models.Transaction :=
  models.mkTransaction 1 (models.TransactionType_value models.BUY) (midnight 8)
    (Some (DecFinite (Q2Qc 4))).

(** A manual price of 12 EUR entered for asset 1 at noon of day 3, and one
    of 13 EUR entered at the midnight that starts day 5. *)
Definition noon_price : models.PriceHistory :=
  models.mkPriceHistory 1 (midnight 3 + noon) (Some (DecFinite (Q2Qc 12)))
    (Some "EUR"%string).

Definition midnight_price : models.PriceHistory :=
  models.mkPriceHistory 1 (midnight 5) (Some (DecFinite (Q2Qc 13)))
    (Some "EUR"%string).

End samples.

(** * Properties *)

(** ** Decimal arithmetic *)

Lemma dec_is_zero_true (q : Qc) : dec_is_zero q = true <-> q = 0%Qc.
Proof.
  unfold dec_is_zero. rewrite Qeq_bool_iff. split.
  - intros H. apply Qc_is_canon. exact H.
  - intros ->. reflexivity.
Qed.

Lemma dec_is_zero_false (q : Qc) : dec_is_zero q = false <-> q <> 0%Qc.
Proof.
  rewrite <- dec_is_zero_true. destruct (dec_is_zero q); split; congruence.
Qed.

(** ** TickerResolver *)

(** C2, amended: the table of the spec with the AAPL row as the code has it
    ("AAPL" is neither provider-shaped, nor dotted, nor a crypto asset, nor
    three letters long, so it gets the generic USD-quote suffix). *)
Theorem resolve_ticker_table :
  MarketDataConfig.resolve_ticker "EUR" = Some "EURUSD=X"%string /\
  MarketDataConfig.resolve_ticker "BTC" = Some "BTC-USD"%string /\
  MarketDataConfig.resolve_ticker "AAPL" = Some "AAPL-USD"%string /\
  MarketDataConfig.resolve_ticker "USD" = None.
Proof. repeat split; reflexivity. Qed.

(** C2 as stated fails on its third row. *)
Lemma resolve_ticker_AAPL_counterexample :
  MarketDataConfig.resolve_ticker "AAPL" = Some "AAPL-USD"%string /\
  MarketDataConfig.resolve_ticker "AAPL" <> Some "AAPL"%string.
Proof. split; [reflexivity | discriminate]. Qed.

(** ** PerformanceCalculator: time-weighted return *)

Section twr.
Import PerformanceCalculator.

Lemma calculate_twr_zero_start end_value net_flow :
  calculate_twr 0 end_value net_flow = Ok 0%Qc.
Proof. unfold calculate_twr. simpl. by destruct (dec_ltb 0 net_flow). Qed.

Lemma calculate_twr_zero_base start_value end_value net_flow :
  (start_value + net_flow = 0)%Qc ->
  calculate_twr start_value end_value net_flow = Ok 0%Qc.
Proof.
  intros H. unfold calculate_twr.
  destruct (dec_is_zero start_value).
  - by destruct (dec_ltb 0 net_flow).
  - apply dec_is_zero_true in H. by rewrite H.
Qed.

Lemma calculate_twr_formula start_value end_value net_flow :
  start_value <> 0%Qc ->
  (start_value + net_flow)%Qc <> 0%Qc ->
  calculate_twr start_value end_value net_flow
  = Ok ((end_value - net_flow) / start_value - 1)%Qc.
Proof.
  intros Hs Hb. unfold calculate_twr, dec_div.
  apply dec_is_zero_false in Hs, Hb. by rewrite Hs, Hb.
Qed.
End twr.

(** C6, amended: the simple time-weighted return is
    (endValue - netFlow) / startValue - 1 when startValue and
    startValue + netFlow are both nonzero, and 0 when either is zero; it never
    raises. *)
Theorem calculate_twr_amended (start_value end_value net_flow : Qc) :
  (start_value <> 0%Qc -> (start_value + net_flow)%Qc <> 0%Qc ->
   PerformanceCalculator.calculate_twr start_value end_value net_flow
   = Ok ((end_value - net_flow) / start_value - 1)%Qc) /\
  (start_value = 0%Qc ->
   PerformanceCalculator.calculate_twr start_value end_value net_flow = Ok 0%Qc) /\
  ((start_value + net_flow)%Qc = 0%Qc ->
   PerformanceCalculator.calculate_twr start_value end_value net_flow = Ok 0%Qc).
Proof.
  split; [| split].
  - apply calculate_twr_formula.
  - intros ->. apply calculate_twr_zero_start.
  - apply calculate_twr_zero_base.
Qed.

(** The formula branch of C6 at start 100, end 150, flow 20: the return is
    (150 - 20) / 100 - 1. *)
Lemma calculate_twr_amended_witness :
  PerformanceCalculator.calculate_twr (Q2Qc 100) (Q2Qc 150) (Q2Qc 20)
  = Ok ((Q2Qc 150 - Q2Qc 20) / Q2Qc 100 - 1)%Qc.
Proof.
  apply (proj1 (calculate_twr_amended (Q2Qc 100) (Q2Qc 150) (Q2Qc 20)));
    intros H; discriminate (f_equal this H).
Defined.

(** C6 as stated fails: with start 100, flow -100 and end 50 the start is
    nonzero and the formula gives 1/2, the code 0. *)
Lemma calculate_twr_counterexample :
  PerformanceCalculator.calculate_twr (Q2Qc 100) (Q2Qc 50) (Q2Qc (-100)) = Ok 0%Qc /\
  ((Q2Qc 50 - Q2Qc (-100)) / Q2Qc 100 - 1)%Qc = Q2Qc (1 # 2) /\
  Q2Qc (1 # 2) <> 0%Qc /\ Q2Qc 100 <> 0%Qc.
Proof.
  split; [reflexivity |].
  split; [apply Qc_is_canon; reflexivity |].
  split; intros H; discriminate (f_equal this H).
Qed.

(** ** ValuationEngine: the unit price *)

Section valuation.
Import models ValuationService.

(** With a decimal default the lookup is a rate of the map or the default. *)
Lemma _get_rate_safe_absent rates sym (dflt : Qc) :
  rate_hit rates sym = None ->
  first_hit rates (alternatives sym) = None ->
  _get_rate_safe id rates (Some sym) dflt = dflt.
Proof.
  intros Hd Ha. unfold _get_rate_safe.
  destruct (String.eqb sym ""); [done |]. by rewrite Hd, Ha.
Qed.

Lemma first_hit_none rates alts :
  first_hit rates alts = None <-> Forall (fun alt => rate_hit rates alt = None) alts.
Proof.
  induction alts as [| alt alts IH]; simpl.
  - split; [constructor | done].
  - destruct (rate_hit rates alt) eqn:E.
    + split; [done | intros H; inversion H; congruence].
    + rewrite IH. split; [by constructor | by inversion 1].
Qed.

Lemma get_price_unfold asset rates manual_prices main_currency :
  get_price asset rates manual_prices main_currency
  = let r := _get_rate_safe id rates (Some main_currency) 1%Qc in
    Ok (if dec_is_zero r then 0%Qc
        else (price_in_usd asset rates manual_prices / r)%Qc).
Proof.
  unfold get_price, PerformanceCalculator.dec_div. simpl.
  by destruct (dec_is_zero _).
Qed.
End valuation.

Section pivot_rate_facts.
Import models ValuationService vocabulary.

Lemma rate_hit_has_rate rates alt r : rate_hit rates alt = Some r <-> has_rate rates alt r.
Proof.
  unfold rate_hit, has_rate. destruct (rates !! alt) as [[x |] |]; split; congruence.
Qed.

Lemma rate_hit_no_rate rates alt : rate_hit rates alt = None <-> no_rate rates alt.
Proof.
  unfold rate_hit, no_rate. destruct (rates !! alt) as [[x |] |]; split;
    try congruence; try tauto; intros [? | ?]; congruence.
Qed.

Lemma first_hit_first rates r : forall alts (i : nat) alt,
  alts !! i = Some alt ->
  has_rate rates alt r ->
  (forall (j : nat) alt', (j < i)%nat -> alts !! j = Some alt' -> no_rate rates alt') ->
  first_hit rates alts = Some r.
Proof.
  induction alts as [| a alts IH]; intros i alt Hi Hr Hbefore; [done |].
  destruct i as [| i]; simpl.
  - injection Hi as ->. by rewrite (proj2 (rate_hit_has_rate rates alt r) Hr).
  - rewrite (proj2 (rate_hit_no_rate rates a)) by (apply (Hbefore 0%nat); [lia | done]).
    apply (IH i alt Hi Hr). intros j alt' Hj Hl. apply (Hbefore (S j)); [lia | done].
Qed.

Lemma _get_rate_safe_pivot_rate rates currency r (dflt : Qc) :
  currency <> ""%string ->
  pivot_rate rates currency r ->
  _get_rate_safe id rates (Some currency) dflt = r.
Proof.
  intros Hne (i & alt & Hi & Hr & Hbefore). unfold _get_rate_safe.
  rewrite (proj2 (String.eqb_neq _ _) Hne).
  assert (first_hit rates (alternatives currency) = Some r) as Hfirst
    by (by apply (first_hit_first rates r (alias_variants currency) i alt)).
  destruct (rate_hit rates currency) as [r' |] eqn:Edirect; [| by rewrite Hfirst].
  simpl. unfold alternatives in Hfirst. simpl in Hfirst. rewrite Edirect in Hfirst.
  congruence.
Qed.

Lemma _get_rate_safe_absent_variants rates currency (dflt : Qc) :
  absent rates currency -> _get_rate_safe id rates (Some currency) dflt = dflt.
Proof.
  intros Habs. unfold _get_rate_safe. destruct (String.eqb currency ""); [done |].
  assert (first_hit rates (alternatives currency) = None) as Hnone.
  { apply first_hit_none, Forall_forall. intros alt Hin.
    apply rate_hit_no_rate, Habs, Hin. }
  rewrite Hnone.
  unfold alternatives in Hnone. simpl in Hnone.
  by destruct (rate_hit rates currency).
Qed.
End pivot_rate_facts.

(** C5, amended: the unit price is the pivot-denominated price divided by the
    target currency's pivot rate, the rate the map holds under the first
    alias variant of the currency that has one; when that rate is zero the
    price is zero and nothing is divided; when the target currency is absent
    from the rate map under every alias variant its rate defaults to 1 and
    the price is the pivot-denominated price itself.  The valuation never
    raises. *)
Theorem get_price_amended (asset : models.Asset) (rates : gmap string (option Qc))
    (manual_prices : gmap Z (Qc * option string)) (main_currency : string) :
  main_currency <> ""%string ->
  let pivot_price := ValuationService.price_in_usd asset rates manual_prices in
  (forall r, vocabulary.pivot_rate rates main_currency r -> r <> 0%Qc ->
     ValuationService.get_price asset rates manual_prices main_currency
     = Ok (pivot_price / r)%Qc) /\
  (vocabulary.pivot_rate rates main_currency 0%Qc ->
   ValuationService.get_price asset rates manual_prices main_currency = Ok 0%Qc) /\
  (vocabulary.absent rates main_currency ->
   ValuationService.get_price asset rates manual_prices main_currency = Ok pivot_price).
Proof.
  intros Hne pivot_price. rewrite get_price_unfold. cbv zeta. fold pivot_price.
  split; [| split].
  - intros r Hr Hnz. rewrite (_get_rate_safe_pivot_rate rates main_currency r 1%Qc Hne Hr).
    apply dec_is_zero_false in Hnz. by rewrite Hnz.
  - intros Hr. rewrite (_get_rate_safe_pivot_rate rates main_currency 0%Qc 1%Qc Hne Hr).
    done.
  - intros Habs. rewrite (_get_rate_safe_absent_variants rates main_currency 1%Qc Habs).
    simpl. f_equal. field.
    intros H. discriminate (f_equal this H).
Qed.

(** An asset bought at 10 USD, valued in EUR: at a EUR rate of 5/4 the price
    is 8, at a rate of zero, held under [EUR=X], it is zero, and with no EUR
    rate in the map it is 10. *)
Lemma get_price_amended_witness :
  "EUR"%string <> ""%string /\
  (vocabulary.pivot_rate samples.eur_rates "EUR" (Q2Qc (5 # 4)) /\
   Q2Qc (5 # 4) <> 0%Qc /\
   ValuationService.get_price samples.usd_asset samples.eur_rates ∅ "EUR"
   = Ok (ValuationService.price_in_usd samples.usd_asset samples.eur_rates ∅
         / Q2Qc (5 # 4))%Qc) /\
  (vocabulary.pivot_rate samples.zero_rates "EUR" 0%Qc /\
   ValuationService.get_price samples.usd_asset samples.zero_rates ∅ "EUR" = Ok 0%Qc) /\
  (vocabulary.absent ∅ "EUR" /\
   ValuationService.get_price samples.usd_asset ∅ ∅ "EUR"
   = Ok (ValuationService.price_in_usd samples.usd_asset ∅ ∅)).
Proof.
  assert ("EUR"%string <> ""%string) as Hne by discriminate.
  assert (vocabulary.pivot_rate samples.eur_rates "EUR" (Q2Qc (5 # 4))) as Hrate.
  { exists 0%nat, "EUR"%string. split; [reflexivity |]. split; [reflexivity |].
    intros j alt' Hj. lia. }
  assert (Q2Qc (5 # 4) <> 0%Qc) as Hnz.
  { intros H. discriminate (f_equal this H). }
  assert (vocabulary.pivot_rate samples.zero_rates "EUR" 0%Qc) as Hzero.
  { exists 1%nat, "EUR=X"%string. split; [reflexivity |]. split; [reflexivity |].
    intros j alt' Hj Hl. assert (j = 0%nat) as -> by lia.
    injection Hl as <-. by left. }
  assert (vocabulary.absent ∅ "EUR") as Habs.
  { intros alt _. by left. }
  split; [exact Hne |]. split; [| split].
  - split; [exact Hrate |]. split; [exact Hnz |].
    exact (proj1 (get_price_amended samples.usd_asset samples.eur_rates ∅ "EUR" Hne)
             _ Hrate Hnz).
  - split; [exact Hzero |].
    exact (proj1 (proj2 (get_price_amended samples.usd_asset samples.zero_rates ∅ "EUR"
                           Hne)) Hzero).
  - split; [exact Habs |].
    exact (proj2 (proj2 (get_price_amended samples.usd_asset ∅ ∅ "EUR" Hne)) Habs).
Defined.

(** C5 as stated fails: with EUR absent from the rate map under every alias
    the price of the same asset is 10, not zero. *)
Lemma get_price_absent_counterexample :
  Forall (fun alt => ValuationService.rate_hit ∅ alt = None)
         ("EUR"%string :: ValuationService.alternatives "EUR") /\
  ValuationService.get_price samples.usd_asset ∅ ∅ "EUR" = Ok (Q2Qc 10) /\
  Q2Qc 10 <> 0%Qc.
Proof.
  split; [| split].
  - repeat constructor.
  - rewrite get_price_unfold. cbv zeta.
    rewrite _get_rate_safe_absent by reflexivity.
    apply (f_equal Ok). apply Qc_is_canon. reflexivity.
  - intros H. discriminate (f_equal this H).
Qed.

(** ** PerformanceCalculator: money-weighted return *)

Section xirr_facts.
Import math_utils vocabulary.
Variable math_pow : float -> float -> result float.

Lemma sign_scan_dated l p n :
  sign_scan (dated_tuples l) p n
  = Ok (p || has_positive l, n || has_negative l).
Proof.
  revert p n. induction l as [| [d a] l IH]; intros p n; simpl.
  - by rewrite !orb_false_r.
  - rewrite IH. unfold has_positive, has_negative. simpl.
    destruct (0 <? a)%float, (a <? 0)%float, p, n; reflexivity.
Qed.

Lemma dated_dated_tuples l : dated (dated_tuples l) = Some l.
Proof.
  induction l as [| [d a] l IH]; simpl; [done |]. by rewrite IH.
Qed.

Lemma xirr_dated_tuples l guess :
  xirr math_pow (dated_tuples l) guess
  = if has_positive l && has_negative l then xirr_dated math_pow l guess else Ok None.
Proof.
  destruct l as [| x l]; [reflexivity |].
  unfold xirr. change (dated_tuples (x :: l)) with
    ((PyDate (fst x), PyFloat (snd x)) :: dated_tuples l) at 1.
  cbv iota beta.
  rewrite sign_scan_dated. rewrite !orb_false_l.
  unfold mbind, result_bind. rewrite dated_dated_tuples.
  by destruct (has_positive (x :: l) && has_negative (x :: l)).
Qed.

Lemma newton_loop_zero_derivative start cfs k :
  forall n rate r,
    (k < n)%nat ->
    iterate math_pow k start cfs rate = Some r ->
    newton_step math_pow start cfs r = ZeroDerivative ->
    newton_loop math_pow n start cfs rate = Ok None.
Proof.
  induction k as [| k IH]; intros n rate r Hlt Hit Hz.
  - destruct n; [lia |]. simpl in *. injection Hit as ->. by rewrite Hz.
  - destruct n; [lia |]. simpl in *.
    destruct (newton_step math_pow start cfs rate); try discriminate.
    apply (IH n new_rate r); [lia | done | done].
Qed.

Lemma newton_loop_exhausted start cfs n :
  forall rate r,
    iterate math_pow n start cfs rate = Some r ->
    newton_loop math_pow n start cfs rate = Ok None.
Proof.
  induction n as [| n IH]; intros rate r Hit; [reflexivity |].
  simpl in *. destruct (newton_step math_pow start cfs rate); try discriminate.
  by apply (IH new_rate r).
Qed.

Lemma xirr_dated_cases l guess :
  xirr_dated math_pow l guess = Ok None \/
  xirr_dated math_pow l guess
  = newton_loop math_pow MAX_ITERATIONS (start_date_of l) (sort_by_date l) guess.
Proof.
  unfold xirr_dated, start_date_of.
  destruct (sort_by_date l) as [| [d a] rest]; [by left | by right].
Qed.

Lemma xirr_zero_derivative l guess k r :
  (k < MAX_ITERATIONS)%nat ->
  iterate math_pow k (start_date_of l) (sort_by_date l) guess = Some r ->
  newton_step math_pow (start_date_of l) (sort_by_date l) r = ZeroDerivative ->
  xirr math_pow (dated_tuples l) guess = Ok None.
Proof.
  intros Hk Hit Hz. rewrite xirr_dated_tuples.
  destruct (has_positive l && has_negative l); [| done].
  destruct (xirr_dated_cases l guess) as [-> | ->]; [done |].
  by apply (newton_loop_zero_derivative _ _ k _ _ r).
Qed.

Lemma xirr_exhausted l guess r :
  iterate math_pow MAX_ITERATIONS (start_date_of l) (sort_by_date l) guess = Some r ->
  xirr math_pow (dated_tuples l) guess = Ok None.
Proof.
  intros Hit. rewrite xirr_dated_tuples.
  destruct (has_positive l && has_negative l); [| done].
  destruct (xirr_dated_cases l guess) as [-> | ->]; [done |].
  by apply (newton_loop_exhausted _ _ _ _ r).
Qed.

Lemma xirr_no_sign_change l guess :
  has_positive l = false \/ has_negative l = false ->
  xirr math_pow (dated_tuples l) guess = Ok None.
Proof.
  intros H. rewrite xirr_dated_tuples.
  destruct H as [-> | ->]; [done | by rewrite andb_false_r].
Qed.

Variable float_of_decimal : Qc -> float.

Lemma calculate_mwr_zero_unless_rate start_value end_value flows start_date end_date :
  (forall res,
     xirr math_pow
       (PerformanceCalculator.cash_flow_tuples float_of_decimal
          start_value end_value flows start_date end_date)
       DEFAULT_GUESS <> Ok (Some res)) ->
  PerformanceCalculator.calculate_mwr math_pow float_of_decimal
    start_value end_value flows start_date end_date
  = PerformanceCalculator.DecimalZero.
Proof.
  intros H. unfold PerformanceCalculator.calculate_mwr. cbv zeta.
  destruct (xirr _ _ _) as [[res |] | e]; [| done | done].
  by destruct (H res).
Qed.

(** The tuples handed to [xirr] carry the amount first, so its scan compares
    a date with zero and raises. *)
Lemma xirr_cash_flow_tuples_raises start_value end_value flows start_date end_date guess :
  xirr math_pow
    (PerformanceCalculator.cash_flow_tuples float_of_decimal
       start_value end_value flows start_date end_date) guess
  = Raise TypeError.
Proof. reflexivity. Qed.

End xirr_facts.

(** C1, amended: for a cash-flow series given as (date, amount) tuples,
    [xirr] returns no result ([None]) when the amounts lack a positive or a
    negative value, when the derivative is zero at an iterate that has not
    converged, and when 50 iterations pass without convergence; and
    [calculate_mwr] returns the decimal zero, not a marker, whenever [xirr]
    yields no rate. *)
Theorem mwr_no_result_amended (math_pow : float -> float -> result float) :
  (forall l guess,
     vocabulary.has_positive l = false \/ vocabulary.has_negative l = false ->
     math_utils.xirr math_pow (vocabulary.dated_tuples l) guess = Ok None) /\
  (forall l guess k r,
     (k < math_utils.MAX_ITERATIONS)%nat ->
     math_utils.iterate math_pow k (vocabulary.start_date_of l)
       (math_utils.sort_by_date l) guess = Some r ->
     math_utils.newton_step math_pow (vocabulary.start_date_of l)
       (math_utils.sort_by_date l) r = math_utils.ZeroDerivative ->
     math_utils.xirr math_pow (vocabulary.dated_tuples l) guess = Ok None) /\
  (forall l guess r,
     math_utils.iterate math_pow math_utils.MAX_ITERATIONS
       (vocabulary.start_date_of l) (math_utils.sort_by_date l) guess = Some r ->
     math_utils.xirr math_pow (vocabulary.dated_tuples l) guess = Ok None) /\
  (forall float_of_decimal start_value end_value flows start_date end_date,
     (forall res,
        math_utils.xirr math_pow
          (PerformanceCalculator.cash_flow_tuples float_of_decimal
             start_value end_value flows start_date end_date)
          math_utils.DEFAULT_GUESS <> Ok (Some res)) ->
     PerformanceCalculator.calculate_mwr math_pow float_of_decimal
       start_value end_value flows start_date end_date
     = PerformanceCalculator.DecimalZero).
Proof.
  split; [| split; [| split]].
  - apply xirr_no_sign_change.
  - apply xirr_zero_derivative.
  - apply xirr_exhausted.
  - apply calculate_mwr_zero_unless_rate.
Qed.

(** The three ways to no result, on concrete series: 1100 alone has no
    negative amount; 1000 paid and 1100 received on one day have a zero
    derivative at the first iterate; a series with a NaN amount never
    converges. *)
Lemma mwr_no_result_amended_witness :
  math_utils.xirr samples.pow_exact (vocabulary.dated_tuples [(0, 1100%float)])
    math_utils.DEFAULT_GUESS = Ok None /\
  math_utils.xirr samples.pow_exact (vocabulary.dated_tuples samples.same_day_flows)
    math_utils.DEFAULT_GUESS = Ok None /\
  math_utils.xirr samples.pow_exact (vocabulary.dated_tuples samples.nan_flows)
    math_utils.DEFAULT_GUESS = Ok None.
Proof.
  pose proof (mwr_no_result_amended samples.pow_exact) as (Hsign & Hzero & Hmax & _).
  split; [| split].
  - apply Hsign. right. reflexivity.
  - apply (Hzero samples.same_day_flows math_utils.DEFAULT_GUESS 0%nat
             math_utils.DEFAULT_GUESS).
    + unfold math_utils.MAX_ITERATIONS. lia.
    + reflexivity.
    + vm_compute. reflexivity.
  - apply (Hmax samples.nan_flows math_utils.DEFAULT_GUESS nan).
    vm_compute. reflexivity.
Defined.

(** C1 as stated fails: a start value of 0 and an end value of 100 give a
    series without negative amount, and the money-weighted return computed
    for it is the decimal zero. *)
Lemma calculate_mwr_counterexample :
  forallb (fun a => negb (dec_ltb a 0)) [(- 0)%Qc; Q2Qc 100] = true /\
  (forall math_pow float_of_decimal,
     PerformanceCalculator.calculate_mwr math_pow float_of_decimal
       0%Qc (Q2Qc 100) [] 0 365
     = PerformanceCalculator.DecimalZero).
Proof. split; [reflexivity | intros; reflexivity]. Qed.

(** ** RateStore: the write boundary *)

Section write_boundary.
Import MarketDataPersistence.

Lemma insert_row_app db c r ts db' :
  insert_row db c r ts = Ok db' ->
  key_taken db c ts = false /\ db' = db ++ [mkRow (next_id db) c r ts].
Proof.
  unfold insert_row. destruct (key_taken db c ts); [done |].
  intros [= <-]. done.
Qed.

(** A flush only appends, and every row it appends is one of the batch. *)
Lemma insert_all_app rows :
  forall db db',
    insert_all db rows = Ok db' ->
    exists new,
      db' = db ++ new /\
      Forall2 (fun row rec =>
                 currency row = rec_currency rec /\
                 rate row = rec_rate rec /\
                 timestamp row = rec_timestamp rec) new rows.
Proof.
  induction rows as [| rec rows IH]; intros db db' H; simpl in H.
  - injection H as <-. exists []. by rewrite app_nil_r.
  - destruct (insert_row db _ _ _) as [db1 |] eqn:E; [| done].
    simpl in H. apply insert_row_app in E as [_ ->].
    destruct (IH _ _ H) as (new & -> & Hnew).
    eexists (_ :: new). rewrite <- app_assoc. split; [done |].
    constructor; [done | exact Hnew].
Qed.

Lemma rates_to_add_valid rates ts :
  Forall (fun rec => is_invalid (rec_rate rec) = false /\
                     rec_currency rec <> "USD"%string /\
                     rec_timestamp rec = ts /\
                     (rec_currency rec, rec_rate rec) ∈ rates)
         (rates_to_add rates ts).
Proof.
  induction rates as [| [curr r] rates IH]; simpl; [constructor |].
  assert (Forall (fun rec => is_invalid (rec_rate rec) = false /\
                     rec_currency rec <> "USD"%string /\
                     rec_timestamp rec = ts /\
                     (rec_currency rec, rec_rate rec) ∈ (curr, r) :: rates)
                 (rates_to_add rates ts)) as IH'.
  { eapply Forall_impl; [exact IH |]. intros rec (? & ? & ? & ?).
    repeat split; try done. by right. }
  destruct (String.eqb curr "USD") eqn:Eusd; [done |].
  destruct (is_invalid r) eqn:Einv; [done |].
  constructor; [| done]. simpl. repeat split; try done.
  - by apply String.eqb_neq.
  - by left.
Qed.

(** What [save_rates] writes: only rates that pass its validation. *)
Lemma save_rates_only_valid db rates ts row :
  row ∈ save_rates db rates ts ->
  row ∈ db \/
  (is_invalid (rate row) = false /\ currency row <> "USD"%string /\
   timestamp row = ts /\ (currency row, rate row) ∈ rates).
Proof.
  unfold save_rates. destruct (insert_all db _) as [db' |] eqn:E; [| by left].
  apply insert_all_app in E as (new & -> & Hnew).
  intros [H | H]%elem_of_app; [by left | right].
  pose proof (rates_to_add_valid rates ts) as Hvalid.
  revert Hvalid. induction Hnew as [| row' rec new recs (Hc & Hr & Ht) _ IH];
    intros Hvalid; [by apply elem_of_nil in H |].
  inversion Hvalid as [| ? ? (Hv & Hu & Hts & Hin) Hrest]; subst.
  apply elem_of_cons in H as [-> | H]; [| by apply IH].
  rewrite Hc, Hr, Ht. done.
Qed.
End write_boundary.

(** C3 fails on the code for [save_history_batch]: a record whose rate is
    zero, negative or not a number is inserted as it is, in either mode, while
    [save_rates] drops the same values. *)
Theorem save_history_batch_persists_invalid_rate :
  let zero := MarketDataPersistence.RDecimal (DecFinite 0%Qc) in
  let negative := MarketDataPersistence.RFloat (-1)%float in
  let not_a_number := MarketDataPersistence.RFloat nan in
  MarketDataPersistence.is_invalid zero = true /\
  MarketDataPersistence.is_invalid negative = true /\
  MarketDataPersistence.is_invalid not_a_number = true /\
  MarketDataPersistence.save_history_batch []
    [ MarketDataPersistence.mkRecord "EUR" zero 0 ] false
  = ([ MarketDataPersistence.mkRow 1 "EUR" zero 0 ], Some 1) /\
  MarketDataPersistence.save_history_batch []
    [ MarketDataPersistence.mkRecord "EUR" negative 0;
      MarketDataPersistence.mkRecord "GBP" not_a_number 0 ] true
  = ([ MarketDataPersistence.mkRow 1 "EUR" negative 0;
       MarketDataPersistence.mkRow 2 "GBP" not_a_number 0 ], Some 2) /\
  MarketDataPersistence.save_rates []
    [ ("EUR"%string, zero); ("GBP"%string, not_a_number) ] 0 = [].
Proof. repeat split; vm_compute; reflexivity. Qed.

(** ** BackfillCoordinator: the persistence mode *)

Section persist_mode.
Import MarketDataPersistence vocabulary.

Lemma existsb_Zeqb_elem ts l : existsb (Z.eqb ts) l = true <-> ts ∈ l.
Proof.
  rewrite existsb_exists. split.
  - intros (x & Hin & Heq). apply Z.eqb_eq in Heq as ->. by apply list_elem_of_In.
  - intros H. exists ts. split; [by apply list_elem_of_In | apply Z.eqb_refl].
Qed.

Lemma range_update_covers c ts ranges : covers (range_update c ts ranges) c ts.
Proof.
  induction ranges as [| [c' g] ranges IH]; simpl.
  - eexists. split; [by left | simpl; by left].
  - destruct (String.eqb c' c) eqn:E.
    + apply String.eqb_eq in E as ->. eexists. split; [by left |]. simpl.
      destruct (existsb (Z.eqb ts) (range_timestamps g)) eqn:Ex.
      * by apply existsb_Zeqb_elem.
      * apply elem_of_app. right. by left.
    + destruct IH as (g' & Hin & Hts). exists g'. split; [by right | done].
Qed.

Lemma range_update_mono c ts ranges c' ts' :
  covers ranges c' ts' -> covers (range_update c ts ranges) c' ts'.
Proof.
  intros (g & Hin & Hts). induction ranges as [| [c0 g0] ranges IH]; simpl.
  - by apply elem_of_nil in Hin.
  - apply elem_of_cons in Hin as [[= <- <-] | Hin].
    + destruct (String.eqb c' c) eqn:E.
      * eexists. split; [by left |]. simpl.
        destruct (existsb _ _); [done | apply elem_of_app; by left].
      * exists g. split; [by left | done].
    + destruct (String.eqb c0 c) eqn:E.
      * exists g. split; [by right | done].
      * destruct (IH Hin) as (g' & Hin' & Hts'). exists g'. split; [by right | done].
Qed.

Lemma batch_ranges_covers records rec :
  rec ∈ records -> covers (batch_ranges records) (rec_currency rec) (rec_timestamp rec).
Proof.
  unfold batch_ranges. generalize (@nil (string * currency_range)) as acc.
  induction records as [| r records IH]; intros acc Hin; [by apply elem_of_nil in Hin |].
  simpl. apply elem_of_cons in Hin as [-> | Hin]; [| by apply IH].
  assert (forall rs acc, covers acc (rec_currency r) (rec_timestamp r) ->
    covers (fold_left (fun ranges r0 => range_update (rec_currency r0) (rec_timestamp r0) ranges) rs acc)
           (rec_currency r) (rec_timestamp r)) as Hfold.
  { induction rs as [| r0 rs IHrs]; intros acc0 H; [done |].
    simpl. apply IHrs. by apply range_update_mono. }
  apply Hfold. apply range_update_covers.
Qed.

Lemma key_taken_true db c ts :
  key_taken db c ts = true <-> exists row, row ∈ db /\ currency row = c /\ timestamp row = ts.
Proof.
  unfold key_taken. rewrite existsb_exists. split.
  - intros (row & Hin & H). apply andb_true_iff in H as [H1 H2].
    apply String.eqb_eq in H1. apply Z.eqb_eq in H2.
    exists row. split; [by apply list_elem_of_In | done].
  - intros (row & Hin & <- & <-). exists row. split; [by apply list_elem_of_In |].
    apply andb_true_iff. split; [apply String.eqb_refl | apply Z.eqb_refl].
Qed.

Lemma key_taken_false db c ts :
  key_taken db c ts = false <-> forall row, row ∈ db -> ~ (currency row = c /\ timestamp row = ts).
Proof.
  rewrite <- not_true_iff_false, key_taken_true. split.
  - intros H row Hin Hk. apply H. by exists row.
  - intros H (row & Hin & Hk). by apply (H row).
Qed.

Lemma elem_of_delete_where db c chunk row :
  row ∈ delete_where db c chunk <->
  row ∈ db /\ ~ (currency row = c /\ timestamp row ∈ chunk).
Proof.
  unfold delete_where. rewrite list_elem_of_filter.
  rewrite Is_true_true, negb_true_iff, <- not_true_iff_false, andb_true_iff.
  rewrite String.eqb_eq, existsb_Zeqb_elem. tauto.
Qed.

Lemma elem_of_chunks_of fuel : forall (l : list Z) x,
  (length l <= fuel)%nat ->
  (exists chunk, chunk ∈ chunks_of fuel l /\ x ∈ chunk) <-> x ∈ l.
Proof.
  induction fuel as [| fuel IH]; intros l x Hlen.
  - destruct l; [| simpl in Hlen; lia]. simpl. split.
    + intros (chunk & []%elem_of_nil & _).
    + intros []%elem_of_nil.
  - destruct l as [| y l].
    { simpl. split; [intros (chunk & []%elem_of_nil & _) | intros []%elem_of_nil]. }
    change (chunks_of (S fuel) (y :: l))
      with (take CHUNK_SIZE (y :: l) :: chunks_of fuel (drop CHUNK_SIZE (y :: l))).
    assert (x ∈ y :: l <->
            x ∈ take CHUNK_SIZE (y :: l) \/ x ∈ drop CHUNK_SIZE (y :: l)) as ->
      by (by rewrite <- elem_of_app, take_drop).
    rewrite <- (IH (drop CHUNK_SIZE (y :: l)) x).
    2:{ rewrite length_drop. unfold CHUNK_SIZE. simpl in *. lia. }
    split.
    + intros (chunk & [-> | Hin]%elem_of_cons & Hx); [by left | right; by exists chunk].
    + intros [Hx | (chunk & Hin & Hx)].
      * eexists. split; [by left | done].
      * exists chunk. split; [by right | done].
Qed.

Lemma elem_of_delete_chunks c chunks : forall db row,
  row ∈ fold_left (fun db chunk => delete_where db c chunk) chunks db <->
  row ∈ db /\ ~ (currency row = c /\ exists chunk, chunk ∈ chunks /\ timestamp row ∈ chunk).
Proof.
  induction chunks as [| chunk chunks IH]; intros db row; simpl.
  - split; [| by intros [? _]]. intros H. split; [done |].
    intros (_ & ch & []%elem_of_nil & _).
  - rewrite IH, elem_of_delete_where. split.
    + intros [[Hin Hn1] Hn2]. split; [done |].
      intros (Hc & ch & [-> | Hch]%elem_of_cons & Hts); [by apply Hn1 |].
      apply Hn2. split; [done | by exists ch].
    + intros [Hin Hn]. split; [split; [done |] |].
      * intros [Hc Hts]. apply Hn. split; [done |]. exists chunk. split; [by left | done].
      * intros (Hc & ch & Hch & Hts). apply Hn. split; [done |].
        exists ch. split; [by right | done].
Qed.

Lemma elem_of_delete_colliding ranges : forall db row,
  row ∈ delete_colliding db ranges <->
  row ∈ db /\ ~ covers ranges (currency row) (timestamp row).
Proof.
  unfold delete_colliding.
  induction ranges as [| [c g] ranges IH]; intros db row; simpl.
  - split; [| by intros [? _]]. intros H. split; [done |].
    intros (g & Hin & _). by apply elem_of_nil in Hin.
  - rewrite IH, elem_of_delete_chunks.
    assert ((exists chunk, chunk ∈ chunks_of (length (range_timestamps g)) (range_timestamps g)
                           /\ timestamp row ∈ chunk)
            <-> timestamp row ∈ range_timestamps g) as Hchunks
      by (by apply elem_of_chunks_of).
    rewrite Hchunks. split.
    + intros [[Hin Hn] Hnc]. split; [done |].
      intros (g' & Hg & Hts). apply elem_of_cons in Hg as [[= <- ->] | Hg].
      * by apply Hn.
      * apply Hnc. by exists g'.
    + intros [Hin Hnc]. split; [split; [done |] |].
      * intros [Hc Hts]. apply Hnc. exists g. split; [rewrite Hc; by left | done].
      * intros (g' & Hg & Hts). apply Hnc. exists g'. split; [by right | done].
Qed.

Lemma build_models_ok records :
  Forall (fun rec => rec_rate rec <> RNone) records -> build_models records = Ok records.
Proof.
  induction 1 as [| rec records Hr _ IH]; simpl; [done |].
  destruct rec as [c r ts]. simpl in *. destruct r; [done | |]; simpl; by rewrite IH.
Qed.


Lemma key_taken_app db l c ts :
  key_taken (db ++ l) c ts = key_taken db c ts || key_taken l c ts.
Proof. unfold key_taken. apply existsb_app. Qed.

Lemma insert_all_ok records : forall db,
  NoDup (map rec_key records) ->
  Forall (fun rec => key_taken db (rec_currency rec) (rec_timestamp rec) = false) records ->
  exists db', insert_all db records = Ok db'.
Proof.
  induction records as [| rec records IH]; intros db Hnd Hfree; simpl; [by eexists |].
  inversion Hnd as [| ? ? Hnotin Hnd']; subst.
  inversion Hfree as [| ? ? Hrec Hfree']; subst.
  unfold insert_row. rewrite Hrec. simpl. apply IH; [done |].
  apply Forall_forall. intros rec' Hin'.
  rewrite key_taken_app. rewrite Forall_forall in Hfree'. rewrite (Hfree' _ Hin'). simpl.
  rewrite orb_false_r. apply andb_false_iff.
  destruct (String.eqb (rec_currency rec) (rec_currency rec')) eqn:E1; [right | by left].
  apply Z.eqb_neq. intros E2. apply String.eqb_eq in E1. apply Hnotin.
  apply list_elem_of_fmap. exists rec'. split; [| done]. unfold rec_key. by rewrite E1, E2.
Qed.


Lemma range_update_covers_inv c ts ranges c' ts' :
  covers (range_update c ts ranges) c' ts' ->
  covers ranges c' ts' \/ (c' = c /\ ts' = ts).
Proof.
  induction ranges as [| [c0 g0] ranges IH]; simpl.
  - intros (g & Hin & Hts). apply list_elem_of_singleton in Hin as [= -> ->].
    simpl in Hts. apply list_elem_of_singleton in Hts. by right.
  - destruct (String.eqb c0 c) eqn:E.
    + intros (g & Hin & Hts). apply elem_of_cons in Hin as [[= -> ->] | Hin].
      * simpl in Hts. apply String.eqb_eq in E as <-.
        destruct (existsb _ _).
        -- left. exists g0. split; [by left | done].
        -- apply elem_of_app in Hts as [Hts | Hts].
           ++ left. exists g0. split; [by left | done].
           ++ apply list_elem_of_singleton in Hts. by right.
      * left. exists g. split; [by right | done].
    + intros (g & Hin & Hts). apply elem_of_cons in Hin as [[= -> ->] | Hin].
      * left. exists g0. split; [by left | done].
      * destruct IH as [(g' & Hin' & Hts') | ?]; [by exists g | | by right].
        left. exists g'. split; [by right | done].
Qed.

Lemma batch_ranges_covers_inv records c ts :
  covers (batch_ranges records) c ts ->
  exists rec, rec ∈ records /\ rec_key rec = (c, ts).
Proof.
  unfold batch_ranges.
  assert (forall rs acc,
    covers (fold_left (fun ranges r0 => range_update (rec_currency r0) (rec_timestamp r0) ranges) rs acc) c ts ->
    covers acc c ts \/ exists rec, rec ∈ rs /\ rec_key rec = (c, ts)) as Hfold.
  { induction rs as [| r0 rs IHrs]; intros acc H; simpl in H; [by left |].
    destruct (IHrs _ H) as [Hc | (rec & Hin & Hk)].
    - apply range_update_covers_inv in Hc as [Hc | [-> ->]]; [by left |].
      right. exists r0. split; [by left | done].
    - right. exists rec. split; [by right | done]. }
  intros H. destruct (Hfold _ _ H) as [(g & Hin & _) | ?]; [| done].
  by apply elem_of_nil in Hin.
Qed.

Lemma insert_all_fresh rows : forall db db',
  insert_all db rows = Ok db' ->
  Forall (fun rec => key_taken db (rec_currency rec) (rec_timestamp rec) = false) rows.
Proof.
  induction rows as [| rec rows IH]; intros db db' H; simpl in H; [constructor |].
  destruct (insert_row db _ _ _) as [db1 |] eqn:E; [| done]. simpl in H.
  apply insert_row_app in E as [Hfree ->]. constructor; [done |].
  eapply Forall_impl; [by apply (IH _ _ H) |]. intros rec' Hk. simpl in Hk.
  rewrite key_taken_app in Hk. by apply orb_false_iff in Hk as [? _].
Qed.

Lemma stored_fresh db new rows :
  Forall2 stored_as new rows ->
  Forall (fun rec => key_taken db (rec_currency rec) (rec_timestamp rec) = false) rows ->
  Forall (fun row => key_taken db (currency row) (timestamp row) = false) new.
Proof.
  induction 1 as [| row rec new rows (Hc & _ & Ht) _ IH]; intros Hf; [constructor |].
  inversion Hf; subst. constructor; [by rewrite Hc, Ht | by apply IH].
Qed.

Lemma save_row_by_row_app records : forall db saved,
  exists new,
    fst (save_row_by_row db records saved) = db ++ new /\
    Forall (fun row => key_taken db (currency row) (timestamp row) = false) new.
Proof.
  induction records as [| rec records IH]; intros db saved; simpl.
  - exists []. by rewrite app_nil_r.
  - destruct (to_float_arg (rec_rate rec)) as [v |] eqn:Ev; simpl; [| apply IH].
    destruct (insert_row db _ v _) as [db1 |] eqn:E; [| apply IH].
    apply insert_row_app in E as [Hfree ->].
    destruct (IH (db ++ [mkRow (next_id db) (rec_currency rec) v (rec_timestamp rec)]) (saved + 1))
      as (new & -> & Hnew).
    eexists (_ :: new). rewrite <- app_assoc. split; [done |].
    constructor; [done |].
    eapply Forall_impl; [exact Hnew |]. intros row Hk. simpl in Hk.
    rewrite key_taken_app in Hk. by apply orb_false_iff in Hk as [? _].
Qed.

Lemma save_history_batch_insert_new db records :
  exists new,
    fst (save_history_batch db records false) = db ++ new /\
    Forall (fun row => key_taken db (currency row) (timestamp row) = false) new.
Proof.
  assert (exists new, db = db ++ new /\
    Forall (fun row => key_taken db (currency row) (timestamp row) = false) new) as Hnil.
  { exists []. by rewrite app_nil_r. }
  unfold save_history_batch. destruct records as [| r0 records]; [done |].
  cbv zeta. simpl negb. cbv iota.
  destruct (build_models _) as [models |]; [| done].
  destruct models as [| m models]; [done |].
  destruct (insert_all db (m :: models)) as [db' |] eqn:E.
  - pose proof (insert_all_fresh _ _ _ E) as Hfresh.
    apply insert_all_app in E as (new & -> & Hnew). exists new. split; [done |].
    by eapply stored_fresh.
  - destruct (save_row_by_row_app (r0 :: records) db 0) as (new & Hnew & Hf).
    destruct (save_row_by_row db (r0 :: records) 0) as [db' n]. simpl in *. by exists new.
Qed.

Lemma save_history_batch_upsert db records :
  records <> [] ->
  NoDup (map rec_key records) ->
  Forall (fun rec => rec_rate rec <> RNone) records ->
  exists new,
    save_history_batch db records true
    = (delete_colliding db (batch_ranges records) ++ new, Some (Z.of_nat (length records))) /\
    Forall2 stored_as new records.
Proof.
  intros Hne Hnd Hrates. unfold save_history_batch.
  destruct records as [| r0 records]; [done |]. cbv zeta iota.
  rewrite build_models_ok by done.
  destruct (insert_all_ok (r0 :: records) (delete_colliding db (batch_ranges (r0 :: records))) Hnd)
    as (db' & E).
  { apply Forall_forall. intros rec Hin. apply key_taken_false. intros row Hrow [Hc Ht].
    apply elem_of_delete_colliding in Hrow as [_ Hnc]. apply Hnc. rewrite Hc, Ht.
    by apply batch_ranges_covers. }
  rewrite E. apply insert_all_app in E as (new & -> & Hnew). by exists new.
Qed.

Lemma persist_history_store db s force :
  fst (HistoryBackfillAgent._persist_history db s force)
  = match HistoryBackfillAgent.flatten_series s with
    | [] => db
    | _ => fst (save_history_batch db (HistoryBackfillAgent.flatten_series s) force)
    end.
Proof.
  unfold HistoryBackfillAgent._persist_history. cbv zeta.
  destruct (HistoryBackfillAgent.flatten_series s) as [| r records] eqn:E; [done |].
  change (Z.of_nat (length (r :: records)) =? 0) with false. cbv iota.
  by destruct (save_history_batch db (r :: records) force).
Qed.
End persist_mode.

(** What a call of [_persist_history] does to the store in either mode.
    With [force] the mode is upsert: every record is stored, a stored row
    whose (currency, timestamp) is in the batch carries the batch's data, and
    the other rows stay.  Without it the mode is insert-if-new: every row
    stays, and no row is added under a key that was stored. *)
Lemma persist_history_modes (db : MarketDataPersistence.store)
    (s : HistoryBackfillAgent.series) (force : bool) :
  let records := HistoryBackfillAgent.flatten_series s in
  let db' := fst (HistoryBackfillAgent._persist_history db s force) in
  (force = true ->
   NoDup (map vocabulary.rec_key records) ->
   Forall (fun rec => MarketDataPersistence.rec_rate rec <> MarketDataPersistence.RNone)
          records ->
   (forall rec, rec ∈ records -> exists row, row ∈ db' /\ vocabulary.stored_as row rec) /\
   (forall row, row ∈ db' ->
      (exists rec, rec ∈ records /\ vocabulary.rec_key rec = vocabulary.row_key row) ->
      exists rec, rec ∈ records /\ vocabulary.stored_as row rec) /\
   (forall row, row ∈ db ->
      ~ (exists rec, rec ∈ records /\ vocabulary.rec_key rec = vocabulary.row_key row) ->
      row ∈ db')) /\
  (force = false ->
   (forall row, row ∈ db -> row ∈ db') /\
   (forall row, row ∈ db' ->
      MarketDataPersistence.key_taken db (MarketDataPersistence.currency row)
        (MarketDataPersistence.timestamp row) = true ->
      row ∈ db)).
Proof.
  intros records db'. subst db'. rewrite persist_history_store. fold records.
  split.
  - intros -> Hnd Hrates.
    destruct records as [| r0 rs] eqn:E.
    { split; [| split]; [intros ? []%elem_of_nil | intros ? ? (? & []%elem_of_nil & _) | done]. }
    rewrite <- E in *.
    destruct (save_history_batch_upsert db records) as (new & -> & Hnew);
      [by rewrite E | done | done |]. simpl.
    split; [| split].
    + intros rec Hin. apply list_elem_of_lookup in Hin as [i Hi].
      destruct (Forall2_lookup_r _ _ _ _ _ Hnew Hi) as (row & Hrow & Hst).
      exists row. split; [| done]. apply elem_of_app. right.
      apply list_elem_of_lookup. by exists i.
    + intros row [Hold | Hin]%elem_of_app (rec & Hrec & Hk).
      * apply elem_of_delete_colliding in Hold as [_ Hnc]. destruct Hnc.
        injection Hk as <- <-. by apply batch_ranges_covers.
      * apply list_elem_of_lookup in Hin as [i Hi].
        destruct (Forall2_lookup_l _ _ _ _ _ Hnew Hi) as (rec' & Hrec' & Hst).
        exists rec'. split; [| done]. apply list_elem_of_lookup. by exists i.
    + intros row Hin Hnk. apply elem_of_app. left.
      apply elem_of_delete_colliding. split; [done |].
      intros Hc. apply Hnk. by apply batch_ranges_covers_inv.
  - intros ->.
    assert (exists new, match records with
                        | [] => db
                        | _ => fst (MarketDataPersistence.save_history_batch db records false)
                        end = db ++ new /\
              Forall (fun row => MarketDataPersistence.key_taken db
                        (MarketDataPersistence.currency row)
                        (MarketDataPersistence.timestamp row) = false) new)
      as (new & -> & Hnew).
    { destruct records eqn:E; [exists []; by rewrite app_nil_r |].
      rewrite <- E. apply save_history_batch_insert_new. }
    split.
    + intros row Hin. apply elem_of_app. by left.
    + intros row [Hin | Hin]%elem_of_app Hk; [done |].
      rewrite Forall_forall in Hnew. rewrite (Hnew _ Hin) in Hk. done.
Qed.

Section backfill_run.
Import MarketDataPersistence HistoryBackfillAgent vocabulary.

Lemma run_tiers_app env ts1 : forall ts2 s_date e_date currencies force db totals,
  run_tiers env (ts1 ++ ts2) s_date e_date currencies force db totals
  = let '(db1, totals1) := run_tiers env ts1 s_date e_date currencies force db totals in
    run_tiers env ts2 s_date e_date currencies force db1 totals1.
Proof.
  induction ts1 as [| [[label min_age] max_age] ts1 IH];
    intros ts2 s_date e_date currencies force db totals.
  - simpl. by destruct (run_tiers env ts2 _ _ _ _ _ _).
  - cbn [app run_tiers]. cbv zeta.
    destruct (_ <=? _); [apply IH |].
    destruct (get_historical_rates_series env _ _ _ _) as [[| e0 s] | e];
      [apply IH | | apply IH].
    destruct (_persist_history db (e0 :: s) force) as [db' res]. apply IH.
Qed.

Lemma run_tiers_one env label min_age max_age s_date e_date currencies force db totals
    series :
  Z.max s_date (utcnow_date env - max_age) < Z.min e_date (utcnow_date env - min_age) ->
  get_historical_rates_series env (Z.max s_date (utcnow_date env - max_age))
    (Z.min e_date (utcnow_date env - min_age)) currencies label = Ok series ->
  fst (run_tiers env [(label, min_age, max_age)] s_date e_date currencies force db totals)
  = fst (_persist_history db series force).
Proof.
  intros Hlt Hfetch. cbn [run_tiers]. cbv zeta.
  rewrite (proj2 (Z.leb_gt _ _) Hlt), Hfetch.
  destruct series as [| e0 s].
  - by rewrite persist_history_store.
  - by destruct (_persist_history db (e0 :: s) force).
Qed.

Lemma execute_run_request env currency start_date end_date force agent_config db :
  execute env currency start_date end_date force agent_config db
  = match run_request env currency start_date end_date with
    | Some (s_date, e_date, currencies) =>
        let '(db', totals) :=
          run_tiers env (tiers agent_config) s_date e_date currencies force db
            (mkStats 0 0 0) in
        (db', Some totals)
    | None => (db, None)
    end.
Proof.
  unfold execute, run_request. cbv zeta.
  assert (match earliest_purchase_date env, managed_currencies env with
          | None, _ => (db, None)
          | Some _, [] => (db, None)
          | Some earliest, cs =>
              let '(db', totals) :=
                run_tiers env (tiers agent_config) earliest (today env) cs force db
                  (mkStats 0 0 0) in
              (db', Some totals)
          end
          = match (match earliest_purchase_date env, managed_currencies env with
                   | Some earliest, c :: cs => Some (earliest, today env, c :: cs)
                   | _, _ => None
                   end) with
            | Some (s_date, e_date, currencies) =>
                let '(db', totals) :=
                  run_tiers env (tiers agent_config) s_date e_date currencies force db
                    (mkStats 0 0 0) in
                (db', Some totals)
            | None => (db, None)
            end) as Hauto.
  { destruct (earliest_purchase_date env) as [earliest |]; [| done].
    by destruct (managed_currencies env). }
  destruct currency as [c |]; [| exact Hauto].
  destruct start_date as [s_date |]; [| exact Hauto].
  destruct end_date as [e_date |]; [| exact Hauto].
  destruct (String.eqb c ""); [exact Hauto |].
  by destruct (String.eqb c "USD").
Qed.

Lemma store_after_tiers_step env agent_config s_date e_date currencies force db k
    label min_age max_age series :
  tiers agent_config !! k = Some (label, min_age, max_age) ->
  Z.max s_date (utcnow_date env - max_age) < Z.min e_date (utcnow_date env - min_age) ->
  get_historical_rates_series env (Z.max s_date (utcnow_date env - max_age))
    (Z.min e_date (utcnow_date env - min_age)) currencies label = Ok series ->
  store_after_tiers env agent_config s_date e_date currencies force db (S k)
  = fst (_persist_history
           (store_after_tiers env agent_config s_date e_date currencies force db k)
           series force).
Proof.
  intros Hk Hlt Hfetch. unfold store_after_tiers.
  rewrite (take_S_r _ _ _ Hk), run_tiers_app.
  destruct (run_tiers env (take k (tiers agent_config)) _ _ _ _ _ _) as [db1 totals1].
  simpl fst. by apply run_tiers_one.
Qed.
End backfill_run.

(** C4, amended: in every run, the records fetched for a tier whose window
    intersects the span of the run are persisted in the mode the run's
    [force] flag selects.  The store the run returns is the store its last
    tier leaves.  At each such tier, with [force] the mode is upsert: every
    fetched record is stored, a stored row whose (currency, timestamp) is in
    the batch carries the batch's data, and the other rows stay.  Without
    [force] (the default) the mode is insert-if-new: every cached row stays,
    and no row is added under a key that was cached. *)
Theorem backfill_tier_persist_amended (env : HistoryBackfillAgent.environment)
    (currency : option string) (start_date end_date : option date) (force : bool)
    (agent_config : list (string * Z)) (db : MarketDataPersistence.store)
    (s_date e_date : date) (currencies : list string)
    (k : nat) (interval_label : string) (min_age_days max_age_days : Z)
    (series : HistoryBackfillAgent.series) :
  vocabulary.run_request env currency start_date end_date
  = Some (s_date, e_date, currencies) ->
  HistoryBackfillAgent.tiers agent_config !! k
  = Some (interval_label, min_age_days, max_age_days) ->
  let eff_start := Z.max s_date (HistoryBackfillAgent.utcnow_date env - max_age_days) in
  let eff_end := Z.min e_date (HistoryBackfillAgent.utcnow_date env - min_age_days) in
  eff_start < eff_end ->
  HistoryBackfillAgent.get_historical_rates_series env eff_start eff_end currencies
    interval_label = Ok series ->
  let records := HistoryBackfillAgent.flatten_series series in
  let before :=
    vocabulary.store_after_tiers env agent_config s_date e_date currencies force db k in
  let after :=
    vocabulary.store_after_tiers env agent_config s_date e_date currencies force db
      (S k) in
  fst (HistoryBackfillAgent.execute env currency start_date end_date force agent_config db)
  = vocabulary.store_after_tiers env agent_config s_date e_date currencies force db
      (length (HistoryBackfillAgent.tiers agent_config)) /\
  (force = true ->
   NoDup (map vocabulary.rec_key records) ->
   Forall (fun rec => MarketDataPersistence.rec_rate rec <> MarketDataPersistence.RNone)
          records ->
   (forall rec, rec ∈ records -> exists row, row ∈ after /\ vocabulary.stored_as row rec) /\
   (forall row, row ∈ after ->
      (exists rec, rec ∈ records /\ vocabulary.rec_key rec = vocabulary.row_key row) ->
      exists rec, rec ∈ records /\ vocabulary.stored_as row rec) /\
   (forall row, row ∈ before ->
      ~ (exists rec, rec ∈ records /\ vocabulary.rec_key rec = vocabulary.row_key row) ->
      row ∈ after)) /\
  (force = false ->
   (forall row, row ∈ before -> row ∈ after) /\
   (forall row, row ∈ after ->
      MarketDataPersistence.key_taken before (MarketDataPersistence.currency row)
        (MarketDataPersistence.timestamp row) = true ->
      row ∈ before)).
Proof.
  intros Hrun Hk eff_start eff_end Hlt Hfetch records before after.
  split.
  - rewrite execute_run_request, Hrun. unfold vocabulary.store_after_tiers.
    rewrite firstn_all.
    by destruct (HistoryBackfillAgent.run_tiers env _ _ _ _ _ _ _).
  - subst after. rewrite (store_after_tiers_step _ _ _ _ _ _ _ _ _ _ _ _ Hk Hlt Hfetch).
    fold before. apply (persist_history_modes before series force).
Qed.

(** The forced manual run for EUR over days 95 to 100, at its 5-minute tier:
    the cached EUR row of day 99 gives way to the fetched one. *)
Lemma backfill_tier_persist_amended_witness :
  let env := samples.backfill_env in
  let records := HistoryBackfillAgent.flatten_series samples.fetched_series in
  let before := vocabulary.store_after_tiers env [] 95 100 ["EUR"%string] true
                  samples.cached_store 0 in
  let after := vocabulary.store_after_tiers env [] 95 100 ["EUR"%string] true
                 samples.cached_store 1 in
  vocabulary.run_request env (Some "EUR"%string) (Some 95) (Some 100)
  = Some (95, 100, ["EUR"%string]) /\
  HistoryBackfillAgent.tiers [] !! 0%nat = Some ("5m"%string, 0, 14) /\
  Z.max 95 (HistoryBackfillAgent.utcnow_date env - 14)
  < Z.min 100 (HistoryBackfillAgent.utcnow_date env - 0) /\
  HistoryBackfillAgent.get_historical_rates_series env
    (Z.max 95 (HistoryBackfillAgent.utcnow_date env - 14))
    (Z.min 100 (HistoryBackfillAgent.utcnow_date env - 0)) ["EUR"%string] "5m"
  = Ok samples.fetched_series /\
  NoDup (map vocabulary.rec_key records) /\
  Forall (fun rec => MarketDataPersistence.rec_rate rec <> MarketDataPersistence.RNone)
         records /\
  before = samples.cached_store /\
  (forall rec, rec ∈ records -> exists row, row ∈ after /\ vocabulary.stored_as row rec) /\
  (forall row, row ∈ after ->
     (exists rec, rec ∈ records /\ vocabulary.rec_key rec = vocabulary.row_key row) ->
     exists rec, rec ∈ records /\ vocabulary.stored_as row rec).
Proof.
  intros env records before after.
  assert (vocabulary.run_request env (Some "EUR"%string) (Some 95) (Some 100)
          = Some (95, 100, ["EUR"%string])) as Hrun by reflexivity.
  assert (HistoryBackfillAgent.tiers [] !! 0%nat = Some ("5m"%string, 0, 14)) as Hk
    by reflexivity.
  assert (Z.max 95 (HistoryBackfillAgent.utcnow_date env - 14)
          < Z.min 100 (HistoryBackfillAgent.utcnow_date env - 0)) as Hlt
    by (vm_compute; reflexivity).
  assert (HistoryBackfillAgent.get_historical_rates_series env
            (Z.max 95 (HistoryBackfillAgent.utcnow_date env - 14))
            (Z.min 100 (HistoryBackfillAgent.utcnow_date env - 0)) ["EUR"%string] "5m"
          = Ok samples.fetched_series) as Hfetch by reflexivity.
  assert (NoDup (map vocabulary.rec_key records)) as Hnd by apply NoDup_singleton.
  assert (Forall (fun rec => MarketDataPersistence.rec_rate rec
                             <> MarketDataPersistence.RNone) records) as Hrates.
  { repeat constructor. discriminate. }
  pose proof (backfill_tier_persist_amended env (Some "EUR"%string) (Some 95) (Some 100)
                true [] samples.cached_store 95 100 ["EUR"%string] 0 "5m" 0 14
                samples.fetched_series Hrun Hk Hlt Hfetch) as (_ & Hforce & _).
  destruct (Hforce eq_refl Hnd Hrates) as (Hstored & Hfresh & _).
  split; [exact Hrun |]. split; [exact Hk |]. split; [exact Hlt |].
  split; [exact Hfetch |]. split; [exact Hnd |]. split; [exact Hrates |].
  split; [reflexivity |]. split; [exact Hstored | exact Hfresh].
Defined.

(** C4 as stated fails: a manual run for EUR over days 95 to 100 without
    [force] leaves the cached rate in place and skips the fetched one; the
    same run with [force] replaces it. *)
Lemma backfill_without_force_counterexample :
  HistoryBackfillAgent.execute samples.backfill_env (Some "EUR"%string)
    (Some 95) (Some 100) false [] samples.cached_store
  = (samples.cached_store, Some (HistoryBackfillAgent.mkStats 0 0 1)) /\
  HistoryBackfillAgent.execute samples.backfill_env (Some "EUR"%string)
    (Some 95) (Some 100) true [] samples.cached_store
  = ([ MarketDataPersistence.mkRow 1 "EUR" (MarketDataPersistence.RFloat 1.25)
         (midnight 99) ],
     Some (HistoryBackfillAgent.mkStats 0 1 0)).
Proof. split; vm_compute; reflexivity. Qed.

(** ** PortfolioReconstructor *)

Section reconstruction.
Import models math_utils PortfolioService vocabulary.
Variable dia : dialect.

Lemma fmap_minus_zero (o : option Qc) : (fun x => x - 0)%Qc <$> o = o.
Proof. destruct o as [x |]; simpl; [f_equal; ring | done]. Qed.

Lemma revert_lookup tx (m : gmap Z Qc) k :
  revert tx m !! k = (fun x => x - signed_change tx k)%Qc <$> (m !! k).
Proof.
  unfold revert, signed_change. cbv zeta.
  destruct (decide (tx_asset_id tx = k)) as [<- | Hne].
  - destruct (String.eqb (tx_type tx) "BUY"); [by rewrite lookup_alter_eq |].
    destruct (String.eqb (tx_type tx) "SELL"); [| by rewrite fmap_minus_zero].
    rewrite lookup_alter_eq.
    destruct (m !! tx_asset_id tx); simpl; [f_equal; ring | done].
  - rewrite fmap_minus_zero.
    destruct (String.eqb (tx_type tx) "BUY"); [by rewrite lookup_alter_ne |].
    destruct (String.eqb (tx_type tx) "SELL"); [by rewrite lookup_alter_ne | done].
Qed.

Lemma replay_lookup txs : forall (m : gmap Z Qc) k,
  fold_left (fun qty tx => revert tx qty) txs m !! k
  = (fun x => x - net_change txs k)%Qc <$> (m !! k).
Proof.
  induction txs as [| tx txs IH]; intros m k; simpl.
  - by rewrite fmap_minus_zero.
  - rewrite IH, revert_lookup. destruct (m !! k); simpl; [f_equal; ring | done].
Qed.

Lemma net_change_perm txs txs' k :
  Permutation txs txs' -> net_change txs k = net_change txs' k.
Proof.
  induction 1 as [| x l l' _ IH | x y l | l l' l'' _ IH1 _ IH2]; simpl.
  - done.
  - by rewrite IH.
  - ring.
  - by rewrite IH1.
Qed.

Lemma transactions_after_no_ids ledger d : transactions_after dia ledger [] d = [].
Proof.
  unfold transactions_after. induction ledger as [| tx l IH]; [done |].
  rewrite filter_cons. simpl. exact IH.
Qed.

Lemma historical_quantities_fold ledger assets target_date :
  _calculate_historical_quantities dia ledger assets target_date
  = fold_left (fun qty tx => revert tx qty)
      (transactions_after dia ledger (asset_ids assets) target_date)
      (current_quantities assets).
Proof.
  unfold _calculate_historical_quantities. cbv zeta.
  destruct (asset_ids assets); [by rewrite transactions_after_no_ids | done].
Qed.

#[local] Instance tx_date_ge_trans : Transitive tx_date_ge.
Proof. unfold tx_date_ge. intros x y z ? ?. lia. Qed.
#[local] Instance tx_date_ge_total : Total tx_date_ge.
Proof. unfold tx_date_ge. intros x y. lia. Qed.
#[local] Instance date_ge_trans : Transitive date_ge.
Proof. unfold date_ge. intros x y z ? ?. lia. Qed.
#[local] Instance date_ge_total : Total date_ge.
Proof. unfold date_ge. intros x y. lia. Qed.

Lemma filter_cons_bool {A} (P : A -> bool) (x : A) (l : list A) :
  filter P (x :: l) = if P x then x :: filter P l else filter P l.
Proof. rewrite filter_cons. by destruct (P x). Qed.

Lemma filter_none_bool {A} (P : A -> bool) (l : list A) :
  Forall (fun x => P x = false) l -> filter P l = [].
Proof.
  induction 1 as [| x l Hx _ IH]; [done |]. by rewrite filter_cons_bool, Hx.
Qed.

Lemma filter_all_bool {A} (P : A -> bool) (l : list A) :
  Forall (fun x => P x = true) l -> filter P l = l.
Proof.
  induction 1 as [| x l Hx _ IH]; [done |]. by rewrite filter_cons_bool, Hx, IH.
Qed.

Lemma date_of_mono a b : a <= b -> date_of a <= date_of b.
Proof. intros H. unfold date_of, MICROS_PER_DAY. by apply Z.div_le_mono. Qed.

Lemma replay_until_sorted d txs :
  StronglySorted tx_date_ge txs ->
  forall temp,
    replay_until d txs temp
    = (filter (fun tx => negb (later_day d tx)) txs,
       fold_left (fun qty tx => revert tx qty) (filter (later_day d) txs) temp).
Proof.
  induction 1 as [| tx txs Hs IH Hall]; intros temp; [done |].
  rewrite !filter_cons_bool. simpl. fold (later_day d tx).
  destruct (later_day d tx) eqn:E; simpl.
  - by rewrite IH.
  - assert (Forall (fun tx' => later_day d tx' = false) txs) as Hnone.
    { eapply Forall_impl; [exact Hall |]. intros tx' Hge. unfold later_day in *.
      apply Z.ltb_ge. apply Z.ltb_ge in E. unfold tx_date_ge in Hge.
      pose proof (date_of_mono _ _ Hge). lia. }
    rewrite (filter_none_bool (later_day d)) by done.
    rewrite (filter_all_bool (fun tx0 => negb (later_day d tx0))); [done |].
    eapply Forall_impl; [exact Hnone |]. by intros tx' ->.
Qed.

Lemma filter_strongly_sorted {A} (R : relation A) (P : A -> bool) l :
  StronglySorted R l -> StronglySorted R (filter P l).
Proof.
  induction 1 as [| x l Hs IH Hall]; [constructor |].
  rewrite filter_cons_bool. destruct (P x); [| done]. constructor; [done |].
  apply Forall_forall. intros y Hy. rewrite Forall_forall in Hall. apply Hall.
  by apply list_elem_of_filter in Hy as [_ Hy].
Qed.

Lemma sweep_other ds : forall txs temp daily d,
  d ∉ ds -> sweep ds txs temp daily !! d = daily !! d.
Proof.
  induction ds as [| d0 ds IH]; intros txs temp daily d Hd; simpl; [done |].
  destruct (replay_until d0 txs temp) as [txs' temp'].
  rewrite IH by (intros H; apply Hd; by right).
  apply lookup_insert_ne. intros ->. apply Hd. by left.
Qed.

Lemma net_change_split d d0 txs k :
  d <= d0 ->
  (net_change (filter (later_day d0) txs) k
   + net_change (filter (later_day d) (filter (fun tx => negb (later_day d0 tx)) txs)) k
   = net_change (filter (later_day d) txs) k)%Qc.
Proof.
  intros Hle. induction txs as [| tx txs IH]; [simpl; ring |].
  rewrite !filter_cons_bool.
  destruct (later_day d0 tx) eqn:E0; simpl.
  - assert (later_day d tx = true) as ->.
    { unfold later_day in *. apply Z.ltb_lt. apply Z.ltb_lt in E0. lia. }
    simpl. rewrite <- IH. ring.
  - rewrite filter_cons_bool. destruct (later_day d tx); simpl; rewrite <- IH; ring.
Qed.

Lemma sweep_lookup ds :
  StronglySorted date_ge ds ->
  forall txs temp daily d,
    StronglySorted tx_date_ge txs ->
    d ∈ ds ->
    sweep ds txs temp daily !! d
    = Some (fold_left (fun qty tx => revert tx qty) (filter (later_day d) txs) temp).
Proof.
  induction 1 as [| d0 ds Hs IH Hall]; intros txs temp daily d Htxs Hd;
    [by apply elem_of_nil in Hd |].
  simpl. rewrite (replay_until_sorted d0 txs Htxs).
  destruct (decide (d ∈ ds)) as [Hin | Hnin].
  - rewrite IH; [| by apply filter_strongly_sorted | done].
    f_equal. apply map_eq. intros k. rewrite !replay_lookup.
    rewrite Forall_forall in Hall. pose proof (Hall d Hin) as Hle. unfold date_ge in Hle.
    rewrite <- (net_change_split d d0 txs k Hle).
    destruct (temp !! k); simpl; [f_equal; ring | done].
  - apply elem_of_cons in Hd as [-> | Hd]; [| done].
    rewrite sweep_other by done. by rewrite lookup_insert_eq.
Qed.

Lemma filter_comm_net txs k (P Q : Transaction -> bool) :
  (forall tx, tx ∈ txs -> P tx = Q tx) ->
  net_change (filter P txs) k = net_change (filter Q txs) k.
Proof.
  induction txs as [| tx txs IH]; intros H; [done |].
  rewrite !filter_cons_bool.
  rewrite (H tx) by (by left). destruct (Q tx); simpl; rewrite IH; try done;
    intros tx' Hin; apply H; by right.
Qed.

Lemma date_of_bounds t : midnight (date_of t) <= t < midnight (date_of t + 1).
Proof.
  unfold midnight, date_of, MICROS_PER_DAY.
  pose proof (Z.mul_div_le t 86400000000 ltac:(lia)).
  pose proof (Z.mul_succ_div_gt t 86400000000 ltac:(lia)). lia.
Qed.

Lemma sql_date_gt_later_day ledger dates tx d :
  day_aligned dia ledger dates -> tx ∈ ledger -> d ∈ dates ->
  sql_date_gt dia (tx_date tx) d = later_day d tx.
Proof.
  intros Hal Htx Hd. unfold sql_date_gt, later_day.
  pose proof (Hal tx d Htx Hd) as H.
  pose proof (date_of_bounds (tx_date tx)) as Hb.
  unfold midnight, MICROS_PER_DAY in *.
  destruct dia.
  - destruct (Z.lt_trichotomy (date_of (tx_date tx)) d) as [Hlt | [Heq | Hgt]].
    + rewrite (proj2 (Z.ltb_ge _ _)) by lia. symmetry. apply Z.ltb_ge. lia.
    + rewrite (proj2 (Z.ltb_ge _ _)) by (rewrite (H Heq); lia).
      symmetry. apply Z.ltb_ge. lia.
    + rewrite (proj2 (Z.ltb_lt _ _) Hgt). apply Z.ltb_lt. lia.
  - destruct (Z.leb_spec d (date_of (tx_date tx))) as [Hle | Hlt].
    + symmetry. apply Z.ltb_lt.
      destruct (decide (date_of (tx_date tx) = d)) as [Heq | Hne]; [destruct (H Heq) | lia].
    + symmetry. apply Z.ltb_ge. lia.
Qed.

Lemma sql_date_gt_mono d d' dt :
  d <= d' -> sql_date_gt dia dt d' = true -> sql_date_gt dia dt d = true.
Proof.
  intros Hle. unfold sql_date_gt, midnight, MICROS_PER_DAY.
  destruct dia; intros H.
  - apply Z.ltb_lt. apply Z.ltb_lt in H. lia.
  - apply Z.leb_le. apply Z.leb_le in H. lia.
Qed.

Lemma filter_ext_elem {A} (P Q : A -> Prop) `{!forall x, Decision (P x)}
    `{!forall x, Decision (Q x)} (l : list A) :
  (forall x, x ∈ l -> P x <-> Q x) -> filter P l = filter Q l.
Proof.
  induction l as [| x l IH]; intros Hext; [done |].
  rewrite !filter_cons.
  assert (filter P l = filter Q l) as -> by (apply IH; intros y Hy; apply Hext; by right).
  pose proof (Hext x ltac:(by left)) as Hx.
  destruct (decide (P x)), (decide (Q x)); tauto.
Qed.

Lemma sweep_matches_scratch_aligned ledger assets start_date dates d :
  day_aligned dia ledger dates ->
  (forall d', d' ∈ dates -> start_date <= d') ->
  d ∈ dates ->
  batch_quantities dia ledger assets start_date dates !! d
  = Some (_calculate_historical_quantities dia ledger assets d).
Proof.
  intros Hal Hstart Hd. unfold batch_quantities. cbv zeta.
  rewrite sweep_lookup.
  - f_equal. rewrite historical_quantities_fold. apply map_eq. intros k.
    rewrite !replay_lookup. f_equal.
    assert (net_change
              (filter (later_day d)
                 (order_by_date_desc
                    (transactions_after dia ledger (asset_ids assets) start_date))) k
            = net_change (transactions_after dia ledger (asset_ids assets) d) k)
      as ->; [| done].
    rewrite (net_change_perm
               (filter (later_day d) (order_by_date_desc _))
               (filter (later_day d)
                  (transactions_after dia ledger (asset_ids assets) start_date)) k).
    2:{ apply filter_Permutation. apply merge_sort_Permutation. }
    unfold transactions_after. rewrite list_filter_filter. f_equal.
    apply filter_ext_elem. intros tx Htx.
    rewrite <- (sql_date_gt_later_day ledger dates tx d Hal Htx Hd).
    pose proof (sql_date_gt_mono start_date d (tx_date tx) (Hstart d Hd)) as Hmono.
    destruct (id_in (asset_ids assets) (tx_asset_id tx)); simpl; [| tauto].
    destruct (sql_date_gt dia (tx_date tx) d); simpl; [| tauto].
    rewrite Hmono by done. simpl. tauto.
  - apply StronglySorted_merge_sort; apply _.
  - apply StronglySorted_merge_sort; apply _.
  - unfold sorted_reverse. by rewrite merge_sort_Permutation.
Qed.
End reconstruction.

(** C7 fails on the code for a ledger typed the way [TransactionType] types
    it.  Asset 1 holds 10 units, 4 of them bought on day 8, and the purchase
    is typed [Buy].  The reconstruction as of day 5 tests the type against
    [BUY], undoes nothing and reports the 10 units of today; the forward
    replay of the purchase from there gives 14 and not the current 10.  The
    database in use makes no difference. *)
Theorem reconstruction_skips_enum_typed_purchase (dia : dialect) :
  let historical :=
    PortfolioService._calculate_historical_quantities dia [samples.stored_buy]
      samples.one_asset 5 in
  PortfolioService.current_quantities samples.one_asset !! 1 = Some (Q2Qc 10) /\
  vocabulary.dated_after 5 [samples.stored_buy] = [samples.stored_buy] /\
  historical !! 1 = Some (Q2Qc 10) /\
  vocabulary.forward_replay 5 [samples.stored_buy] historical !! 1 = Some (Q2Qc 14) /\
  vocabulary.forward_replay 5 [samples.stored_buy] historical
  <> PortfolioService.current_quantities samples.one_asset.
Proof.
  intros historical.
  assert (PortfolioService.current_quantities samples.one_asset !! 1 = Some (Q2Qc 10))
    as Hnow by (vm_compute; apply (f_equal Some), Qc_is_canon; reflexivity).
  assert (vocabulary.forward_replay 5 [samples.stored_buy] historical !! 1
          = Some (Q2Qc 14)) as Hreplay
    by (destruct dia; vm_compute; apply (f_equal Some), Qc_is_canon; reflexivity).
  split; [exact Hnow |]. split; [reflexivity |].
  split; [destruct dia; vm_compute; apply (f_equal Some), Qc_is_canon; reflexivity |].
  split; [exact Hreplay |].
  intros Heq. rewrite Heq, Hnow in Hreplay.
  injection Hreplay as H. discriminate H.
Qed.

(** C8 fails on the code when a transaction falls on a listed date after
    midnight: for the purchase at noon of day 5 the sweep of [get_history]
    over the single date 5 keeps the 10 units of today (after the sale of
    day 8 is undone: 11), while the reconstruction from scratch at day 5 also
    undoes the purchase (7), on either database. *)
Theorem sweep_differs_on_same_day_transaction (dia : dialect) :
  (PortfolioService.get_history_quantities dia samples.sample_ledger samples.one_asset
     5 5 !! 5) ≫= (fun m => m !! 1)
  = Some (Q2Qc 11) /\
  PortfolioService._calculate_historical_quantities dia samples.sample_ledger
    samples.one_asset 5 !! 1
  = Some (Q2Qc 7) /\
  PortfolioService.sorted_reverse (PortfolioService.history_dates 5 5) = [5].
Proof.
  split; [| split].
  - destruct dia; vm_compute; reflexivity.
  - destruct dia; vm_compute; reflexivity.
  - reflexivity.
Qed.

(** The two databases part at midnight.  For the sale stamped at the
    midnight of day 8 the sweep over the dates 5, 8 and 9 reports 10 units on
    day 8 on both; the reconstruction from scratch at day 8 undoes the sale
    on SQLite (11) and leaves it on PostgreSQL (10). *)
Example reconstruction_at_midnight_by_dialect :
  (forall dia,
     (PortfolioService.batch_quantities dia [samples.later_sell] samples.one_asset 5
        [5; 8; 9] !! 8) ≫= (fun m => m !! 1)
     = Some (Q2Qc 10)) /\
  PortfolioService._calculate_historical_quantities sqlite [samples.later_sell]
    samples.one_asset 8 !! 1
  = Some (Q2Qc 11) /\
  PortfolioService._calculate_historical_quantities postgresql [samples.later_sell]
    samples.one_asset 8 !! 1
  = Some (Q2Qc 10).
Proof.
  split; [| split].
  - intros []; vm_compute; apply (f_equal Some), Qc_is_canon; reflexivity.
  - vm_compute. apply (f_equal Some), Qc_is_canon. reflexivity.
  - vm_compute. apply (f_equal Some), Qc_is_canon. reflexivity.
Qed.

(** ** Compactor *)

Section compaction.
Import MarketDataPersistence MarketCompactorAgent vocabulary.

Section tier_facts.
Variable bucket : datetime -> Z * Z.
Variable cutoff : datetime.

Lemma row_number_surplus db r :
  (1 <? row_number bucket cutoff db r) = true <->
  exists r', r' ∈ db /\ selected cutoff r' = true /\
             same_partition bucket r' r = true /\ sorts_before r' r = true.
Proof.
  unfold row_number. split.
  - intros H. apply Z.ltb_lt in H.
    destruct (filter _ db) as [| r' l] eqn:E; [simpl in H; lia |].
    assert (r' ∈ filter (fun r' => selected cutoff r' && same_partition bucket r' r
                                    && sorts_before r' r) db) as Hin
      by (rewrite E; by left).
    apply list_elem_of_filter in Hin as [Hp Hin]. apply Is_true_true in Hp.
    apply andb_true_iff in Hp as [Hp H3]. apply andb_true_iff in Hp as [H1 H2].
    by exists r'.
  - intros (r' & Hin & H1 & H2 & H3). apply Z.ltb_lt.
    assert (r' ∈ filter (fun r' => selected cutoff r' && same_partition bucket r' r
                                    && sorts_before r' r) db) as Hf.
    { apply list_elem_of_filter. split; [| done]. by rewrite H1, H2, H3. }
    destruct (filter _ db); [by apply elem_of_nil in Hf | simpl; lia].
Qed.

Lemma elem_of_surplus_ids db i :
  i ∈ surplus_ids bucket cutoff db <->
  exists r, r ∈ db /\ row_id r = i /\ selected cutoff r = true /\
            (1 <? row_number bucket cutoff db r) = true.
Proof.
  unfold surplus_ids. rewrite list_elem_of_fmap. split.
  - intros (r & -> & Hin). apply list_elem_of_filter in Hin as [Hp Hin].
    apply Is_true_true, andb_true_iff in Hp as [H1 H2]. by exists r.
  - intros (r & Hin & <- & H1 & H2). exists r. split; [done |].
    apply list_elem_of_filter. split; [| done]. by rewrite H1, H2.
Qed.

Lemma elem_of_compact db r :
  r ∈ fst (compact bucket cutoff db) <->
  r ∈ db /\ row_id r ∉ surplus_ids bucket cutoff db.
Proof.
  unfold compact. cbv zeta. simpl. rewrite list_elem_of_filter.
  assert (existsb (Z.eqb (row_id r)) (surplus_ids bucket cutoff db) = true
          <-> row_id r ∈ surplus_ids bucket cutoff db) as Hex.
  { rewrite existsb_exists. split.
    - intros (i & Hi & Heq). apply Z.eqb_eq in Heq as <-. by apply list_elem_of_In.
    - intros H. exists (row_id r). split; [by apply list_elem_of_In | apply Z.eqb_refl]. }
  rewrite <- Hex. rewrite Is_true_true, negb_true_iff, not_true_iff_false. tauto.
Qed.

Lemma compact_no_surplus db : no_surplus bucket cutoff (fst (compact bucket cutoff db)).
Proof.
  intros r r' Hr Hr' Hs Hs' Hp. apply not_true_iff_false. intros Hb.
  apply elem_of_compact in Hr as [Hr Hid]. apply elem_of_compact in Hr' as [Hr' _].
  apply Hid. apply elem_of_surplus_ids. exists r. repeat split; try done.
  apply row_number_surplus. by exists r'.
Qed.

Lemma no_surplus_subset db db' :
  (forall r, r ∈ db' -> r ∈ db) -> no_surplus bucket cutoff db -> no_surplus bucket cutoff db'.
Proof. intros Hsub H r r' Hr Hr'. apply H; by apply Hsub. Qed.

Lemma compact_subset db r : r ∈ fst (compact bucket cutoff db) -> r ∈ db.
Proof. intros H. by apply elem_of_compact in H as [? _]. Qed.

Lemma filter_all_keep {A} (P : A -> bool) (l : list A) :
  (forall x, x ∈ l -> P x = true) -> filter P l = l.
Proof.
  induction l as [| x l IH]; intros H; [done |].
  rewrite filter_cons. rewrite (H x) by (by left). simpl. f_equal.
  apply IH. intros y Hy. apply H. by right.
Qed.

Lemma compact_fixed db :
  no_surplus bucket cutoff db -> compact bucket cutoff db = (db, 0).
Proof.
  intros Hn. assert (surplus_ids bucket cutoff db = []) as Hnil.
  { destruct (surplus_ids bucket cutoff db) as [| i l] eqn:E; [done |].
    assert (i ∈ surplus_ids bucket cutoff db) as Hi by (rewrite E; by left).
    apply elem_of_surplus_ids in Hi as (r & Hr & _ & Hs & Hrn).
    apply row_number_surplus in Hrn as (r' & Hr' & Hs' & Hp & Hb).
    by rewrite (Hn r r' Hr Hr' Hs Hs' Hp) in Hb. }
  unfold compact. cbv zeta. rewrite Hnil.
  rewrite (filter_all_keep (fun r => negb (existsb (Z.eqb (row_id r)) []))) by done.
  f_equal. lia.
Qed.
End tier_facts.

Lemma execute_idempotent utc_now d cfg db :
  execute utc_now d cfg (fst (execute utc_now d cfg db))
  = (fst (execute utc_now d cfg db), mkResults 0 0 0 0).
Proof.
  unfold execute. cbv zeta.
  set (c1 := days_before (utc_now 0%nat) _).
  set (c2 := days_before (utc_now 1%nat) _).
  set (c3 := days_before (utc_now 2%nat) _).
  set (c4 := days_before (utc_now 3%nat) _).
  pose proof (compact_no_surplus bucket_15min c1 db) as H1.
  pose proof (compact_subset bucket_15min c1 db) as S1.
  destruct (compact bucket_15min c1 db) as [db1 n1]. simpl in H1, S1.
  pose proof (compact_no_surplus bucket_1h c2 db1) as H2.
  pose proof (compact_subset bucket_1h c2 db1) as S2.
  destruct (compact bucket_1h c2 db1) as [db2 n2]. simpl in H2, S2.
  pose proof (compact_no_surplus bucket_1d c3 db2) as H3.
  pose proof (compact_subset bucket_1d c3 db2) as S3.
  destruct (compact bucket_1d c3 db2) as [db3 n3]. simpl in H3, S3.
  pose proof (compact_no_surplus (bucket_1w d) c4 db3) as H4.
  pose proof (compact_subset (bucket_1w d) c4 db3) as S4.
  destruct (compact (bucket_1w d) c4 db3) as [db4 n4]. simpl in H4, S4.
  simpl fst.
  rewrite (compact_fixed bucket_15min c1 db4).
  2:{ eapply no_surplus_subset; [| exact H1]. auto. }
  rewrite (compact_fixed bucket_1h c2 db4).
  2:{ eapply no_surplus_subset; [| exact H2]. auto. }
  rewrite (compact_fixed bucket_1d c3 db4).
  2:{ eapply no_surplus_subset; [| exact H3]. auto. }
  rewrite (compact_fixed (bucket_1w d) c4 db4) by done.
  done.
Qed.
End compaction.

(** A first run does delete: of the two points of one quarter of an hour the
    earlier stays, in either dialect. *)
Example compaction_keeps_earliest :
  forall d,
    MarketCompactorAgent.execute samples.clock_day_100 d [] samples.crowded_store
    = ([ MarketDataPersistence.mkRow 2 "EUR" (MarketDataPersistence.RFloat 1.5)
           (midnight 90 + 60000000);
         MarketDataPersistence.mkRow 3 "EUR" (MarketDataPersistence.RFloat 1.75)
           (midnight 91) ],
       MarketCompactorAgent.mkResults 1 0 0 0).
Proof. intros []; vm_compute; reflexivity. Qed.

(** C9: with the clock readings and the configuration fixed, a second run of
    the four tiers over the result of a first run deletes nothing in any
    tier and leaves the store, and so its row count, as the first run left
    it. *)
Theorem compaction_idempotent (utc_now : nat -> datetime)
    (d : dialect) (agent_config : list (string * Z))
    (db : MarketDataPersistence.store) :
  let once := MarketCompactorAgent.execute utc_now d agent_config db in
  let twice := MarketCompactorAgent.execute utc_now d agent_config (fst once) in
  fst twice = fst once /\
  snd twice = MarketCompactorAgent.mkResults 0 0 0 0 /\
  length (fst twice) = length (fst once).
Proof.
  intros once twice. subst twice once. rewrite execute_idempotent. done.
Qed.

(** ** MarketDataService: the pivot entry *)

Section pivot_entry.
Import MarketDataService vocabulary.

Lemma string_length_append (s1 s2 : string) :
  String.length (s1 ++ s2)%string = (String.length s1 + String.length s2)%nat.
Proof. induction s1 as [| c s1 IH]; simpl; [done | by rewrite IH]. Qed.

Lemma resolve_ticker_not_usd c t :
  MarketDataConfig.resolve_ticker c = Some t -> t <> USD.
Proof.
  unfold MarketDataConfig.resolve_ticker, USD. intros H ->.
  destruct (_ || _) eqn:E1 in H; [done |].
  assert (c <> "USD"%string) as Hc by (intros ->; vm_compute in E1; done).
  assert (forall suffix, (3 < String.length suffix)%nat -> (c ++ suffix)%string <> "USD"%string) as Hlen.
  { intros suffix Hs Heq. apply (f_equal String.length) in Heq.
    rewrite string_length_append in Heq. simpl in Heq. lia. }
  destruct (_ || _) in H; [by injection H |].
  destruct (PyStr.contains _ _) in H; [by injection H |].
  destruct (MarketDataConfig.in_list _ _) in H.
  { injection H as H. by apply Hlen in H; [| simpl; lia]. }
  destruct (_ =? _)%nat in H; injection H as H; by apply Hlen in H; [| simpl; lia].
Qed.

Lemma dict_set_elem {V} k (v : V) d k' v' :
  (k', v') ∈ dict_set k v d -> (k', v') ∈ d \/ (k' = k /\ v' = v).
Proof.
  induction d as [| [k0 v0] d IH]; simpl.
  - intros [= -> ->]%list_elem_of_singleton. by right.
  - destruct (String.eqb k0 k) eqn:E.
    + apply String.eqb_eq in E as ->.
      intros [[= -> ->] | H]%elem_of_cons; [by right | left; by right].
    + intros [[= -> ->] | H]%elem_of_cons; [left; by left |].
      destruct (IH H) as [? | ?]; [left; by right | by right].
Qed.

Lemma fallback_all_lookup currencies : forall (rates : gmap string Qc) k,
  k ∉ currencies -> fallback_all currencies rates !! k = rates !! k.
Proof.
  unfold fallback_all.
  induction currencies as [| c cs IH]; intros rates k Hk; simpl; [done |].
  rewrite IH by (intros H; apply Hk; by right).
  apply lookup_insert_ne. intros ->. apply Hk. by left.
Qed.

Lemma merge_fresh_spec tm nrm currencies : forall (rates : gmap string Qc) pd,
  (forall k, k ∉ currencies ->
     fst (merge_fresh tm nrm currencies rates pd) !! k = rates !! k) /\
  (forall k v, (k, v) ∈ snd (merge_fresh tm nrm currencies rates pd) ->
     (k, v) ∈ pd \/ k ∈ currencies).
Proof.
  induction currencies as [| c cs IH]; intros rates pd; simpl.
  - split; [done | by left].
  - destruct (dict_get c tm) as [ticker |].
    + destruct (nrm !! ticker) as [rate |].
      * destruct (IH (<[c := rate]> rates) (dict_set c rate pd)) as [IH1 IH2]. split.
        -- intros k Hk. rewrite IH1 by (intros H; apply Hk; by right).
           apply lookup_insert_ne. intros ->. apply Hk. by left.
        -- intros k v H. destruct (IH2 k v H) as [H' | H']; [| right; by right].
           apply dict_set_elem in H' as [? | [-> _]]; [by left | right; by left].
      * destruct (IH (<[c := MarketDataConfig.fallback_get c 0%Qc]> rates) pd) as [IH1 IH2].
        split.
        -- intros k Hk. rewrite IH1 by (intros H; apply Hk; by right).
           apply lookup_insert_ne. intros ->. apply Hk. by left.
        -- intros k v H. destruct (IH2 k v H) as [H' | H']; [by left | right; by right].
    + destruct (IH (<[c := MarketDataConfig.fallback_get c 0%Qc]> rates) pd) as [IH1 IH2].
      split.
      * intros k Hk. rewrite IH1 by (intros H; apply Hk; by right).
        apply lookup_insert_ne. intros ->. apply Hk. by left.
      * intros k v H. destruct (IH2 k v H) as [H' | H']; [by left | right; by right].
Qed.

Lemma build_ticker_map_resolved currencies k v :
  (k, v) ∈ build_ticker_map currencies -> MarketDataConfig.resolve_ticker k = Some v.
Proof.
  unfold build_ticker_map.
  assert (forall cs (acc : list (string * string)),
            (forall k v, (k, v) ∈ acc -> MarketDataConfig.resolve_ticker k = Some v) ->
            forall k v,
              (k, v) ∈ fold_left
                (fun m c =>
                   match MarketDataConfig.resolve_ticker c with
                   | Some ticker => if String.eqb ticker "" then m else dict_set c ticker m
                   | None => m
                   end) cs acc ->
              MarketDataConfig.resolve_ticker k = Some v) as Hfold.
  { induction cs as [| c cs IH]; intros acc Hacc k' v' H; simpl in H; [by apply Hacc |].
    eapply IH; [| exact H].
    intros k0 v0 H0. destruct (MarketDataConfig.resolve_ticker c) as [ticker |] eqn:E;
      [| by apply Hacc].
    destruct (String.eqb ticker ""); [by apply Hacc |].
    apply dict_set_elem in H0 as [? | [-> ->]]; [by apply Hacc | done]. }
  apply Hfold. intros ? ? []%elem_of_nil.
Qed.

Lemma get_rates_from_db_spec env currencies : forall (rates r : gmap string Qc) tr,
  _get_rates_from_db env currencies rates = (Ok r, tr) ->
  (forall k, k ∉ currencies -> r !! k = rates !! k) /\
  Forall (fun e => exists c, e = StoreLatest c /\ c ∈ currencies) tr.
Proof.
  induction currencies as [| c cs IH]; intros rates r tr H; simpl in H.
  - injection H as <- <-. split; [done | constructor].
  - destruct (latest_record env c) as [record | e]; [| done].
    destruct (_get_rates_from_db env cs _) as [res tr'] eqn:E.
    injection H as -> <-.
    apply IH in E as [E1 E2]. split.
    + intros k Hk. rewrite E1 by (intros H; apply Hk; by right).
      assert (k <> c) as Hne by (intros ->; apply Hk; by left).
      destruct record as [[? [rt |] ?] |]; [destruct (decimal_truthy rt) | |];
        by apply lookup_insert_ne.
    + constructor; [exists c; split; [done | by left] |].
      eapply Forall_impl; [exact E2 |]. intros e (c' & -> & Hin). exists c'.
      split; [done | by right].
Qed.

Lemma fetch_fresh_rates_spec env currencies (rates : gmap string Qc) :
  USD ∉ currencies ->
  fst (_fetch_fresh_rates env currencies rates) !! USD = rates !! USD /\
  Forall (fun e => ~ names_usd e) (snd (_fetch_fresh_rates env currencies rates)).
Proof.
  intros Husd. unfold _fetch_fresh_rates. cbv zeta.
  assert (~ names_usd (ProviderCurrent (map snd (build_ticker_map currencies)))) as Hask.
  { simpl. intros H. apply list_elem_of_fmap in H as ([k v] & Hv & Hin). simpl in Hv.
    subst v. apply build_ticker_map_resolved in Hin.
    by apply resolve_ticker_not_usd in Hin. }
  destruct (build_ticker_map currencies) as [| kv tm] eqn:Etm; [by split |].
  rewrite <- Etm in *. clear Etm.
  destruct (lock_acquired env); cbn [negb fst snd].
  2:{ split; [by apply fallback_all_lookup | constructor]. }
  destruct (fetch_current_rates env _) as [nrm | e]; cbn [fst snd].
  2:{ split; [by apply fallback_all_lookup | by repeat constructor]. }
  pose proof (merge_fresh_spec (build_ticker_map currencies) nrm currencies rates [])
    as [Hrates Hpd].
  destruct (merge_fresh _ nrm currencies rates []) as [rates' pd]. simpl in Hrates, Hpd.
  assert (~ names_usd (SaveRates (filter (fun kv => dec_ltb 0 (snd kv)) pd))) as Hsave.
  { simpl. intros H. apply list_elem_of_fmap in H as ([k v] & Hk & Hin). simpl in Hk.
    subst k. apply list_elem_of_filter in Hin as [_ Hin].
    destruct (Hpd _ _ Hin) as [[]%elem_of_nil | ?]. done. }
  destruct (filter _ pd) as [| p vp] eqn:Ef; cbn [fst snd].
  { split; [by apply Hrates | by repeat constructor]. }
  rewrite <- Ef in *.
  destruct (save_rates env _); cbn [fst snd].
  - split; [by apply Hrates | by repeat constructor].
  - split; [| by repeat constructor].
    rewrite fallback_all_lookup by done. by apply Hrates.
Qed.

Lemma get_rates_usd env currencies src rates tr :
  get_rates env currencies src = (Ok rates, tr) ->
  rates !! USD = Some 1%Qc /\ Forall (fun e => ~ names_usd e) tr.
Proof.
  unfold get_rates. cbv zeta.
  assert (USD ∉ filter (fun c => negb (String.eqb c USD)) currencies) as Husd.
  { intros [H _]%list_elem_of_filter. by rewrite String.eqb_refl in H. }
  destruct (filter _ currencies) as [| c cs] eqn:E.
  { intros [= <- <-]. split; [apply lookup_singleton_eq | constructor]. }
  rewrite <- E in *. clear E.
  destruct src.
  - pose proof (fetch_fresh_rates_spec env _ {[USD := 1%Qc]} Husd) as [H1 H2].
    destruct (_fetch_fresh_rates env _ _) as [r tr']. simpl in *.
    intros [= <- <-]. split; [| done]. rewrite H1. apply lookup_singleton_eq.
  - intros H. apply get_rates_from_db_spec in H as [H1 H2]. split.
    + rewrite H1 by done. apply lookup_singleton_eq.
    + eapply Forall_impl; [exact H2 |]. intros e (c' & -> & Hin) Hn. simpl in Hn.
      by subst c'.
Qed.

Lemma rates_for_date_usd db_cache d currencies :
  rates_for_date db_cache d currencies !! USD = Some 1%Qc.
Proof.
  unfold rates_for_date.
  assert (forall cs (acc : gmap string Qc),
            acc !! USD = Some 1%Qc ->
            fold_left
              (fun m c =>
                 if String.eqb c USD then m
                 else <[c := value_or_zero
                               match cache_get d c db_cache with
                               | Some v => Some v
                               | None => look_back db_cache d c 1 7
                               end]> m) cs acc !! USD = Some 1%Qc) as Hfold.
  { induction cs as [| c cs IH]; intros acc Hacc; simpl; [done |].
    apply IH. destruct (String.eqb c USD) eqn:E; [done |].
    rewrite lookup_insert_ne; [done |]. intros ->. by rewrite String.eqb_refl in E. }
  apply Hfold. apply lookup_singleton_eq.
Qed.

Lemma finalize_lookup db_cache dates currencies d :
  finalize db_cache dates currencies !! d
  = if decide (d ∈ dates) then Some (rates_for_date db_cache d currencies) else None.
Proof.
  unfold finalize.
  assert (forall ds (acc : gmap Z (gmap string Qc)),
            fold_left (fun result d0 => <[d0 := rates_for_date db_cache d0 currencies]> result)
                      ds acc !! d
            = if decide (d ∈ ds) then Some (rates_for_date db_cache d currencies)
              else acc !! d) as Hfold.
  { induction ds as [| d0 ds IH]; intros acc; simpl.
    - destruct (decide (d ∈ [])) as [[]%elem_of_nil |]; done.
    - rewrite IH. destruct (decide (d ∈ ds)) as [Hin | Hnin].
      + rewrite decide_True; [done | by right].
      + destruct (decide (d = d0)) as [-> | Hne].
        * rewrite lookup_insert_eq. rewrite decide_True; [done | by left].
        * rewrite lookup_insert_ne by done. rewrite decide_False; [done |].
          intros [? | ?]%elem_of_cons; done. }
  rewrite Hfold. by destruct (decide (d ∈ dates)).
Qed.

Lemma build_needed_tickers_spec currencies k v :
  (k, v) ∈ build_needed_tickers currencies ->
  k <> USD /\ v = MarketDataConfig.resolve_ticker k.
Proof.
  unfold build_needed_tickers.
  assert (forall cs (acc : list (string * option string)),
            (forall k v, (k, v) ∈ acc -> k <> USD /\ v = MarketDataConfig.resolve_ticker k) ->
            forall k v,
              (k, v) ∈ fold_left
                (fun m c => if String.eqb c USD then m
                            else dict_set c (MarketDataConfig.resolve_ticker c) m) cs acc ->
              k <> USD /\ v = MarketDataConfig.resolve_ticker k) as Hfold.
  { induction cs as [| c cs IH]; intros acc Hacc k' v' H; simpl in H; [by apply Hacc |].
    eapply IH; [| exact H]. intros k0 v0 H0.
    destruct (String.eqb c USD) eqn:E; [by apply Hacc |].
    apply dict_set_elem in H0 as [? | [-> ->]]; [by apply Hacc |].
    split; [| done]. intros ->. by rewrite String.eqb_refl in E. }
  apply Hfold. intros ? ? []%elem_of_nil.
Qed.

Lemma unique_tickers_not_usd currencies :
  USD ∉ unique_tickers (build_needed_tickers currencies).
Proof.
  unfold unique_tickers. rewrite elem_of_remove_dups, list_elem_of_omap.
  intros ([k v] & Hin & Hv). apply build_needed_tickers_spec in Hin as [_ ->].
  simpl in Hv. destruct (MarketDataConfig.resolve_ticker k) as [t |] eqn:E; [| done].
  simpl in Hv. destruct (negb _) in Hv; [| done]. injection Hv as ->.
  by apply resolve_ticker_not_usd in E.
Qed.

Lemma merge_row_records n row needed : forall cache recs cache' recs',
  merge_row n row needed cache recs = Ok (cache', recs') ->
  forall r, r ∈ recs' -> r ∈ recs \/ exists v, (fst (fst r), v) ∈ needed.
Proof.
  induction needed as [| [c ticker] needed IH]; intros cache recs cache' recs' H r Hr;
    simpl in H.
  - injection H as <- <-. by left.
  - assert (forall cache0 recs0,
              merge_row n row needed cache0 recs0 = Ok (cache', recs') ->
              (forall r0, r0 ∈ recs0 -> r0 ∈ recs \/ fst (fst r0) = c) ->
              r ∈ recs \/ exists v, (fst (fst r), v) ∈ (c, ticker) :: needed) as Hstep.
    { intros cache0 recs0 H0 Hrecs0. destruct (IH _ _ _ _ H0 r Hr) as [Hin | (v & Hv)].
      - destruct (Hrecs0 _ Hin) as [? | Hc]; [by left |].
        right. exists ticker. rewrite Hc. by left.
      - right. exists v. by right. }
    destruct (negb (truthy_ticker ticker)); [by apply (Hstep _ _ H); left |].
    destruct (cell_value n row _) as [val |]; [| done]. simpl in H.
    destruct val as [v |]; [| by apply (Hstep _ _ H); left].
    destruct (dec_is_zero _); [by apply (Hstep _ _ H); left |].
    apply (Hstep _ _ H). intros r0 [? | ->%list_elem_of_singleton]%elem_of_app;
      [by left | by right].
Qed.

Lemma merge_frame_records n frame needed : forall cache recs cache' recs',
  merge_frame n frame needed cache recs = Ok (cache', recs') ->
  forall r, r ∈ recs' -> r ∈ recs \/ exists v, (fst (fst r), v) ∈ needed.
Proof.
  induction frame as [| row frame IH]; intros cache recs cache' recs' H r Hr; simpl in H.
  - injection H as <- <-. by left.
  - destruct (merge_row n row needed _ recs) as [[cache1 recs1] |] eqn:E; [| done].
    simpl in H. destruct (IH _ _ _ _ H r Hr) as [Hin | ?]; [| by right].
    by apply (merge_row_records _ _ _ _ _ _ _ E).
Qed.

Lemma historical_range_result env dates currencies res tr :
  get_historical_rates_range env dates currencies = (Ok res, tr) ->
  ((dates = [] \/ currencies = []) /\ res = ∅ /\ tr = []) \/
  (currencies <> [] /\
   (exists cache, res = finalize cache dates currencies) /\
   Forall (fun e => names_usd e -> exists cs s e', e = StoreSeries cs s e') tr).
Proof.
  unfold get_historical_rates_range.
  destruct dates as [| d0 ds]; [intros [= <- <-]; left; by split; [left |] |].
  destruct currencies as [| c0 cs]; [intros [= <- <-]; left; by split; [right |] |].
  cbv zeta. intros H. right. split; [done |].
  set (read := StoreSeries _ _ _) in *.
  assert (names_usd read -> exists cs0 s e', read = StoreSeries cs0 s e') as Hread
    by (intros _; by eexists _, _, _).
  destruct (missing_any _ _ _).
  2:{ injection H as <- <-. split; [by eexists | by repeat constructor]. }
  pose proof (unique_tickers_not_usd (c0 :: cs)) as Hnot.
  destruct (unique_tickers _) as [| t ts] eqn:Et.
  { injection H as <- <-. split; [by eexists | by repeat constructor]. }
  rewrite <- Et in *. clear Et.
  set (ask := ProviderHistorical _ _ _) in *.
  assert (names_usd ask -> exists cs0 s e', ask = StoreSeries cs0 s e') as Hask
    by (intros Hn; by destruct Hnot).
  destruct (merge_frame _ _ _ _ _) as [[cache' recs] | e] eqn:Em; [| done].
  assert (names_usd (SaveHistoryBatch recs true) ->
          exists cs0 s e', SaveHistoryBatch recs true = StoreSeries cs0 s e') as Hsave.
  { simpl. intros Hn. apply list_elem_of_fmap in Hn as (r & Hr & Hin).
    destruct (merge_frame_records _ _ _ _ _ _ _ Em r Hin) as [[]%elem_of_nil | (v & Hv)].
    apply build_needed_tickers_spec in Hv as [Hne _]. by rewrite <- Hr in Hne. }
  destruct recs; injection H as <- <-; (split; [by eexists | by repeat constructor]).
Qed.
End pivot_entry.

(** C10, amended: every rate map [get_rates] returns has USD at exactly 1,
    in both modes and whatever was requested, and no request to the store or
    the provider, nor any write, names USD.  Every rate map
    [get_historical_rates_range] returns has USD at exactly 1; when the
    currency list is not empty there is one under every requested date, and
    the only request that may name USD is the store read of the requested
    currencies (the provider is never asked for it). *)
Theorem pivot_entry_amended (env : MarketDataService.environment) :
  (forall currencies src rates tr,
     MarketDataService.get_rates env currencies src = (Ok rates, tr) ->
     rates !! MarketDataService.USD = Some 1%Qc /\
     Forall (fun e => ~ vocabulary.names_usd e) tr) /\
  (forall dates currencies res tr,
     MarketDataService.get_historical_rates_range env dates currencies = (Ok res, tr) ->
     (forall d m, res !! d = Some m -> m !! MarketDataService.USD = Some 1%Qc) /\
     (currencies <> [] ->
      forall d, d ∈ dates ->
        exists m, res !! d = Some m /\ m !! MarketDataService.USD = Some 1%Qc) /\
     Forall (fun e => vocabulary.names_usd e ->
                      exists cs s e', e = MarketDataService.StoreSeries cs s e') tr).
Proof.
  split.
  - intros currencies src rates tr. apply get_rates_usd.
  - intros dates currencies res tr H.
    apply historical_range_result in H
      as [(Hempty & -> & ->) | (Hne & (cache & ->) & Htr)].
    + split; [| split]; [by intros d m H | | constructor].
      intros Hne. destruct Hempty as [-> | ->]; [by intros d []%elem_of_nil | done].
    + split; [| split]; [| | done].
      * intros d m. rewrite finalize_lookup. destruct (decide (d ∈ dates)); [| done].
        intros [= <-]. apply rates_for_date_usd.
      * intros _ d Hd. eexists. rewrite finalize_lookup, decide_True by done.
        split; [done | apply rates_for_date_usd].
Qed.

(** Both lookups against an empty store and a silent provider. *)
Lemma pivot_entry_amended_witness :
  (exists rates tr,
     MarketDataService.get_rates samples.offline_env ["EUR"; "BTC"]%string
       MarketDataService.fresh = (Ok rates, tr) /\
     rates !! MarketDataService.USD = Some 1%Qc) /\
  (exists res tr,
     MarketDataService.get_historical_rates_range samples.offline_env [5]
       ["EUR"]%string = (Ok res, tr) /\
     exists m, res !! 5 = Some m /\ m !! MarketDataService.USD = Some 1%Qc).
Proof.
  split.
  - destruct (MarketDataService.get_rates samples.offline_env ["EUR"; "BTC"]%string
                MarketDataService.fresh) as [[rates | e] tr] eqn:E.
    + exists rates, tr. split; [done |].
      exact (proj1 (proj1 (pivot_entry_amended samples.offline_env) _ _ _ _ E)).
    + vm_compute in E. discriminate E.
  - destruct (MarketDataService.get_historical_rates_range samples.offline_env [5]
                ["EUR"]%string) as [[res | e] tr] eqn:E.
    + exists res, tr. split; [done |].
      apply (proj1 (proj2 (proj2 (pivot_entry_amended samples.offline_env) _ _ _ _ E)));
        [done | by left].
    + vm_compute in E. discriminate E.
Defined.

(** C10 as stated fails for an empty currency list: the range lookup returns
    an empty mapping, with no entry under the requested date.  And a range
    lookup that is asked for USD passes it on to the store read. *)
Lemma historical_range_counterexample :
  (∅ : gmap Z (gmap string Qc)) !! 5 = None /\
  (forall env, MarketDataService.get_historical_rates_range env [5] [] = (Ok ∅, [])) /\
  (forall env,
     snd (MarketDataService.get_historical_rates_range env [5] [MarketDataService.USD])
     = [ MarketDataService.StoreSeries [MarketDataService.USD]
           (midnight (5 - 7)) (MarketDataService.end_of_day 5) ]).
Proof. split; [| split]; [apply lookup_empty | by intros env | by intros env]. Qed.

(** * Further properties of the code *)

(** [calculate_mwr] yields the decimal zero on every input: it hands [xirr]
    the tuples amount first, and the sign scan of [xirr] compares the second
    component, a date, with zero. *)
Theorem calculate_mwr_always_zero (math_pow : float -> float -> result float)
    (float_of_decimal : Qc -> float) (start_value end_value : Qc)
    (flows : list PerformanceCalculator.flow) (start_date end_date : date) :
  math_utils.xirr math_pow
    (PerformanceCalculator.cash_flow_tuples float_of_decimal
       start_value end_value flows start_date end_date) math_utils.DEFAULT_GUESS
  = Raise TypeError /\
  PerformanceCalculator.calculate_mwr math_pow float_of_decimal
    start_value end_value flows start_date end_date
  = PerformanceCalculator.DecimalZero.
Proof. split; reflexivity. Qed.

(** [save_rates] adds to the store only rates that are finite and positive,
    never under USD, all under the timestamp it was given. *)
Theorem save_rates_writes_only_valid_rates (db : MarketDataPersistence.store)
    (rates : list (string * MarketDataPersistence.rate_value)) (ts : datetime)
    (row : MarketDataPersistence.ExchangeRateHistory) :
  row ∈ MarketDataPersistence.save_rates db rates ts ->
  row ∈ db \/
  (MarketDataPersistence.is_invalid (MarketDataPersistence.rate row) = false /\
   MarketDataPersistence.currency row <> "USD"%string /\
   MarketDataPersistence.timestamp row = ts /\
   (MarketDataPersistence.currency row, MarketDataPersistence.rate row) ∈ rates).
Proof. apply save_rates_only_valid. Qed.

(** A batch with a valid EUR rate and an invalid GBP rate: the EUR row is
    written, and it is valid. *)
Lemma save_rates_writes_only_valid_rates_witness :
  let rates := [ ("EUR"%string, MarketDataPersistence.RFloat 1.25);
                 ("GBP"%string, MarketDataPersistence.RFloat 0) ] in
  let row := MarketDataPersistence.mkRow 1 "EUR" (MarketDataPersistence.RFloat 1.25) 7 in
  row ∈ MarketDataPersistence.save_rates [] rates 7 /\
  (row ∈ [] \/
   (MarketDataPersistence.is_invalid (MarketDataPersistence.rate row) = false /\
    MarketDataPersistence.currency row <> "USD"%string /\
    MarketDataPersistence.timestamp row = 7 /\
    (MarketDataPersistence.currency row, MarketDataPersistence.rate row) ∈ rates)).
Proof.
  intros rates row.
  assert (row ∈ MarketDataPersistence.save_rates [] rates 7) as H.
  { vm_compute. by left. }
  split; [exact H |].
  exact (save_rates_writes_only_valid_rates [] rates 7 row H).
Defined.

(** The backward sweep of [get_history] agrees with the reconstruction from
    scratch at every listed date when the dates are not before the start of
    the range and the two readings of "after the date" agree on the ledger:
    on PostgreSQL no transaction carries a time of day on a listed date, on
    SQLite no transaction is dated on a listed date at all. *)
Theorem sweep_matches_reconstruction_when_aligned (dia : dialect)
    (ledger : list models.Transaction) (assets : list models.Asset)
    (start_date : date) (dates : list date) (d : date) :
  vocabulary.day_aligned dia ledger dates ->
  (forall d', d' ∈ dates -> start_date <= d') ->
  d ∈ dates ->
  PortfolioService.batch_quantities dia ledger assets start_date dates !! d
  = Some (PortfolioService._calculate_historical_quantities dia ledger assets d).
Proof. apply sweep_matches_scratch_aligned. Qed.

(** The sale stamped at the midnight of day 8: on PostgreSQL seen from day 8
    of the dates 5, 8 and 9, on SQLite from day 7 of the dates 5, 7 and 9. *)
Lemma sweep_matches_reconstruction_when_aligned_witness :
  (vocabulary.day_aligned postgresql [samples.later_sell] [5; 8; 9] /\
   (forall d', d' ∈ [5; 8; 9] -> 5 <= d') /\
   PortfolioService.batch_quantities postgresql [samples.later_sell] samples.one_asset 5
     [5; 8; 9] !! 8
   = Some (PortfolioService._calculate_historical_quantities postgresql
             [samples.later_sell] samples.one_asset 8)) /\
  (vocabulary.day_aligned sqlite [samples.later_sell] [5; 7; 9] /\
   (forall d', d' ∈ [5; 7; 9] -> 5 <= d') /\
   PortfolioService.batch_quantities sqlite [samples.later_sell] samples.one_asset 5
     [5; 7; 9] !! 7
   = Some (PortfolioService._calculate_historical_quantities sqlite
             [samples.later_sell] samples.one_asset 7)).
Proof.
  assert (vocabulary.day_aligned postgresql [samples.later_sell] [5; 8; 9]) as Hpg.
  { intros tx d Htx _ Hd. apply list_elem_of_singleton in Htx as ->.
    rewrite <- Hd. reflexivity. }
  assert (vocabulary.day_aligned sqlite [samples.later_sell] [5; 7; 9]) as Hlite.
  { intros tx d Htx Hd Heq. apply list_elem_of_singleton in Htx as ->.
    rewrite <- Heq in Hd.
    repeat (apply elem_of_cons in Hd as [Hd | Hd]; [vm_compute in Hd; discriminate Hd |]).
    by apply elem_of_nil in Hd. }
  assert (forall d', d' ∈ [5; 8; 9] -> 5 <= d') as Hstart.
  { intros d' Hd'. repeat (apply elem_of_cons in Hd' as [-> | Hd']; [lia |]).
    by apply elem_of_nil in Hd'. }
  assert (forall d', d' ∈ [5; 7; 9] -> 5 <= d') as Hstart'.
  { intros d' Hd'. repeat (apply elem_of_cons in Hd' as [-> | Hd']; [lia |]).
    by apply elem_of_nil in Hd'. }
  split.
  - split; [exact Hpg | split; [exact Hstart |]].
    apply (sweep_matches_reconstruction_when_aligned postgresql [samples.later_sell]
             samples.one_asset 5 [5; 8; 9] 8 Hpg Hstart).
    right. by left.
  - split; [exact Hlite | split; [exact Hstart' |]].
    apply (sweep_matches_reconstruction_when_aligned sqlite [samples.later_sell]
             samples.one_asset 5 [5; 7; 9] 7 Hlite Hstart').
    right. by left.
Defined.

(** ** Decimal rounding: [sanitize_decimal] *)

Section decimal_rounding.
Import math_utils vocabulary.

Lemma round_half_up_near (n : Z) (d : positive) :
  let u := Z.sgn n * ((2 * Z.abs n + Zpos d) / (2 * Zpos d)) in
  2 * Z.abs (u * Zpos d - n) <= Zpos d.
Proof.
  intros u. subst u.
  set (a := Z.abs n). set (D := Zpos d).
  assert (0 < D) as HD by (subst D; lia).
  assert (0 <= a) as Ha by (subst a; lia).
  pose proof (Z.mul_div_le (2 * a + D) (2 * D) ltac:(lia)) as H1.
  pose proof (Z.mul_succ_div_gt (2 * a + D) (2 * D) ltac:(lia)) as H2.
  set (q := (2 * a + D) / (2 * D)) in *.
  destruct (Z.sgn_spec n) as [[Hn ->] | [[Hn ->] | [Hn ->]]]; subst a; nia.
Qed.

Lemma Qred_integer (z : Z) : Qred (z # 1) = (z # 1)%Q.
Proof.
  apply Qred_identity. simpl. rewrite Z.gcd_1_r. reflexivity.
Qed.

Lemma scaled_eq (q : Qc) :
  Qnum (q * scale8)%Qc * Zpos (Qden q) = Qnum q * 100000000 * Zpos (Qden (q * scale8)%Qc).
Proof.
  assert (this (q * scale8)%Qc == this q * (100000000 # 1))%Q as H.
  { unfold Qcmult, scale8, Q2Qc. cbn [this]. rewrite !Qred_correct. reflexivity. }
  unfold Qeq in H. cbn [Qnum Qden Qmult] in H.
  rewrite Pos.mul_1_r in H. lia.
Qed.

Lemma quantize8_ok_spec q r :
  quantize8 q = Ok r ->
  exists units,
    Z.abs units < 10 ^ 28 /\ r = Q2Qc (units # 100000000) /\
    (r - q <= Q2Qc (1 # 200000000))%Qc /\ (q - r <= Q2Qc (1 # 200000000))%Qc.
Proof.
  unfold quantize8. cbv zeta. fold scale8.
  set (units := round_half_up (q * scale8)%Qc).
  destruct (Z.abs units <? 10 ^ 28) eqn:E; [| done].
  intros [= <-]. exists units. apply Z.ltb_lt in E. split; [done |]. split; [done |].
  pose proof (round_half_up_near (Qnum (q * scale8)%Qc) (Qden (q * scale8)%Qc)) as Hnear.
  cbv zeta in Hnear. fold (round_half_up (q * scale8)%Qc) in Hnear. fold units in Hnear.
  pose proof (scaled_eq q) as Hs.
  set (n := Qnum (q * scale8)%Qc) in *. set (d := Qden (q * scale8)%Qc) in *.
  destruct q as [[a b] Hq]. cbn [this Qnum Qden] in *.
  unfold Qcle, Qcminus, Qcplus, Qcopp, Q2Qc. cbn [this].
  rewrite !Qred_correct.
  unfold Qle, Qplus, Qopp. cbn [Qnum Qden].
  split; nia.
Qed.

Lemma scale8_integer (units : Z) :
  (Q2Qc (units # 100000000) * scale8)%Qc = Q2Qc (units # 1).
Proof.
  apply Qc_is_canon. unfold Qcmult, scale8, Q2Qc. cbn [this].
  rewrite !Qred_correct. unfold Qeq, Qmult. cbn [Qnum Qden]. lia.
Qed.

Lemma round_half_up_integer (units : Z) : round_half_up (Q2Qc (units # 1)) = units.
Proof.
  unfold round_half_up, Q2Qc. cbn [this]. rewrite Qred_integer. cbn [Qnum Qden].
  replace ((2 * Z.abs units + 1) / (2 * 1)) with (Z.abs units).
  - destruct (Z.sgn_spec units) as [[Hn ->] | [[Hn ->] | [Hn ->]]]; lia.
  - apply Z.div_unique with (r := 1); lia.
Qed.

Lemma quantize8_fixed (units : Z) :
  Z.abs units < 10 ^ 28 ->
  quantize8 (Q2Qc (units # 100000000)) = Ok (Q2Qc (units # 100000000)).
Proof.
  intros H. unfold quantize8. cbv zeta. fold scale8.
  rewrite scale8_integer, round_half_up_integer.
  apply Z.ltb_lt in H. by rewrite H.
Qed.

Lemma quantize8_raise_large q e :
  quantize8 q = Raise e ->
  (Q2Qc (99999999999999999999 # 1) <= q)%Qc \/ (q <= Q2Qc (-99999999999999999999 # 1))%Qc.
Proof.
  unfold quantize8. cbv zeta. fold scale8.
  set (units := round_half_up (q * scale8)%Qc).
  destruct (Z.abs units <? 10 ^ 28) eqn:E; [done |]. intros _.
  apply Z.ltb_ge in E.
  pose proof (round_half_up_near (Qnum (q * scale8)%Qc) (Qden (q * scale8)%Qc)) as Hnear.
  cbv zeta in Hnear. fold (round_half_up (q * scale8)%Qc) in Hnear. fold units in Hnear.
  pose proof (scaled_eq q) as Hs.
  set (n := Qnum (q * scale8)%Qc) in *. set (d := Qden (q * scale8)%Qc) in *.
  destruct q as [[a b] Hq]. cbn [this Qnum Qden] in *.
  unfold Qcle, Q2Qc. cbn [this]. rewrite !Qred_integer.
  unfold Qle. cbn [Qnum Qden].
  change (10 ^ 28) with 10000000000000000000000000000 in E.
  set (B := Zpos b) in *. set (D := Zpos d) in *.
  assert (0 < B) as HB by (subst B; lia). assert (0 < D) as HD by (subst D; lia).
  destruct (Z_lt_le_dec units 0) as [Hneg | Hpos]; [right | left].
  - assert (2 * n <= - (19999999999999999999999999999 * D)) as H1 by nia.
    assert (2 * (a * 100000000) * D <= - (19999999999999999999999999999 * B) * D) as H2 by nia.
    assert (2 * (a * 100000000) <= - (19999999999999999999999999999 * B)) as H3 by nia.
    lia.
  - assert (19999999999999999999999999999 * D <= 2 * n) as H1 by nia.
    assert (19999999999999999999999999999 * B * D <= 2 * (a * 100000000) * D) as H2 by nia.
    assert (19999999999999999999999999999 * B <= 2 * (a * 100000000)) as H3 by nia.
    lia.
Qed.

Lemma sanitize_decimal_finite q :
  sanitize_decimal (Some (DecFinite q))
  = match quantize8 q with Ok r => r | Raise _ => q end.
Proof. reflexivity. Qed.


(** Sanitizing is idempotent: a sanitized value, handed back as a decimal,
    comes out unchanged.  This holds for [None], NaN and the infinities (all
    of which give 0) and for values too large to quantize. *)
Theorem sanitize_decimal_idempotent (val : option decimal) :
  sanitize_decimal (Some (DecFinite (sanitize_decimal val))) = sanitize_decimal val.
Proof.
  assert (forall q, sanitize_decimal (Some (DecFinite (sanitize_decimal (Some (DecFinite q)))))
                    = sanitize_decimal (Some (DecFinite q))) as Hfin.
  { intros q. rewrite !sanitize_decimal_finite.
    destruct (quantize8 q) as [r | e] eqn:E.
    - apply quantize8_ok_spec in E as (units & Hu & -> & _).
      by rewrite quantize8_fixed.
    - by rewrite E. }
  destruct val as [[q | | neg] |]; [apply Hfin | | |];
    change (sanitize_decimal _) with (sanitize_decimal (Some (DecFinite 0%Qc))) at 2;
    apply Hfin.
Qed.

(** What [sanitize_decimal] does to a finite decimal: either the result is a
    multiple of 10^-8 within half a unit of the value (ROUND_HALF_UP), or
    quantizing signals InvalidOperation and the value comes back as it was,
    which takes a magnitude of at least 10^20 - 1. *)
Theorem sanitize_decimal_rounds (q : Qc) :
  let r := sanitize_decimal (Some (DecFinite q)) in
  (exists units,
     Z.abs units < 10 ^ 28 /\ r = Q2Qc (units # 100000000) /\
     (r - q <= Q2Qc (1 # 200000000))%Qc /\ (q - r <= Q2Qc (1 # 200000000))%Qc) \/
  (r = q /\
   ((Q2Qc (99999999999999999999 # 1) <= q)%Qc \/
    (q <= Q2Qc (-99999999999999999999 # 1))%Qc)).
Proof.
  intros r. subst r. rewrite sanitize_decimal_finite.
  destruct (quantize8 q) as [r | e] eqn:E.
  - left. by apply quantize8_ok_spec.
  - right. split; [done |]. by eapply quantize8_raise_large.
Qed.

End decimal_rounding.

(** ** Provider symbols: [resolve_ticker] *)

Section ticker_shape.
Import MarketDataConfig vocabulary.

Lemma substring_skip (p : string) : forall n (s : string),
  String.substring (String.length p) n (p ++ s) = String.substring 0 n s.
Proof. induction p as [| c p IH]; intros n s; simpl; [done | apply IH]. Qed.

Lemma substring_all (s : string) : String.substring 0 (String.length s) s = s.
Proof. induction s as [| c s IH]; simpl; [done | by rewrite IH]. Qed.

Lemma endswith_app (p suffix : string) : PyStr.endswith (p ++ suffix) suffix = true.
Proof.
  unfold PyStr.endswith. rewrite string_length_append.
  apply andb_true_iff. split; [apply Nat.leb_le; lia |].
  replace (String.length p + String.length suffix - String.length suffix)%nat
    with (String.length p) by lia.
  rewrite substring_skip, substring_all. apply String.eqb_refl.
Qed.

Lemma upper_length (s : string) : String.length (PyStr.upper s) = String.length s.
Proof. induction s as [| c s IH]; simpl; [done | by rewrite IH]. Qed.

Lemma upper_app (s1 s2 : string) :
  PyStr.upper (s1 ++ s2) = (PyStr.upper s1 ++ PyStr.upper s2)%string.
Proof. induction s1 as [| c s1 IH]; simpl; [done | by rewrite IH]. Qed.

Lemma not_reserved_suffixed (c : string) :
  let reserved := ["USD"; "UNKNOWN"; "-"; ""]%string in
  in_list (PyStr.upper (c ++ "-USD")) reserved = false /\
  in_list (PyStr.upper (c ++ "USD=X")) reserved = false.
Proof.
  cbv zeta. rewrite !upper_app.
  change (PyStr.upper "-USD") with "-USD"%string.
  change (PyStr.upper "USD=X") with "USD=X"%string.
  generalize (PyStr.upper c) as u. intros u.
  unfold in_list. cbn [existsb]. rewrite !orb_false_r.
  split.
  - repeat (apply orb_false_iff; split); apply String.eqb_neq; intros H;
      pose proof (f_equal String.length H) as Hl; rewrite string_length_append in Hl;
      simpl in Hl; try lia.
    destruct u as [| a [| b [| c0 [| d u]]]]; simpl in Hl; try lia. discriminate H.
  - repeat (apply orb_false_iff; split); apply String.eqb_neq; intros H;
      pose proof (f_equal String.length H) as Hl; rewrite string_length_append in Hl;
      simpl in Hl; try lia.
    destruct u as [| a [| b [| c0 u]]]; simpl in Hl; try lia. discriminate H.
Qed.

(** A symbol [resolve_ticker] produces is in provider form (it ends in
    [-USD] or [=X], or holds a dot) and resolves to itself: resolving twice
    is the same as resolving once. *)
Theorem resolve_ticker_fixed_point (c t : string) :
  resolve_ticker c = Some t ->
  provider_shaped t = true /\ resolve_ticker t = Some t.
Proof.
  unfold resolve_ticker at 1. unfold provider_shaped.
  destruct (String.eqb c "" || in_list (PyStr.upper c) _) eqn:E1; [done |].
  destruct (PyStr.endswith c "-USD" || PyStr.endswith c "=X") eqn:E2.
  { intros [= <-]. split; [by rewrite E2 |]. unfold resolve_ticker. by rewrite E1, E2. }
  destruct (PyStr.contains "." c) eqn:E3.
  { intros [= <-]. split; [by rewrite E3, orb_true_r |].
    unfold resolve_ticker. by rewrite E1, E2, E3. }
  assert (forall suffix, suffix <> ""%string -> String.eqb (c ++ suffix) "" = false) as Hne.
  { intros suffix Hs. apply String.eqb_neq. intros H.
    destruct c; simpl in H; [done | discriminate H]. }
  destruct (not_reserved_suffixed c) as [R1 R2].
  assert (resolve_ticker (c ++ "-USD") = Some (c ++ "-USD")%string) as F1.
  { unfold resolve_ticker. rewrite Hne by done. rewrite R1. cbn [orb].
    by rewrite endswith_app. }
  assert (PyStr.endswith (c ++ "USD=X") "=X" = true) as HX.
  { replace (c ++ "USD=X")%string with ((c ++ "USD") ++ "=X")%string.
    - apply endswith_app.
    - clear. induction c as [| a c IH]; [done |].
      change (String a ((c ++ "USD") ++ "=X") = String a (c ++ "USD=X"))%string.
      by rewrite IH. }
  assert (resolve_ticker (c ++ "USD=X") = Some (c ++ "USD=X")%string) as F2.
  { unfold resolve_ticker. rewrite Hne by done. rewrite R2. cbn [orb].
    by rewrite HX, orb_true_r. }
  destruct (in_list c CRYPTO_SET).
  { intros [= <-]. split; [by rewrite endswith_app | done]. }
  destruct (String.length c =? 3)%nat; intros [= <-].
  - split; [by rewrite HX, orb_true_r | done].
  - split; [by rewrite endswith_app | done].
Qed.

(** EUR resolves to [EURUSD=X], which resolves to itself. *)
Lemma resolve_ticker_fixed_point_witness :
  resolve_ticker "EUR" = Some "EURUSD=X"%string /\
  provider_shaped "EURUSD=X" = true /\
  resolve_ticker "EURUSD=X" = Some "EURUSD=X"%string.
Proof.
  split; [reflexivity |].
  apply (resolve_ticker_fixed_point "EUR" "EURUSD=X"). reflexivity.
Defined.
End ticker_shape.

(** ** The dates of [get_history] *)

Section history_range.
Import PortfolioService.

Lemma elem_of_dates_from step end_date (Hstep : 0 < step) : forall fuel curr d,
  end_date - curr + 1 <= Z.of_nat fuel ->
  d ∈ dates_from fuel curr end_date step <->
  curr <= d <= end_date /\ (d - curr) mod step = 0.
Proof.
  induction fuel as [| fuel IH]; intros curr d Hfuel.
  - simpl. split; [intros []%elem_of_nil | lia].
  - cbn [dates_from]. destruct (curr <=? end_date) eqn:E.
    + apply Z.leb_le in E. rewrite elem_of_cons, IH by lia.
      replace (d - (curr + step)) with (d - curr + (-1) * step) by lia.
      rewrite Z_mod_plus_full. split.
      * intros [-> | [H1 H2]].
        -- rewrite Z.sub_diag, Z.mod_0_l by lia. split; [lia | done].
        -- split; [lia | done].
      * intros [H1 H2]. destruct (decide (d = curr)) as [-> | Hne]; [by left | right].
        split; [| done].
        apply Z.mod_divide in H2 as [k Hk]; [| lia].
        assert (0 < k) as Hk0 by nia. nia.
    + apply Z.leb_gt in E. split; [intros []%elem_of_nil | lia].
Qed.

(** The dates [get_history] values: the days from the start to the end of the
    range, every day when the range spans at most 90 days and every seventh
    day counted from the start otherwise. *)
Theorem history_dates_spec (start_date end_date d : Z) :
  d ∈ history_dates start_date end_date <->
  start_date <= d <= end_date /\
  (d - start_date) mod (if 90 <? end_date - start_date then 7 else 1) = 0.
Proof.
  unfold history_dates. cbv zeta. apply elem_of_dates_from.
  - by destruct (90 <? _).
  - lia.
Qed.

Lemma history_dates_back (today n d : Z) :
  d ∈ history_dates (today - n) today <->
  today - n <= d <= today /\ (d - (today - n)) mod (if 90 <? n then 7 else 1) = 0.
Proof.
  unfold history_dates. cbv zeta. replace (today - (today - n)) with n by lia.
  apply elem_of_dates_from; [by destruct (90 <? _) | lia].
Qed.

Lemma history_dates_today (today n : Z) :
  today ∈ history_dates (today - n) today <->
  0 <= n /\ n mod (if 90 <? n then 7 else 1) = 0.
Proof.
  rewrite history_dates_back. replace (today - (today - n)) with n by lia.
  split; intros [? ?]; (split; [lia | done]).
Qed.

(** With a preset range, the series of [get_history] ends on today for every
    preset except [1y] and [all]: the weekly steps of [1y] stop the day
    before today and those of [all] five days before. *)
Theorem preset_history_ends (today : Z) (time_range : string) :
  (today ∈ get_history_dates today time_range None None <->
   time_range <> "1y"%string /\ time_range <> "all"%string) /\
  (forall d, d ∈ get_history_dates today "1y" None None -> d <= today - 1) /\
  today - 1 ∈ get_history_dates today "1y" None None /\
  (forall d, d ∈ get_history_dates today "all" None None -> d <= today - 5) /\
  today - 5 ∈ get_history_dates today "all" None None.
Proof.
  unfold get_history_dates. cbn [default]. cbv zeta.
  change (range_start "1y" today) with (today - 365).
  change (range_start "all" today) with (today - 1825).
  split; [| split; [| split; [| split]]].
  - unfold range_start.
    destruct (String.eqb time_range "1w") eqn:E1.
    { apply String.eqb_eq in E1 as ->. rewrite history_dates_today.
      split; [done |]. intros _. split; [lia | reflexivity]. }
    destruct (String.eqb time_range "3m") eqn:E2.
    { apply String.eqb_eq in E2 as ->. rewrite history_dates_today.
      split; [done |]. intros _. split; [lia | reflexivity]. }
    destruct (String.eqb time_range "1y") eqn:E3.
    { apply String.eqb_eq in E3 as ->. rewrite history_dates_today.
      split; [intros [_ H]; vm_compute in H; discriminate H | intros [? _]; done]. }
    destruct (String.eqb time_range "all") eqn:E4.
    { apply String.eqb_eq in E4 as ->. change (365 * 5) with 1825.
      rewrite history_dates_today.
      split; [intros [_ H]; vm_compute in H; discriminate H | intros [_ ?]; done]. }
    apply String.eqb_neq in E3, E4. rewrite history_dates_today.
    split; [done |]. intros _. split; [lia | reflexivity].
  - intros d. rewrite history_dates_back. change (90 <? 365) with true. cbv iota.
    intros [H1 H2]. destruct (decide (d = today)) as [-> | Hne]; [| lia].
    replace (today - (today - 365)) with 365 in H2 by lia. vm_compute in H2. discriminate H2.
  - rewrite history_dates_back. change (90 <? 365) with true. cbv iota.
    replace (today - 1 - (today - 365)) with 364 by lia. split; [lia | reflexivity].
  - intros d. rewrite history_dates_back. change (90 <? 1825) with true. cbv iota.
    intros [H1 H2].
    pose proof (Z.div_mod (d - (today - 1825)) 7 ltac:(lia)) as Hd. rewrite H2 in Hd. lia.
  - rewrite history_dates_back. change (90 <? 1825) with true. cbv iota.
    replace (today - 5 - (today - 1825)) with 1820 by lia. split; [lia | reflexivity].
Qed.
End history_range.

(** ** What a backfill run writes *)

Section backfill_growth.
Import MarketDataPersistence HistoryBackfillAgent vocabulary.

Lemma insert_all_length rows : forall db db',
  insert_all db rows = Ok db' -> exists new, db' = db ++ new /\ length new = length rows.
Proof.
  intros db db' H. apply insert_all_app in H as (new & -> & Hnew).
  exists new. split; [done |]. by eapply Forall2_length.
Qed.

Lemma save_row_by_row_count records : forall db saved,
  exists new,
    save_row_by_row db records saved = (db ++ new, saved + Z.of_nat (length new)) /\
    (length new <= length records)%nat.
Proof.
  induction records as [| rec records IH]; intros db saved; simpl.
  - exists []. rewrite app_nil_r. simpl. split; [f_equal; lia | lia].
  - assert (exists new, save_row_by_row db records saved
                        = (db ++ new, saved + Z.of_nat (length new)) /\
                        (length new <= S (length records))%nat) as Hskip.
    { destruct (IH db saved) as (new & E & Hl). exists new. split; [done | lia]. }
    destruct (to_float_arg (rec_rate rec)) as [v |] eqn:Ev; simpl; [| exact Hskip].
    destruct (insert_row db _ v _) as [db1 |] eqn:E; [| exact Hskip].
    apply insert_row_app in E as [_ ->].
    destruct (IH (db ++ [mkRow (next_id db) (rec_currency rec) v (rec_timestamp rec)]) (saved + 1))
      as (new & -> & Hl).
    eexists (_ :: new). rewrite <- app_assoc. simpl. split; [f_equal; lia | lia].
Qed.

Lemma build_models_length records models :
  build_models records = Ok models -> length models = length records.
Proof.
  revert models. induction records as [| r records IH]; intros models H; simpl in H.
  - by injection H as <-.
  - destruct (to_float_arg (rec_rate r)); [| done]. simpl in H.
    destruct (build_models records) as [ms |]; [| done]. simpl in H.
    injection H as <-. simpl. f_equal. by apply IH.
Qed.

Lemma save_history_batch_insert_count db records :
  records <> [] ->
  exists new,
    save_history_batch db records false = (db ++ new, Some (Z.of_nat (length new))) /\
    (length new <= length records)%nat.
Proof.
  intros Hne.
  assert (exists new, (db, Some 0) = (db ++ new, Some (Z.of_nat (length new))) /\
                      (length new <= length records)%nat) as Hnil.
  { exists []. rewrite app_nil_r. simpl. split; [done | lia]. }
  unfold save_history_batch. destruct records as [| r0 records]; [done |].
  cbv zeta. simpl negb. cbv iota.
  set (candidates := filter _ (r0 :: records)).
  assert (length candidates <= length (r0 :: records))%nat as Hc by apply length_filter.
  destruct (build_models candidates) as [models |] eqn:Eb; [| exact Hnil].
  apply build_models_length in Eb.
  destruct models as [| m models]; [exact Hnil |].
  destruct (insert_all db (m :: models)) as [db' |] eqn:E.
  - apply insert_all_length in E as (new & -> & Hl). exists new.
    rewrite Hl. split; [done | lia].
  - destruct (save_row_by_row_count (r0 :: records) db 0) as (new & -> & Hl).
    exists new. split; [done | exact Hl].
Qed.

Lemma save_history_batch_insert_fresh db records :
  records <> [] ->
  exists new,
    save_history_batch db records false = (db ++ new, Some (Z.of_nat (length new))) /\
    (length new <= length records)%nat /\
    Forall (fun row => key_taken db (currency row) (timestamp row) = false) new.
Proof.
  intros Hne. destruct (save_history_batch_insert_count db records Hne) as (new & E & Hl).
  exists new. split; [done |]. split; [done |].
  destruct (save_history_batch_insert_new db records) as (new0 & E0 & Hf).
  rewrite E in E0. simpl in E0. apply app_inv_head in E0 as ->. done.
Qed.

Lemma persist_history_insert_count db s :
  exists new,
    _persist_history db s false
    = (db ++ new,
       mkStats (Z.of_nat (length new)) 0
               (Z.of_nat (length (flatten_series s)) - Z.of_nat (length new))) /\
    (length new <= length (flatten_series s))%nat /\
    Forall (fun row => key_taken db (currency row) (timestamp row) = false) new.
Proof.
  unfold _persist_history. cbv zeta.
  destruct (flatten_series s) as [| r records] eqn:E.
  - exists []. rewrite app_nil_r. simpl. done.
  - change (Z.of_nat (length (r :: records)) =? 0) with false. cbv iota.
    destruct (save_history_batch_insert_fresh db (r :: records)) as (new & -> & Hl & Hf);
      [done |].
    exists new. simpl default. split; [done | split; [exact Hl | exact Hf]].
Qed.

Lemma run_tiers_insert_count env ts s_date e_date currencies : forall db totals,
  exists new skipped_more,
    run_tiers env ts s_date e_date currencies false db totals
    = (db ++ new,
       mkStats (added totals + Z.of_nat (length new)) (updated totals)
               (skipped totals + skipped_more)) /\
    0 <= skipped_more /\
    Forall (fun row => key_taken db (currency row) (timestamp row) = false) new.
Proof.
  induction ts as [| [[label min_age] max_age] ts IH]; intros db totals.
  - exists [], 0. rewrite app_nil_r. simpl. destruct totals. simpl.
    split; [do 2 f_equal; lia | split; [lia | constructor]].
  - cbn [run_tiers]. cbv zeta.
    destruct (_ <=? _); [apply IH |].
    destruct (get_historical_rates_series env _ _ _ _) as [[| e0 s] | e]; [apply IH | | apply IH].
    destruct (persist_history_insert_count db (e0 :: s)) as (new & -> & Hl & Hf).
    cbv beta iota. cbn [added updated skipped].
    match goal with
    | |- context [run_tiers _ _ _ _ _ _ ?d ?t] => destruct (IH d t) as (new' & k & -> & Hk & Hf')
    end.
    exists (new ++ new'), (Z.of_nat (length (flatten_series (e0 :: s)))
                           - Z.of_nat (length new) + k).
    rewrite app_assoc, length_app. cbn [added updated skipped].
    split; [do 2 f_equal; lia |]. split; [lia |].
    apply Forall_app. split; [exact Hf |].
    eapply Forall_impl; [exact Hf' |]. intros row Hk'. simpl in Hk'.
    rewrite key_taken_app in Hk'. by apply orb_false_iff in Hk' as [? _].
Qed.

(** A backfill run without [force] only appends rows: the rows of the store
    stay as they were and in place, no appended row has the currency and
    timestamp of a row that was there, and the reported [added] is the number
    of rows appended, with nothing reported as updated. *)
Theorem backfill_without_force_only_adds (env : environment) (currency : option string)
    (start_date end_date : option Z) (agent_config : list (string * Z)) (db : store) :
  exists new,
    fst (execute env currency start_date end_date false agent_config db) = db ++ new /\
    Forall (fun row =>
              key_taken db (MarketDataPersistence.currency row) (timestamp row) = false)
           new /\
    match snd (execute env currency start_date end_date false agent_config db) with
    | Some totals =>
        added totals = Z.of_nat (length new) /\ updated totals = 0 /\ 0 <= skipped totals
    | None => new = []
    end.
Proof.
  assert (exists new : store, db = db ++ new /\
            Forall (fun row => key_taken db (MarketDataPersistence.currency row)
                                 (timestamp row) = false) new /\ new = []) as Hnone.
  { exists []. by rewrite app_nil_r. }
  assert (forall s_date e_date currencies,
            exists new,
              fst (let '(db', totals) :=
                     run_tiers env (tiers agent_config) s_date e_date currencies false db
                               (mkStats 0 0 0) in (db', Some totals)) = db ++ new /\
              Forall (fun row => key_taken db (MarketDataPersistence.currency row)
                                   (timestamp row) = false) new /\
              match snd (let '(db', totals) :=
                     run_tiers env (tiers agent_config) s_date e_date currencies false db
                               (mkStats 0 0 0) in (db', Some totals)) with
              | Some totals =>
                  added totals = Z.of_nat (length new) /\ updated totals = 0 /\
                  0 <= skipped totals
              | None => new = []
              end) as Hrun.
  { intros s_date e_date currencies.
    destruct (run_tiers_insert_count env (tiers agent_config) s_date e_date currencies db
                (mkStats 0 0 0)) as (new & k & -> & Hk & Hf).
    exists new. cbn [fst snd added updated skipped]. repeat split; try done; lia. }
  unfold execute. cbv zeta.
  assert (exists new,
    fst match earliest_purchase_date env, managed_currencies env with
        | None, _ => (db, None)
        | Some _, [] => (db, None)
        | Some earliest, cs =>
            let '(db', totals) :=
              run_tiers env (tiers agent_config) earliest (today env) cs false db
                        (mkStats 0 0 0) in (db', Some totals)
        end = db ++ new /\
    Forall (fun row => key_taken db (MarketDataPersistence.currency row)
                         (timestamp row) = false) new /\
    match snd match earliest_purchase_date env, managed_currencies env with
        | None, _ => (db, None)
        | Some _, [] => (db, None)
        | Some earliest, cs =>
            let '(db', totals) :=
              run_tiers env (tiers agent_config) earliest (today env) cs false db
                        (mkStats 0 0 0) in (db', Some totals)
        end with
    | Some totals =>
        added totals = Z.of_nat (length new) /\ updated totals = 0 /\ 0 <= skipped totals
    | None => new = []
    end) as Hauto.
  { destruct (earliest_purchase_date env) as [earliest |]; [| exact Hnone].
    destruct (managed_currencies env) as [| c cs] eqn:Ec; [exact Hnone |].
    apply Hrun. }
  destruct currency as [c |]; [| exact Hauto].
  destruct start_date as [s_date |]; [| exact Hauto].
  destruct end_date as [e_date |]; [| exact Hauto].
  destruct (String.eqb c ""); [exact Hauto |].
  destruct (String.eqb c "USD"); [exact Hnone |].
  apply Hrun.
Qed.

Lemma build_models_same records models :
  build_models records = Ok models -> models = records.
Proof.
  revert models. induction records as [| r records IH]; intros models H; simpl in H.
  - by injection H as <-.
  - destruct r as [c rt ts]. simpl in H.
    destruct rt; simpl in H; [done | |];
      (destruct (build_models records) as [ms |]; [| done]); simpl in H;
      injection H as <-; f_equal; by apply IH.
Qed.

Lemma insert_all_rows rows : forall db db' row,
  insert_all db rows = Ok db' -> row ∈ db' ->
  row ∈ db \/ exists rec, rec ∈ rows /\ stored_as row rec.
Proof.
  intros db db' row H Hrow. apply insert_all_app in H as (new & -> & Hnew).
  apply elem_of_app in Hrow as [? | Hin]; [by left | right].
  apply list_elem_of_lookup in Hin as [i Hi].
  destruct (Forall2_lookup_l _ _ _ _ _ Hnew Hi) as (rec & Hrec & Hst).
  exists rec. split; [| done]. apply list_elem_of_lookup. by exists i.
Qed.

Lemma save_row_by_row_rows records : forall db saved row,
  row ∈ fst (save_row_by_row db records saved) ->
  row ∈ db \/ exists rec, rec ∈ records /\ stored_as row rec.
Proof.
  induction records as [| rec records IH]; intros db saved row Hrow; simpl in Hrow.
  - by left.
  - assert (row ∈ fst (save_row_by_row db records saved) ->
            row ∈ db \/ exists rec0, rec0 ∈ rec :: records /\ stored_as row rec0) as Hskip.
    { intros H. destruct (IH _ _ _ H) as [? | (rec0 & Hin & Hst)]; [by left | right].
      exists rec0. split; [by right | done]. }
    destruct (to_float_arg (rec_rate rec)) as [v |] eqn:Ev; simpl in Hrow; [| by apply Hskip].
    destruct (insert_row db _ v _) as [db1 |] eqn:E; [| by apply Hskip].
    apply insert_row_app in E as [_ ->].
    destruct (IH _ _ _ Hrow) as [[Hdb | Hnew]%elem_of_app | (rec0 & Hin & Hst)].
    + by left.
    + right. apply list_elem_of_singleton in Hnew as ->. exists rec. split; [by left |].
      unfold stored_as. simpl. split; [done |]. split; [| done].
      destruct (rec_rate rec); simpl in Ev; [done | by injection Ev | by injection Ev].
    + right. exists rec0. split; [by right | done].
Qed.

Lemma save_history_batch_rows db records upsert row :
  row ∈ fst (save_history_batch db records upsert) ->
  row ∈ db \/ exists rec, rec ∈ records /\ stored_as row rec.
Proof.
  unfold save_history_batch. destruct records as [| r0 records]; [by left |].
  cbv zeta. set (recs := r0 :: records).
  set (candidates := if upsert then recs else filter _ recs).
  assert (forall rec, rec ∈ candidates -> rec ∈ recs) as Hcand.
  { intros rec. subst candidates. destruct upsert; [done |].
    by intros [_ ?]%list_elem_of_filter. }
  destruct (build_models candidates) as [models |] eqn:Eb; [| by left].
  apply build_models_same in Eb as ->.
  destruct candidates as [| m ms] eqn:Ec; [by left |]. rewrite <- Ec in *.
  destruct (insert_all _ candidates) as [db' |] eqn:E; cbn [fst].
  - intros Hrow. destruct (insert_all_rows _ _ _ _ E Hrow) as [Hs | (rec & Hin & Hst)].
    + left. destruct upsert; [| done]. by apply elem_of_delete_colliding in Hs as [? _].
    + right. exists rec. split; [by apply Hcand | done].
  - intros Hrow. destruct (save_row_by_row db recs 0) as [db' n] eqn:Es.
    simpl in Hrow. apply (save_row_by_row_rows recs db 0). by rewrite Es.
Qed.

Lemma flatten_series_not_usd s rec :
  rec ∈ flatten_series s -> rec_currency rec <> "USD"%string.
Proof.
  unfold flatten_series. intros H. apply list_elem_of_In, in_flat_map in H.
  destruct H as ([dt rates] & _ & Hin). apply list_elem_of_In in Hin. unfold flatten_rates in Hin.
  simpl in Hin. apply list_elem_of_fmap in Hin as ([c r] & -> & Hin).
  apply list_elem_of_filter in Hin as [Hc _]. simpl in *.
  apply Is_true_true, negb_true_iff in Hc. by apply String.eqb_neq.
Qed.

Lemma persist_history_rows db s force row :
  row ∈ fst (_persist_history db s force) ->
  row ∈ db \/ currency row <> "USD"%string.
Proof.
  rewrite persist_history_store.
  destruct (flatten_series s) as [| r rs] eqn:E; [by left |]. rewrite <- E.
  intros H. apply save_history_batch_rows in H as [? | (rec & Hin & Hst)]; [by left | right].
  destruct Hst as (-> & _). by apply (flatten_series_not_usd s).
Qed.

Lemma run_tiers_rows env ts s_date e_date currencies force : forall db totals row,
  row ∈ fst (run_tiers env ts s_date e_date currencies force db totals) ->
  row ∈ db \/ currency row <> "USD"%string.
Proof.
  induction ts as [| [[label min_age] max_age] ts IH]; intros db totals row; [by left |].
  cbn [run_tiers]. cbv zeta.
  destruct (_ <=? _); [apply IH |].
  destruct (get_historical_rates_series env _ _ _ _) as [[| e0 s] | e]; [apply IH | | apply IH].
  pose proof (persist_history_rows db (e0 :: s) force) as Hp.
  destruct (_persist_history db (e0 :: s) force) as [db' res]. simpl in Hp.
  intros H. apply IH in H as [H | H]; [by apply Hp | by right].
Qed.

(** Whatever the provider returns and whatever the mode, a backfill run
    writes no row under USD: every row of the store after the run was there
    before or has another currency. *)
Theorem backfill_never_stores_usd (env : environment) (currency : option string)
    (start_date end_date : option Z) (force : bool) (agent_config : list (string * Z))
    (db : store) (row : ExchangeRateHistory) :
  row ∈ fst (execute env currency start_date end_date force agent_config db) ->
  row ∈ db \/ MarketDataPersistence.currency row <> "USD"%string.
Proof.
  assert (forall s_date e_date currencies,
            row ∈ fst (let '(db', totals) :=
                         run_tiers env (tiers agent_config) s_date e_date currencies force db
                                   (mkStats 0 0 0) in (db', Some totals)) ->
            row ∈ db \/ MarketDataPersistence.currency row <> "USD"%string) as Hrun.
  { intros s_date e_date currencies.
    pose proof (run_tiers_rows env (tiers agent_config) s_date e_date currencies force db
                  (mkStats 0 0 0) row) as Hr.
    by destruct (run_tiers _ _ _ _ _ _ _ _). }
  unfold execute. cbv zeta.
  assert (row ∈ fst match earliest_purchase_date env, managed_currencies env with
        | None, _ => (db, None)
        | Some _, [] => (db, None)
        | Some earliest, cs =>
            let '(db', totals) :=
              run_tiers env (tiers agent_config) earliest (today env) cs force db
                        (mkStats 0 0 0) in (db', Some totals)
        end -> row ∈ db \/ MarketDataPersistence.currency row <> "USD"%string) as Hauto.
  { destruct (earliest_purchase_date env) as [earliest |]; [| by left].
    destruct (managed_currencies env) as [| c cs] eqn:Ec; [by left |]. apply Hrun. }
  destruct currency as [c |]; [| exact Hauto].
  destruct start_date as [s_date |]; [| exact Hauto].
  destruct end_date as [e_date |]; [| exact Hauto].
  destruct (String.eqb c ""); [exact Hauto |].
  destruct (String.eqb c "USD"); [by left |].
  apply Hrun.
Qed.

(** The forced run for EUR over days 95 to 100: the row it rewrites is an
    EUR row. *)
Lemma backfill_never_stores_usd_witness :
  let row := mkRow 1 "EUR" (RFloat 1.25) (midnight 99) in
  row ∈ fst (execute samples.backfill_env (Some "EUR"%string) (Some 95) (Some 100) true []
               samples.cached_store) /\
  (row ∈ samples.cached_store \/ currency row <> "USD"%string).
Proof.
  intros row.
  assert (row ∈ fst (execute samples.backfill_env (Some "EUR"%string) (Some 95) (Some 100)
                       true [] samples.cached_store)) as H.
  { vm_compute. by left. }
  split; [exact H |].
  exact (backfill_never_stores_usd samples.backfill_env (Some "EUR"%string) (Some 95)
           (Some 100) true [] samples.cached_store row H).
Defined.
End backfill_growth.

(** ** Reading the store back *)

Section store_reads.
Import MarketDataPersistence MarketCompactorAgent vocabulary.

#[local] Instance ts_le_trans : Transitive ts_le.
Proof. intros a b c. unfold ts_le. lia. Qed.
#[local] Instance ts_le_total : Total ts_le.
Proof. intros a b. unfold ts_le. lia. Qed.
#[local] Instance ts_ge_trans : Transitive ts_ge.
Proof. intros a b c. unfold ts_ge. lia. Qed.
#[local] Instance ts_ge_total : Total ts_ge.
Proof. intros a b. unfold ts_ge. lia. Qed.

Lemma elem_of_filter_bool {A} (P : A -> bool) (l : list A) x :
  x ∈ filter (fun y => P y) l <-> P x = true /\ x ∈ l.
Proof. rewrite list_elem_of_filter, Is_true_true. done. Qed.

Lemma head_sorted_least (R : relation ExchangeRateHistory)
    `{!forall x y, Decision (R x y)} `{!Transitive R} `{!Total R} `{!Reflexive R} l r :
  head (merge_sort R l) = Some r ->
  r ∈ l /\ forall r', r' ∈ l -> R r r'.
Proof.
  intros Hhead. rename Hhead into H'. pose proof (StronglySorted_merge_sort R l) as Hs.
  pose proof (merge_sort_Permutation R l) as Hp.
  apply head_Some in H' as [l' E]. rewrite E in Hs, Hp. split.
  - rewrite <- Hp. by left.
  - intros r' Hr'. rewrite <- Hp in Hr'. apply elem_of_cons in Hr' as [-> | Hr'].
    + reflexivity.
    + apply StronglySorted_inv in Hs as [_ Hall]. rewrite Forall_forall in Hall.
      by apply Hall.
Qed.

#[local] Instance ts_le_refl : Reflexive ts_le.
Proof. intros a. unfold ts_le. lia. Qed.
#[local] Instance ts_ge_refl : Reflexive ts_ge.
Proof. intros a. unfold ts_ge. lia. Qed.

Lemma head_sorted_none (R : relation ExchangeRateHistory)
    `{!forall x y, Decision (R x y)} l :
  head (merge_sort R l) = None <-> l = [].
Proof.
  pose proof (merge_sort_Permutation R l) as Hp. split.
  - intros Hn. destruct (merge_sort R l) as [| x l'] eqn:E; [| done].
    by apply Permutation_nil_l in Hp.
  - intros ->. done.
Qed.

(** [get_earliest_record]: a row of the currency with the least timestamp. *)
Lemma get_earliest_record_some db c r :
  get_earliest_record db c = Some r ->
  r ∈ db /\ currency r = c /\
  forall r', r' ∈ db -> currency r' = c -> timestamp r <= timestamp r'.
Proof.
  unfold get_earliest_record, order_by_timestamp_asc. intros H.
  apply head_sorted_least in H as [Hin Hleast]; [| apply _ ..].
  apply elem_of_filter_bool in Hin as [Hc Hin]. apply String.eqb_eq in Hc.
  split; [done |]. split; [done |].
  intros r' Hr' Hc'. apply (Hleast r'). apply elem_of_filter_bool.
  split; [by apply String.eqb_eq | done].
Qed.

Lemma get_earliest_record_none db c :
  get_earliest_record db c = None <-> forall r, r ∈ db -> currency r <> c.
Proof.
  unfold get_earliest_record, order_by_timestamp_asc. rewrite head_sorted_none. split.
  - intros H r Hr Hc.
    assert (r ∈ filter (fun r => String.eqb (currency r) c) db) as Hf
      by (apply elem_of_filter_bool; split; [by apply String.eqb_eq | done]).
    rewrite H in Hf. by apply elem_of_nil in Hf.
  - intros H. destruct (filter _ db) as [| r l] eqn:E; [done |].
    assert (r ∈ filter (fun r => String.eqb (currency r) c) db) as Hf
      by (rewrite E; by left).
    apply elem_of_filter_bool in Hf as [Hc Hin]. apply String.eqb_eq in Hc.
    by destruct (H r Hin).
Qed.

Lemma unique_keys_inj (db : store) r r' :
  NoDup (map row_key db) -> r ∈ db -> r' ∈ db -> row_key r = row_key r' -> r = r'.
Proof.
  induction db as [| x db IH]; intros Hnd Hr Hr' Hk; [by apply elem_of_nil in Hr |].
  simpl in Hnd. apply NoDup_cons in Hnd as [Hx Hnd].
  apply elem_of_cons in Hr as [-> | Hr]; apply elem_of_cons in Hr' as [-> | Hr'].
  - done.
  - destruct Hx. rewrite Hk. apply list_elem_of_fmap. by exists r'.
  - destruct Hx. rewrite <- Hk. apply list_elem_of_fmap. by exists r.
  - by apply IH.
Qed.

Lemma unique_ids_inj (db : store) r r' :
  NoDup (map row_id db) -> r ∈ db -> r' ∈ db -> row_id r = row_id r' -> r = r'.
Proof.
  induction db as [| x db IH]; intros Hnd Hr Hr' Hk; [by apply elem_of_nil in Hr |].
  simpl in Hnd. apply NoDup_cons in Hnd as [Hx Hnd].
  apply elem_of_cons in Hr as [-> | Hr]; apply elem_of_cons in Hr' as [-> | Hr'].
  - done.
  - destruct Hx. rewrite Hk. apply list_elem_of_fmap. by exists r'.
  - destruct Hx. rewrite <- Hk. apply list_elem_of_fmap. by exists r.
  - by apply IH.
Qed.

(** Under the unique constraint the earliest row of a currency is determined. *)
Lemma get_earliest_record_unique db c r :
  NoDup (map row_key db) ->
  r ∈ db -> currency r = c ->
  (forall r', r' ∈ db -> currency r' = c -> timestamp r <= timestamp r') ->
  get_earliest_record db c = Some r.
Proof.
  intros Hnd Hr Hc Hleast.
  destruct (get_earliest_record db c) as [h |] eqn:E.
  - apply get_earliest_record_some in E as (Hh & Hhc & Hhleast). f_equal.
    apply (unique_keys_inj db); try done. unfold row_key. f_equal; [congruence |].
    pose proof (Hleast h Hh Hhc). pose proof (Hhleast r Hr Hc). lia.
  - rewrite get_earliest_record_none in E. by destruct (E r Hr).
Qed.

Section tier_more.
Variable bucket : datetime -> Z * Z.
Variable cutoff : datetime.

Lemma compact_filter db :
  fst (compact bucket cutoff db)
  = filter (fun r => negb (existsb (Z.eqb (row_id r)) (surplus_ids bucket cutoff db))) db.
Proof. reflexivity. Qed.

Lemma compact_sublist db : fst (compact bucket cutoff db) `sublist_of` db.
Proof. rewrite compact_filter. apply sublist_filter. Qed.

Lemma compact_count db :
  snd (compact bucket cutoff db)
  = Z.of_nat (length db) - Z.of_nat (length (fst (compact bucket cutoff db))).
Proof. reflexivity. Qed.

(** A row is deleted only when it is older than the cutoff and another such
    row of its partition sorts before it. *)
Lemma compact_keeps db r :
  NoDup (map row_id db) -> r ∈ db ->
  (selected cutoff r = true ->
   forall r', r' ∈ db -> selected cutoff r' = true -> same_partition bucket r' r = true ->
              sorts_before r' r = false) ->
  r ∈ fst (compact bucket cutoff db).
Proof.
  intros Hnd Hr Hfirst. apply elem_of_compact. split; [done |].
  intros Hid. apply elem_of_surplus_ids in Hid as (r0 & Hr0 & Hid & Hsel & Hrn).
  assert (r0 = r) as -> by (by apply (unique_ids_inj db)).
  apply row_number_surplus in Hrn as (r' & Hr' & Hsel' & Hp & Hb).
  by rewrite (Hfirst Hsel r' Hr' Hsel' Hp) in Hb.
Qed.
End tier_more.

Lemma same_partition_currency bucket r' r :
  same_partition bucket r' r = true -> currency r' = currency r.
Proof.
  unfold same_partition. intros H. apply andb_true_iff in H as [H _].
  apply andb_true_iff in H as [H _]. by apply String.eqb_eq.
Qed.

Lemma sublist_unique_ids (db db' : store) :
  db' `sublist_of` db -> NoDup (map row_id db) -> NoDup (map row_id db').
Proof. intros Hs Hnd. eapply sublist_NoDup; [exact Hnd |]. by apply fmap_sublist. Qed.

Lemma sublist_unique_keys (db db' : store) :
  db' `sublist_of` db -> NoDup (map row_key db) -> NoDup (map row_key db').
Proof. intros Hs Hnd. eapply sublist_NoDup; [exact Hnd |]. by apply fmap_sublist. Qed.

(** The four tiers, one after the other. *)
Lemma execute_tiers utc_now d cfg db :
  exists db1 db2 db3 db4 n1 n2 n3 n4,
    let cutoff k key dflt := days_before (utc_now k) (config_get cfg key dflt) in
    compact bucket_15min (cutoff 0%nat "retention_5min_days"%string 3) db = (db1, n1) /\
    compact bucket_1h (cutoff 1%nat "retention_15min_days"%string 14) db1 = (db2, n2) /\
    compact bucket_1d (cutoff 2%nat "retention_1h_days"%string 90) db2 = (db3, n3) /\
    compact (bucket_1w d) (cutoff 3%nat "retention_1d_days"%string 365) db3 = (db4, n4) /\
    execute utc_now d cfg db = (db4, mkResults n1 n2 n3 n4).
Proof.
  unfold execute. cbv zeta.
  destruct (compact bucket_15min _ db) as [db1 n1] eqn:E1.
  destruct (compact bucket_1h _ db1) as [db2 n2] eqn:E2.
  destruct (compact bucket_1d _ db2) as [db3 n3] eqn:E3.
  destruct (compact (bucket_1w d) _ db3) as [db4 n4] eqn:E4.
  exists db1, db2, db3, db4, n1, n2, n3, n4. by rewrite E2, E3, E4.
Qed.

Lemma first_of_currency_kept bucket cutoff db r :
  NoDup (map row_id db) -> NoDup (map row_key db) -> r ∈ db ->
  (forall r', r' ∈ db -> currency r' = currency r -> timestamp r <= timestamp r') ->
  r ∈ fst (compact bucket cutoff db).
Proof.
  intros Hid Hkey Hr Hleast. apply compact_keeps; [done | done |].
  intros _ r' Hr' _ Hp. apply same_partition_currency in Hp.
  pose proof (Hleast r' Hr' Hp) as Hle. unfold sorts_before.
  apply orb_false_iff. split; [apply Z.ltb_ge; lia |].
  destruct (timestamp r' =? timestamp r) eqn:E; [| done]. apply Z.eqb_eq in E.
  assert (r' = r) as -> by (apply (unique_keys_inj db); try done; unfold row_key; congruence).
  simpl. apply Z.ltb_irrefl.
Qed.

(** A compaction run only deletes: what is left is a sublist of the store, the
    four reported counts add up to the number of rows removed, and a row not
    older than any of the four cutoffs is kept. *)
Theorem compaction_only_deletes_old (utc_now : nat -> datetime) (d : dialect)
    (agent_config : list (string * Z)) (db : store) :
  NoDup (map row_id db) ->
  let db' := fst (execute utc_now d agent_config db) in
  let n := snd (execute utc_now d agent_config db) in
  db' `sublist_of` db /\
  deleted_15min n + deleted_1h n + deleted_1d n + deleted_1w n
  = Z.of_nat (length db) - Z.of_nat (length db') /\
  forall r, r ∈ db ->
    Forall (fun cutoff => cutoff <= timestamp r) (tier_cutoffs utc_now agent_config) ->
    r ∈ db'.
Proof.
  intros Hid. destruct (execute_tiers utc_now d agent_config db)
    as (db1 & db2 & db3 & db4 & n1 & n2 & n3 & n4 & E1 & E2 & E3 & E4 & ->).
  cbv zeta in *. cbn [fst snd deleted_15min deleted_1h deleted_1d deleted_1w].
  set (c1 := days_before (utc_now 0%nat) _) in *.
  set (c2 := days_before (utc_now 1%nat) _) in *.
  set (c3 := days_before (utc_now 2%nat) _) in *.
  set (c4 := days_before (utc_now 3%nat) _) in *.
  pose proof (compact_sublist bucket_15min c1 db) as S1. rewrite E1 in S1. simpl in S1.
  pose proof (compact_sublist bucket_1h c2 db1) as S2. rewrite E2 in S2. simpl in S2.
  pose proof (compact_sublist bucket_1d c3 db2) as S3. rewrite E3 in S3. simpl in S3.
  pose proof (compact_sublist (bucket_1w d) c4 db3) as S4. rewrite E4 in S4. simpl in S4.
  pose proof (compact_count bucket_15min c1 db) as C1. rewrite E1 in C1. simpl in C1.
  pose proof (compact_count bucket_1h c2 db1) as C2. rewrite E2 in C2. simpl in C2.
  pose proof (compact_count bucket_1d c3 db2) as C3. rewrite E3 in C3. simpl in C3.
  pose proof (compact_count (bucket_1w d) c4 db3) as C4. rewrite E4 in C4. simpl in C4.
  split; [by repeat (etrans; [eassumption |]) |]. split; [lia |].
  intros r Hr Hrecent. unfold tier_cutoffs in Hrecent. fold c1 c2 c3 c4 in Hrecent.
  apply Forall_cons in Hrecent as [H1 Hrecent]. apply Forall_cons in Hrecent as [H2 Hrecent].
  apply Forall_cons in Hrecent as [H3 Hrecent]. apply Forall_cons in Hrecent as [H4 _].
  assert (forall bucket cutoff (s : store),
            NoDup (map row_id s) -> r ∈ s -> cutoff <= timestamp r ->
            r ∈ fst (compact bucket cutoff s)) as Hkeep.
  { intros bucket cutoff s Hs Hin Hc. apply compact_keeps; [done | done |].
    unfold selected. intros Hsel. apply Z.ltb_lt in Hsel. lia. }
  pose proof (sublist_unique_ids _ _ S1 Hid) as Hid1.
  pose proof (sublist_unique_ids _ _ S2 Hid1) as Hid2.
  pose proof (sublist_unique_ids _ _ S3 Hid2) as Hid3.
  pose proof (Hkeep bucket_15min c1 db Hid Hr H1) as K1. rewrite E1 in K1. simpl in K1.
  pose proof (Hkeep bucket_1h c2 db1 Hid1 K1 H2) as K2. rewrite E2 in K2. simpl in K2.
  pose proof (Hkeep bucket_1d c3 db2 Hid2 K2 H3) as K3. rewrite E3 in K3. simpl in K3.
  pose proof (Hkeep (bucket_1w d) c4 db3 Hid3 K3 H4) as K4. rewrite E4 in K4. exact K4.
Qed.

(** The store with two EUR points in one quarter of an hour, on day 100. *)
Lemma compaction_only_deletes_old_witness :
  NoDup (map row_id samples.crowded_store) /\
  let db' := fst (execute samples.clock_day_100 sqlite [] samples.crowded_store) in
  let n := snd (execute samples.clock_day_100 sqlite [] samples.crowded_store) in
  db' `sublist_of` samples.crowded_store /\
  deleted_15min n + deleted_1h n + deleted_1d n + deleted_1w n
  = Z.of_nat (length samples.crowded_store) - Z.of_nat (length db') /\
  forall r, r ∈ samples.crowded_store ->
    Forall (fun cutoff => cutoff <= timestamp r) (tier_cutoffs samples.clock_day_100 []) ->
    r ∈ db'.
Proof.
  assert (NoDup (map row_id samples.crowded_store)) as Hid.
  { apply (bool_decide_unpack _). vm_compute. reflexivity. }
  split; [exact Hid |].
  exact (compaction_only_deletes_old samples.clock_day_100 sqlite [] samples.crowded_store Hid).
Defined.

(** Compaction keeps the earliest record of every currency: in a store with
    unique ids and unique (currency, timestamp) pairs, [get_earliest_record]
    answers after a run what it answered before. *)
Theorem compaction_keeps_earliest_record (utc_now : nat -> datetime) (d : dialect)
    (agent_config : list (string * Z)) (db : store) (c : string) :
  NoDup (map row_id db) ->
  NoDup (map row_key db) ->
  get_earliest_record (fst (execute utc_now d agent_config db)) c
  = get_earliest_record db c.
Proof.
  intros Hid Hkey. destruct (execute_tiers utc_now d agent_config db)
    as (db1 & db2 & db3 & db4 & n1 & n2 & n3 & n4 & E1 & E2 & E3 & E4 & ->).
  cbv zeta in *. cbn [fst].
  set (c1 := days_before (utc_now 0%nat) _) in *.
  set (c2 := days_before (utc_now 1%nat) _) in *.
  set (c3 := days_before (utc_now 2%nat) _) in *.
  set (c4 := days_before (utc_now 3%nat) _) in *.
  pose proof (compact_sublist bucket_15min c1 db) as S1. rewrite E1 in S1. simpl in S1.
  pose proof (compact_sublist bucket_1h c2 db1) as S2. rewrite E2 in S2. simpl in S2.
  pose proof (compact_sublist bucket_1d c3 db2) as S3. rewrite E3 in S3. simpl in S3.
  pose proof (compact_sublist (bucket_1w d) c4 db3) as S4. rewrite E4 in S4. simpl in S4.
  pose proof (compact_subset bucket_15min c1 db) as B1. rewrite E1 in B1. simpl in B1.
  pose proof (compact_subset bucket_1h c2 db1) as B2. rewrite E2 in B2. simpl in B2.
  pose proof (compact_subset bucket_1d c3 db2) as B3. rewrite E3 in B3. simpl in B3.
  pose proof (compact_subset (bucket_1w d) c4 db3) as B4. rewrite E4 in B4. simpl in B4.
  pose proof (sublist_unique_ids _ _ S1 Hid) as Hid1.
  pose proof (sublist_unique_ids _ _ S2 Hid1) as Hid2.
  pose proof (sublist_unique_ids _ _ S3 Hid2) as Hid3.
  pose proof (sublist_unique_keys _ _ S1 Hkey) as Hkey1.
  pose proof (sublist_unique_keys _ _ S2 Hkey1) as Hkey2.
  pose proof (sublist_unique_keys _ _ S3 Hkey2) as Hkey3.
  pose proof (sublist_unique_keys _ _ S4 Hkey3) as Hkey4.
  destruct (get_earliest_record db c) as [r |] eqn:E.
  - apply get_earliest_record_some in E as (Hr & Hc & Hleast). subst c.
    pose proof (first_of_currency_kept bucket_15min c1 db r Hid Hkey Hr Hleast) as K1.
    rewrite E1 in K1. simpl in K1.
    assert (forall r', r' ∈ db1 -> currency r' = currency r -> timestamp r <= timestamp r')
      as L1 by auto.
    pose proof (first_of_currency_kept bucket_1h c2 db1 r Hid1 Hkey1 K1 L1) as K2.
    rewrite E2 in K2. simpl in K2.
    assert (forall r', r' ∈ db2 -> currency r' = currency r -> timestamp r <= timestamp r')
      as L2 by auto.
    pose proof (first_of_currency_kept bucket_1d c3 db2 r Hid2 Hkey2 K2 L2) as K3.
    rewrite E3 in K3. simpl in K3.
    assert (forall r', r' ∈ db3 -> currency r' = currency r -> timestamp r <= timestamp r')
      as L3 by auto.
    pose proof (first_of_currency_kept (bucket_1w d) c4 db3 r Hid3 Hkey3 K3 L3) as K4.
    rewrite E4 in K4. simpl in K4.
    apply get_earliest_record_unique; auto.
  - rewrite get_earliest_record_none in E. apply get_earliest_record_none.
    intros r Hr. apply E. auto.
Qed.

(** The same store: the earliest EUR record is the point a run keeps. *)
Lemma compaction_keeps_earliest_record_witness :
  NoDup (map row_id samples.crowded_store) /\
  NoDup (map row_key samples.crowded_store) /\
  get_earliest_record
    (fst (execute samples.clock_day_100 sqlite [] samples.crowded_store)) "EUR"
  = get_earliest_record samples.crowded_store "EUR".
Proof.
  assert (NoDup (map row_id samples.crowded_store)) as Hid.
  { apply (bool_decide_unpack _). vm_compute. reflexivity. }
  assert (NoDup (map row_key samples.crowded_store)) as Hkey.
  { apply (bool_decide_unpack _). vm_compute. reflexivity. }
  split; [exact Hid | split; [exact Hkey |]].
  exact (compaction_keeps_earliest_record samples.clock_day_100 sqlite []
           samples.crowded_store "EUR" Hid Hkey).
Defined.

Section latest.
Variable numeric : rate_value -> option decimal.

Lemma fold_first_wins c (l : store) : forall (acc : gmap string Qc),
  fold_left
    (fun rates r =>
       match rates !! currency r with
       | Some _ => rates
       | None => <[currency r := math_utils.sanitize_decimal (numeric (rate r))]> rates
       end) l acc !! c
  = match acc !! c with
    | Some v => Some v
    | None =>
        (fun r => math_utils.sanitize_decimal (numeric (rate r)))
          <$> find (fun r => String.eqb (currency r) c) l
    end.
Proof.
  induction l as [| r l IH]; intros acc; simpl.
  - by destruct (acc !! c).
  - rewrite IH. destruct (String.eqb (currency r) c) eqn:E.
    + apply String.eqb_eq in E. rewrite E.
      destruct (acc !! c) as [v |] eqn:Ea; [by rewrite Ea |].
      by rewrite lookup_insert_eq.
    + apply String.eqb_neq in E.
      destruct (acc !! currency r); [done |]. by rewrite lookup_insert_ne.
Qed.

Lemma find_sorted_first (R : relation ExchangeRateHistory) `{!Reflexive R}
    (p : ExchangeRateHistory -> bool) l r :
  StronglySorted R l -> find p l = Some r ->
  r ∈ l /\ p r = true /\ forall r', r' ∈ l -> p r' = true -> R r r'.
Proof.
  induction 1 as [| x l Hs IH Hall]; simpl; [done |].
  destruct (p x) eqn:E.
  - intros [= <-]. split; [by left |]. split; [done |].
    intros r' [-> | Hr']%elem_of_cons _; [reflexivity |].
    rewrite Forall_forall in Hall. by apply Hall.
  - intros Hf. destruct (IH Hf) as (Hin & Hp & Hleast). split; [by right |].
    split; [done |]. intros r' [-> | Hr']%elem_of_cons Hp'; [congruence | by apply Hleast].
Qed.

Lemma in_range_true currencies start end_ r :
  in_range currencies start end_ r = true <->
  currency r ∈ currencies /\ start <= timestamp r <= end_.
Proof.
  unfold in_range. rewrite !andb_true_iff, Z.leb_le, Z.leb_le, existsb_exists.
  split.
  - intros [[(x & Hx & Heq) ?] ?]. apply String.eqb_eq in Heq as <-.
    split; [by apply list_elem_of_In | lia].
  - intros [Hin ?]. split; [split |]; try lia.
    exists (currency r). split; [by apply list_elem_of_In | apply String.eqb_refl].
Qed.

(** [get_latest_rates_in_range] maps a requested currency to the sanitized
    rate of its latest row in the window, bounds included, and has no entry
    for a currency exactly when the currency was not requested or has no row
    in the window. *)
Theorem get_latest_rates_in_range_latest (db : store) (currencies : list string)
    (start end_ : datetime) (c : string) :
  match get_latest_rates_in_range numeric db currencies start end_ !! c with
  | Some v =>
      exists r, r ∈ db /\ currency r = c /\ c ∈ currencies /\
                start <= timestamp r <= end_ /\
                v = math_utils.sanitize_decimal (numeric (rate r)) /\
                forall r', r' ∈ db -> currency r' = c ->
                           start <= timestamp r' <= end_ -> timestamp r' <= timestamp r
  | None =>
      forall r, r ∈ db -> currency r = c -> c ∈ currencies ->
                ~ (start <= timestamp r <= end_)
  end.
Proof.
  unfold get_latest_rates_in_range, order_by_timestamp_desc.
  rewrite fold_first_wins, lookup_empty.
  set (rows := filter _ db).
  pose proof (StronglySorted_merge_sort ts_ge rows) as Hs.
  pose proof (merge_sort_Permutation ts_ge rows) as Hp.
  assert (forall r, r ∈ rows <-> in_range currencies start end_ r = true /\ r ∈ db) as Hrows
    by (intros r; apply elem_of_filter_bool).
  destruct (find _ (merge_sort ts_ge rows)) as [r |] eqn:E; simpl.
  - apply (find_sorted_first ts_ge) in E as (Hin & Hc & Hleast); [| done].
    apply String.eqb_eq in Hc. rewrite Hp in Hin. apply Hrows in Hin as [Hr Hin].
    apply in_range_true in Hr as [Hcs Hts].
    exists r. repeat split; try done; try lia; [congruence |].
    intros r' Hr' Hc' Hts'. apply (Hleast r').
    + rewrite Hp. apply Hrows. split; [| done]. apply in_range_true. split; [congruence | lia].
    + by apply String.eqb_eq.
  - intros r Hr Hc Hcs Hts.
    assert (r ∈ merge_sort ts_ge rows) as Hin.
    { rewrite Hp. apply Hrows. split; [| done]. apply in_range_true. split; [congruence | lia]. }
    apply list_elem_of_In in Hin. pose proof (find_none _ _ E r Hin) as Hn. simpl in Hn.
    apply String.eqb_neq in Hn. done.
Qed.
End latest.

Lemma elem_of_get_rates_series db currencies start end_ r :
  r ∈ get_rates_series db currencies start end_ <->
  r ∈ db /\ currency r ∈ currencies /\ start <= timestamp r <= end_.
Proof.
  unfold get_rates_series, order_by_timestamp_asc.
  rewrite merge_sort_Permutation, elem_of_filter_bool, in_range_true. tauto.
Qed.

(** After a batch is saved with [upsert], [get_rates_series] returns, by
    ascending timestamp, the rows of the window: every record of the batch in
    the window is there as it was given, a returned row with the key of a
    record carries that record's rate, and the rows of the store the batch
    does not address are still returned. *)
Theorem upsert_then_series (db : store) (records : list rate_record)
    (currencies : list string) (start end_ : datetime) :
  records <> [] ->
  NoDup (map rec_key records) ->
  Forall (fun rec => rec_rate rec <> RNone) records ->
  let series :=
    get_rates_series (fst (save_history_batch db records true)) currencies start end_ in
  StronglySorted ts_le series /\
  (forall rec, rec ∈ records -> rec_currency rec ∈ currencies ->
     start <= rec_timestamp rec <= end_ ->
     exists row, row ∈ series /\ stored_as row rec) /\
  (forall row, row ∈ series ->
     (exists rec, rec ∈ records /\ rec_key rec = row_key row) ->
     exists rec, rec ∈ records /\ stored_as row rec) /\
  (forall row, row ∈ db -> currency row ∈ currencies -> start <= timestamp row <= end_ ->
     ~ (exists rec, rec ∈ records /\ rec_key rec = row_key row) ->
     row ∈ series).
Proof.
  intros Hne Hnd Hrates series. subst series.
  destruct (save_history_batch_upsert db records Hne Hnd Hrates) as (new & -> & Hnew).
  cbn [fst]. split; [apply StronglySorted_merge_sort; apply _ |].
  split; [| split].
  - intros rec Hin Hc Hts. apply list_elem_of_lookup in Hin as [i Hi].
    destruct (Forall2_lookup_r _ _ _ _ _ Hnew Hi) as (row & Hrow & Hst).
    exists row. split; [| done]. apply elem_of_get_rates_series.
    destruct Hst as (Hc' & _ & Ht'). rewrite Hc', Ht'. split; [| done].
    apply elem_of_app. right. apply list_elem_of_lookup. by exists i.
  - intros row Hrow (rec & Hrec & Hk).
    apply elem_of_get_rates_series in Hrow as [[Hold | Hin]%elem_of_app _].
    + apply elem_of_delete_colliding in Hold as [_ Hnc]. destruct Hnc.
      injection Hk as <- <-. by apply batch_ranges_covers.
    + apply list_elem_of_lookup in Hin as [i Hi].
      destruct (Forall2_lookup_l _ _ _ _ _ Hnew Hi) as (rec' & Hrec' & Hst).
      exists rec'. split; [| done]. apply list_elem_of_lookup. by exists i.
  - intros row Hin Hc Hts Hnk. apply elem_of_get_rates_series. split; [| done].
    apply elem_of_app. left. apply elem_of_delete_colliding. split; [done |].
    intros Hcov. apply Hnk. by apply batch_ranges_covers_inv.
Qed.

(** The cached EUR rate of day 99, overwritten by the fetched one and read
    back over days 99 to 100. *)
Lemma upsert_then_series_witness :
  let records := [ mkRecord "EUR" (RFloat 1.25) (midnight 99) ] in
  records <> [] /\
  NoDup (map rec_key records) /\
  Forall (fun rec => rec_rate rec <> RNone) records /\
  let series :=
    get_rates_series (fst (save_history_batch samples.cached_store records true))
      ["EUR"%string] (midnight 99) (midnight 100) in
  StronglySorted ts_le series /\
  (forall rec, rec ∈ records -> rec_currency rec ∈ ["EUR"%string] ->
     midnight 99 <= rec_timestamp rec <= midnight 100 ->
     exists row, row ∈ series /\ stored_as row rec) /\
  (forall row, row ∈ series ->
     (exists rec, rec ∈ records /\ rec_key rec = row_key row) ->
     exists rec, rec ∈ records /\ stored_as row rec) /\
  (forall row, row ∈ samples.cached_store -> currency row ∈ ["EUR"%string] ->
     midnight 99 <= timestamp row <= midnight 100 ->
     ~ (exists rec, rec ∈ records /\ rec_key rec = row_key row) ->
     row ∈ series).
Proof.
  intros records.
  assert (records <> []) as Hne by discriminate.
  assert (NoDup (map rec_key records)) as Hnd.
  { apply (bool_decide_unpack _). vm_compute. reflexivity. }
  assert (Forall (fun rec => rec_rate rec <> RNone) records) as Hrates.
  { repeat constructor. discriminate. }
  split; [exact Hne | split; [exact Hnd | split; [exact Hrates |]]].
  exact (upsert_then_series samples.cached_store records ["EUR"%string]
           (midnight 99) (midnight 100) Hne Hnd Hrates).
Defined.
End store_reads.

(** ** Fresh current rates *)

Section fresh_rates.
Import MarketDataService vocabulary.

Lemma resolve_ticker_nonempty c t :
  MarketDataConfig.resolve_ticker c = Some t -> String.eqb t "" = false.
Proof.
  unfold MarketDataConfig.resolve_ticker.
  destruct (String.eqb c "") eqn:Ec; [done |]. cbn [orb].
  assert (forall s, String.eqb (c ++ s) "" = false) as Happ.
  { intros s. destruct c; [done | reflexivity]. }
  repeat (match goal with |- context [if ?b then _ else _] => destruct b end);
    intros [= <-]; done.
Qed.

Lemma dict_get_set {V} k (v : V) d k' :
  dict_get k' (dict_set k v d) = if String.eqb k k' then Some v else dict_get k' d.
Proof.
  unfold dict_get. induction d as [| [k0 v0] d IH]; simpl.
  - rewrite String.eqb_sym. by destruct (String.eqb k' k).
  - destruct (String.eqb k0 k) eqn:E; simpl.
    + apply String.eqb_eq in E as ->. by destruct (String.eqb k k').
    + destruct (String.eqb k0 k') eqn:E'; [| exact IH].
      apply String.eqb_eq in E' as ->. by rewrite String.eqb_sym, E.
Qed.

Lemma dict_get_build_ticker_map currencies c :
  dict_get c (build_ticker_map currencies)
  = if decide (c ∈ currencies) then MarketDataConfig.resolve_ticker c else None.
Proof.
  unfold build_ticker_map.
  assert (forall cs (acc : list (string * string)),
            dict_get c (fold_left
              (fun m c0 =>
                 match MarketDataConfig.resolve_ticker c0 with
                 | Some ticker => if String.eqb ticker "" then m else dict_set c0 ticker m
                 | None => m
                 end) cs acc)
            = if decide (c ∈ cs)
              then match MarketDataConfig.resolve_ticker c with
                   | Some t => Some t
                   | None => dict_get c acc
                   end
              else dict_get c acc) as Hfold.
  { induction cs as [| c0 cs IH]; intros acc; cbn [fold_left].
    - destruct (decide (c ∈ [])) as [[]%elem_of_nil |]; done.
    - rewrite IH. destruct (decide (c ∈ cs)) as [Hin | Hnin].
      + rewrite decide_True by (by right).
        destruct (MarketDataConfig.resolve_ticker c) as [t |] eqn:Ec; [done |].
        destruct (MarketDataConfig.resolve_ticker c0) as [t0 |] eqn:Ec0; [| done].
        rewrite (resolve_ticker_nonempty _ _ Ec0). rewrite dict_get_set.
        destruct (String.eqb c0 c) eqn:E; [| done].
        apply String.eqb_eq in E as ->. congruence.
      + destruct (decide (c = c0)) as [-> | Hne].
        * rewrite decide_True by (by left).
          destruct (MarketDataConfig.resolve_ticker c0) as [t0 |] eqn:Ec0; [| done].
          rewrite (resolve_ticker_nonempty _ _ Ec0). rewrite dict_get_set.
          by rewrite String.eqb_refl.
        * rewrite decide_False by (intros [? | ?]%elem_of_cons; done).
          destruct (MarketDataConfig.resolve_ticker c0) as [t0 |] eqn:Ec0; [| done].
          rewrite (resolve_ticker_nonempty _ _ Ec0). rewrite dict_get_set.
          destruct (String.eqb c0 c) eqn:E; [| done].
          apply String.eqb_eq in E. congruence. }
  rewrite Hfold. destruct (decide (c ∈ currencies)); [| done].
  by destruct (MarketDataConfig.resolve_ticker c).
Qed.

Lemma merge_fresh_lookup tm nrm currencies c : forall (rates : gmap string Qc) pd,
  c ∈ currencies ->
  fst (merge_fresh tm nrm currencies rates pd) !! c
  = Some match dict_get c tm with
         | Some ticker =>
             match nrm !! ticker with
             | Some rate => rate
             | None => MarketDataConfig.fallback_get c 0%Qc
             end
         | None => MarketDataConfig.fallback_get c 0%Qc
         end.
Proof.
  induction currencies as [| c0 cs IH]; intros rates pd Hin; [by apply elem_of_nil in Hin |].
  destruct (decide (c ∈ cs)) as [Hcs | Hncs].
  - simpl. destruct (dict_get c0 tm) as [t0 |]; [destruct (nrm !! t0) |]; by apply IH.
  - assert (c = c0) as <- by (apply elem_of_cons in Hin as [? | ?]; done).
    simpl. destruct (dict_get c tm) as [t |].
    + destruct (nrm !! t) as [rate |].
      * destruct (merge_fresh_spec tm nrm cs (<[c := rate]> rates) (dict_set c rate pd))
          as [H1 _].
        rewrite H1 by done. apply lookup_insert_eq.
      * destruct (merge_fresh_spec tm nrm cs
                    (<[c := MarketDataConfig.fallback_get c 0%Qc]> rates) pd) as [H1 _].
        rewrite H1 by done. apply lookup_insert_eq.
    + destruct (merge_fresh_spec tm nrm cs
                  (<[c := MarketDataConfig.fallback_get c 0%Qc]> rates) pd) as [H1 _].
      rewrite H1 by done. apply lookup_insert_eq.
Qed.

Lemma build_ticker_map_nil currencies :
  build_ticker_map currencies = [] <->
  forall c, c ∈ currencies -> MarketDataConfig.resolve_ticker c = None.
Proof.
  split.
  - intros H c Hc. pose proof (dict_get_build_ticker_map currencies c) as Hg.
    rewrite H, decide_True in Hg by done. done.
  - intros H. destruct (build_ticker_map currencies) as [| [k v] tm] eqn:E; [done |].
    assert ((k, v) ∈ build_ticker_map currencies) as Hin by (rewrite E; by left).
    pose proof (build_ticker_map_resolved _ _ _ Hin) as Hr.
    pose proof (dict_get_build_ticker_map currencies k) as Hg.
    rewrite E in Hg. unfold dict_get in Hg. simpl in Hg. rewrite String.eqb_refl in Hg.
    simpl in Hg. destruct (decide (k ∈ currencies)) as [Hk | Hk]; [| done].
    rewrite (H k Hk) in Hr. done.
Qed.

(** A fresh [get_rates] that reaches the provider: USD is 1, and every other
    requested currency gets the rate the provider returned for its symbol,
    its static fallback rate when the provider returned none, and 0 when it
    has neither. *)
Theorem get_rates_fresh_values (env : environment) (currencies : list string)
    (new_rates_map : gmap string Qc) :
  lock_acquired env = true ->
  (forall tickers, fetch_current_rates env tickers = Ok new_rates_map) ->
  (forall rates, save_rates env rates = Ok tt) ->
  (exists c, c ∈ currencies /\ c <> USD /\ MarketDataConfig.resolve_ticker c <> None) ->
  exists rates tr,
    get_rates env currencies fresh = (Ok rates, tr) /\
    rates !! USD = Some 1%Qc /\
    forall c, c ∈ currencies -> c <> USD ->
      rates !! c = Some (provider_or_fallback new_rates_map c).
Proof.
  intros Hlock Hfetch Hsave (c0 & Hc0 & Hne0 & Hres0).
  destruct (get_rates env currencies fresh) as [[rates | e] tr] eqn:E.
  2:{ unfold get_rates in E. cbv zeta in E. destruct (filter _ currencies); [done |].
      by destruct (_fetch_fresh_rates env _ _). }
  exists rates, tr. split; [done |].
  split; [by apply (proj1 (get_rates_usd _ _ _ _ _ E)) |].
  intros c Hc Hne. unfold get_rates in E. cbv zeta in E.
  remember (filter (fun c => negb (String.eqb c USD)) currencies) as to_fetch eqn:Eto.
  assert (forall c, c ∈ currencies -> c <> USD -> c ∈ to_fetch) as Hto.
  { intros c' Hc' Hne'. rewrite Eto. apply list_elem_of_filter. split; [| done].
    apply Is_true_true, negb_true_iff. by apply String.eqb_neq. }
  clear Eto.
  destruct to_fetch as [| f fs] eqn:Ef.
  { pose proof (Hto c0 Hc0 Hne0) as Hnil. by apply elem_of_nil in Hnil. }
  rewrite <- Ef in *. clear Ef.
  destruct (_fetch_fresh_rates env to_fetch {[USD := 1%Qc]}) as [r tr'] eqn:Er.
  injection E as <- <-.
  unfold _fetch_fresh_rates in Er. cbv zeta in Er.
  destruct (build_ticker_map to_fetch) as [| kv tm] eqn:Etm.
  { rewrite build_ticker_map_nil in Etm. destruct Hres0. apply Etm. by apply Hto. }
  rewrite <- Etm in *. rewrite Hlock, Hfetch in Er. cbn [negb] in Er.
  pose proof (merge_fresh_lookup (build_ticker_map to_fetch) new_rates_map to_fetch c
                {[USD := 1%Qc]} [] (Hto c Hc Hne)) as Hl.
  destruct (merge_fresh _ new_rates_map to_fetch _ []) as [rates' pd]. simpl in Hl.
  assert (r = rates') as ->.
  { destruct (filter _ pd); [by injection Er |]. rewrite Hsave in Er. by injection Er. }
  rewrite Hl. f_equal. unfold provider_or_fallback.
  rewrite dict_get_build_ticker_map, decide_True by (by apply Hto). done.
Qed.

(** The silent provider, asked for EUR, BTC and a symbol without a fallback
    rate. *)
Lemma get_rates_fresh_values_witness :
  exists rates tr,
    get_rates samples.offline_env ["EUR"; "BTC"; "XYZ"]%string fresh = (Ok rates, tr) /\
    rates !! USD = Some 1%Qc /\
    forall c, c ∈ ["EUR"; "BTC"; "XYZ"]%string -> c <> USD ->
      rates !! c = Some (provider_or_fallback ∅ c).
Proof.
  apply (get_rates_fresh_values samples.offline_env ["EUR"; "BTC"; "XYZ"]%string ∅).
  - reflexivity.
  - intros tickers. reflexivity.
  - intros rates. reflexivity.
  - exists "EUR"%string. split; [by left |]. split; discriminate.
Defined.

(** When no requested currency other than USD resolves to a provider symbol,
    a fresh [get_rates] returns the map with USD alone, without a call to
    the provider or the store. *)
Theorem get_rates_fresh_unresolved (env : environment) (currencies : list string) :
  (forall c, c ∈ currencies -> c <> USD -> MarketDataConfig.resolve_ticker c = None) ->
  get_rates env currencies fresh = (Ok {[ USD := 1%Qc ]}, []).
Proof.
  intros H. unfold get_rates. cbv zeta.
  remember (filter (fun c => negb (String.eqb c USD)) currencies) as to_fetch eqn:Eto.
  assert (build_ticker_map to_fetch = []) as Hnil.
  { apply build_ticker_map_nil. intros c Hin. rewrite Eto in Hin.
    apply list_elem_of_filter in Hin as [Hc Hin].
    apply H; [done |]. apply Is_true_true, negb_true_iff in Hc. by apply String.eqb_neq. }
  clear Eto. destruct to_fetch as [| f fs] eqn:Ef; [done |]. rewrite <- Ef in *. clear Ef.
  unfold _fetch_fresh_rates. cbv zeta. by rewrite Hnil.
Qed.

(** Three symbols [resolve_ticker] turns down. *)
Lemma get_rates_fresh_unresolved_witness :
  (forall c, c ∈ ["UNKNOWN"; "USD"; "-"]%string -> c <> USD ->
     MarketDataConfig.resolve_ticker c = None) /\
  get_rates samples.offline_env ["UNKNOWN"; "USD"; "-"]%string fresh
  = (Ok {[ USD := 1%Qc ]}, []).
Proof.
  assert (forall c, c ∈ ["UNKNOWN"; "USD"; "-"]%string -> c <> USD ->
            MarketDataConfig.resolve_ticker c = None) as H.
  { intros c Hc Hne.
    repeat (apply elem_of_cons in Hc as [-> | Hc]; [done |]).
    by apply elem_of_nil in Hc. }
  split; [exact H |].
  exact (get_rates_fresh_unresolved samples.offline_env ["UNKNOWN"; "USD"; "-"]%string H).
Defined.
End fresh_rates.

(** ** Historical rates without the provider *)

Section offline_fill.
Import MarketDataService vocabulary.

Lemma cache_get_set d c d' c' v cache :
  cache_get d c (cache_set d' c' v cache)
  = if decide (d = d' /\ c = c') then Some v else cache_get d c cache.
Proof.
  unfold cache_get, cache_set.
  destruct (decide (d = d')) as [-> | Hd].
  - rewrite lookup_insert_eq. simpl.
    destruct (decide (c = c')) as [-> | Hc].
    + rewrite lookup_insert_eq. by rewrite decide_True.
    + rewrite lookup_insert_ne by done. rewrite decide_False by tauto. done.
  - rewrite lookup_insert_ne by done. rewrite decide_False by tauto. done.
Qed.

Lemma last_cons_filter {A} (P : A -> bool) (x : A) (l : list A) :
  last (filter (fun y => P y) (x :: l))
  = match last (filter (fun y => P y) l) with
    | Some y => Some y
    | None => if P x then Some x else None
    end.
Proof.
  rewrite (filter_cons_bool P). destruct (P x) eqn:E.
  - destruct (filter _ l) as [| y l'] eqn:El; [done |].
    rewrite last_cons. by destruct (last (y :: l')).
  - by destruct (last _).
Qed.

Lemma cache_of_records_get records d c :
  cache_get d c (cache_of_records records) = stored_on records d c.
Proof.
  unfold cache_of_records, stored_on.
  assert (forall recs cache,
    cache_get d c (fold_left
      (fun cache r => cache_set (date_of (sr_timestamp r)) (sr_currency r)
                        (math_utils.sanitize_decimal (sr_rate r)) cache) recs cache)
    = match last (filter (fun r => (date_of (sr_timestamp r) =? d) && String.eqb (sr_currency r) c)
                         recs) with
      | Some r => Some (math_utils.sanitize_decimal (sr_rate r))
      | None => cache_get d c cache
      end) as Hfold.
  { induction recs as [| r recs IH]; intros cache; [done |].
    cbn [fold_left]. rewrite IH.
    rewrite (last_cons_filter
               (fun r => (date_of (sr_timestamp r) =? d) && String.eqb (sr_currency r) c)).
    destruct (last (filter _ recs)); [done |].
    rewrite cache_get_set.
    destruct (decide (d = date_of (sr_timestamp r) /\ c = sr_currency r)) as [[-> ->] | Hn].
    - by rewrite Z.eqb_refl, String.eqb_refl.
    - destruct (date_of (sr_timestamp r) =? d) eqn:E1; [| done].
      destruct (String.eqb (sr_currency r) c) eqn:E2; [| done].
      apply Z.eqb_eq in E1. apply String.eqb_eq in E2. destruct Hn. by split. }
  rewrite Hfold. destruct (last _); [done |].
  unfold cache_get. by rewrite lookup_empty.
Qed.

Lemma rates_for_date_lookup db_cache d currencies c :
  c ∈ currencies -> c <> USD ->
  rates_for_date db_cache d currencies !! c
  = Some (value_or_zero match cache_get d c db_cache with
                        | Some v => Some v
                        | None => look_back db_cache d c 1 7
                        end).
Proof.
  intros Hin Hne. unfold rates_for_date.
  set (step := fun (m : gmap string Qc) c0 =>
                 if String.eqb c0 USD then m
                 else <[c0 := value_or_zero match cache_get d c0 db_cache with
                                            | Some v => Some v
                                            | None => look_back db_cache d c0 1 7
                                            end]> m).
  set (val := value_or_zero _).
  assert (forall cs (acc : gmap string Qc),
            fold_left step cs acc !! c = if decide (c ∈ cs) then Some val else acc !! c) as Hfold.
  { induction cs as [| c0 cs IH]; intros acc; cbn [fold_left].
    - destruct (decide (c ∈ [])) as [[]%elem_of_nil |]; done.
    - rewrite IH. destruct (decide (c ∈ cs)) as [Hcs | Hncs].
      + by rewrite decide_True by (by right).
      + unfold step at 1. destruct (decide (c = c0)) as [<- | Hc0].
        * rewrite decide_True by (by left).
          assert (String.eqb c USD = false) as -> by (by apply String.eqb_neq).
          apply lookup_insert_eq.
        * rewrite decide_False by (intros [? | ?]%elem_of_cons; done).
          destruct (String.eqb c0 USD); [done |]. by apply lookup_insert_ne. }
  fold step. rewrite Hfold. by rewrite decide_True.
Qed.

Lemma look_back_spec db_cache d c n : forall i,
  match look_back db_cache d c i n with
  | Some v =>
      exists k, i <= k < i + Z.of_nat n /\ cache_get (d - k) c db_cache = Some v /\
                forall j, i <= j < k -> cache_get (d - j) c db_cache = None
  | None => forall k, i <= k < i + Z.of_nat n -> cache_get (d - k) c db_cache = None
  end.
Proof.
  induction n as [| n IH]; intros i; cbn [look_back].
  - intros k Hk. lia.
  - destruct (cache_get (d - i) c db_cache) as [v |] eqn:E.
    + exists i. split; [lia |]. split; [done |]. intros j Hj. lia.
    + specialize (IH (i + 1)). destruct (look_back db_cache d c (i + 1) n) as [v |].
      * destruct IH as (k & Hk & Hv & Hnone). exists k. split; [lia |]. split; [done |].
        intros j Hj. destruct (decide (j = i)) as [-> | Hne]; [done |]. apply Hnone. lia.
      * intros k Hk. destruct (decide (k = i)) as [-> | Hne]; [done |]. apply IH. lia.
Qed.

(** When the provider returns nothing, [get_historical_rates_range] fills
    each requested date from the store: a currency gets its rate of the
    nearest day that has one among the date and the seven days before it,
    and 0 when none of those eight days has one. *)
Theorem historical_range_offline_fill (env : environment) (dates : list Z)
    (currencies : list string) (d : Z) (c : string) :
  (forall tickers s e, fetch_historical_rates env tickers s e = []) ->
  d ∈ dates -> c ∈ currencies -> c <> USD ->
  let records :=
    get_rates_series env currencies (midnight (list_min dates - 7))
                     (end_of_day (list_max dates)) in
  exists res tr m,
    get_historical_rates_range env dates currencies = (Ok res, tr) /\
    res !! d = Some m /\
    ((exists k v, 0 <= k <= 7 /\ stored_on records (d - k) c = Some v /\
                  (forall j, 0 <= j < k -> stored_on records (d - j) c = None) /\
                  m !! c = Some v) \/
     ((forall k, 0 <= k <= 7 -> stored_on records (d - k) c = None) /\
      m !! c = Some 0%Qc)).
Proof.
  intros Hoff Hd Hc Hne records.
  assert (exists tr, get_historical_rates_range env dates currencies
                     = (Ok (finalize (cache_of_records records) dates currencies), tr))
    as [tr E].
  { unfold get_historical_rates_range.
    destruct dates as [| d0 ds]; [by apply elem_of_nil in Hd |].
    destruct currencies as [| c0 cs]; [by apply elem_of_nil in Hc |].
    cbv zeta. fold records. destruct (missing_any _ _ _); [| by eexists].
    destruct (unique_tickers _); [by eexists |]. rewrite Hoff. cbn [merge_frame].
    by eexists. }
  exists (finalize (cache_of_records records) dates currencies), tr,
         (rates_for_date (cache_of_records records) d currencies).
  split; [exact E |]. split; [by rewrite finalize_lookup, decide_True |].
  rewrite rates_for_date_lookup by done.
  destruct (cache_get d c (cache_of_records records)) as [v |] eqn:E0.
  - left. exists 0, v. rewrite Z.sub_0_r, <- cache_of_records_get.
    split; [lia |]. split; [done |]. split; [intros j Hj; lia | done].
  - pose proof (look_back_spec (cache_of_records records) d c 7 1) as Hlb.
    destruct (look_back (cache_of_records records) d c 1 7) as [v |].
    + destruct Hlb as (k & Hk & Hv & Hnone). left. exists k, v.
      rewrite <- cache_of_records_get. split; [lia |]. split; [done |]. split; [| done].
      intros j Hj. rewrite <- cache_of_records_get.
      destruct (decide (j = 0)) as [-> | Hj0]; [by rewrite Z.sub_0_r | apply Hnone; lia].
    + right. split; [| done]. intros k Hk. rewrite <- cache_of_records_get.
      destruct (decide (k = 0)) as [-> | Hk0]; [by rewrite Z.sub_0_r | apply Hlb; lia].
Qed.

(** EUR on day 5, with an empty store behind the silent provider. *)
Lemma historical_range_offline_fill_witness :
  let records :=
    get_rates_series samples.offline_env ["EUR"%string] (midnight (list_min [5] - 7))
      (end_of_day (list_max [5])) in
  exists res tr m,
    get_historical_rates_range samples.offline_env [5] ["EUR"%string] = (Ok res, tr) /\
    res !! 5 = Some m /\
    ((exists k v, 0 <= k <= 7 /\ stored_on records (5 - k) "EUR" = Some v /\
                  (forall j, 0 <= j < k -> stored_on records (5 - j) "EUR" = None) /\
                  m !! "EUR"%string = Some v) \/
     ((forall k, 0 <= k <= 7 -> stored_on records (5 - k) "EUR" = None) /\
      m !! "EUR"%string = Some 0%Qc)).
Proof.
  apply (historical_range_offline_fill samples.offline_env [5] ["EUR"%string] 5 "EUR").
  - intros tickers s e. reflexivity.
  - by left.
  - by left.
  - discriminate.
Defined.

(** A returned [get_historical_rates] map rates USD at 1 and has an entry for
    every requested currency, and the provider was never asked for USD. *)
Theorem get_historical_rates_complete (env : environment) (target_date : Z)
    (currencies : list string) (rates : gmap string Qc) (tr : list event) :
  get_historical_rates env target_date currencies = (Ok rates, tr) ->
  rates !! USD = Some 1%Qc /\
  (forall c, c ∈ currencies -> is_Some (rates !! c)) /\
  Forall (fun e => match e with
                   | ProviderHistorical tickers _ _ => USD ∉ tickers
                   | _ => True
                   end) tr.
Proof.
  unfold get_historical_rates.
  destruct (get_historical_rates_range env [target_date] currencies) as [[res | e] tr0] eqn:E;
    [| done].
  simpl. intros [= <- <-].
  apply historical_range_result in E
    as [(Hempty & -> & ->) | (Hne & (cache & ->) & Htr)].
  - destruct Hempty as [? | ->]; [done |]. rewrite lookup_empty. simpl.
    split; [apply lookup_singleton_eq |]. split; [| constructor].
    intros c []%elem_of_nil.
  - rewrite finalize_lookup, decide_True by (by left). simpl.
    split; [apply rates_for_date_usd |]. split.
    + intros c Hc. destruct (decide (c = USD)) as [-> | Hn].
      * rewrite rates_for_date_usd. by eexists.
      * rewrite rates_for_date_lookup by done. by eexists.
    + eapply Forall_impl; [exact Htr |]. intros [] H; try done.
      intros Hin. destruct (H Hin) as (? & ? & ? & ?). done.
Qed.

(** The same lookup through [get_historical_rates]. *)
Lemma get_historical_rates_complete_witness :
  exists rates tr,
    get_historical_rates samples.offline_env 5 ["EUR"%string] = (Ok rates, tr) /\
    rates !! USD = Some 1%Qc /\
    (forall c, c ∈ ["EUR"%string] -> is_Some (rates !! c)) /\
    Forall (fun e => match e with
                     | ProviderHistorical tickers _ _ => USD ∉ tickers
                     | _ => True
                     end) tr.
Proof.
  eexists _, _. split; [vm_compute; reflexivity |].
  apply (get_historical_rates_complete samples.offline_env 5 ["EUR"%string]).
  vm_compute. reflexivity.
Defined.
End offline_fill.

(** ** Transaction types in the reconstruction *)

Section enum_ledger.
Import models PortfolioService vocabulary.

Lemma signed_change_enum tx k :
  (exists t, tx_type tx = TransactionType_value t) -> signed_change tx k = 0%Qc.
Proof.
  intros [t Ht]. unfold signed_change. rewrite Ht.
  destruct (decide _); [| done]. by destruct t.
Qed.

Lemma net_change_enum txs k :
  (forall tx, tx ∈ txs -> exists t, tx_type tx = TransactionType_value t) ->
  net_change txs k = 0%Qc.
Proof.
  induction txs as [| tx txs IH]; intros H; [done |]. simpl.
  rewrite signed_change_enum by (apply H; by left).
  rewrite IH by (intros tx' Hin; apply H; by right). ring.
Qed.

#[local] Existing Instance tx_date_ge_trans.
#[local] Existing Instance tx_date_ge_total.
#[local] Existing Instance date_ge_trans.
#[local] Existing Instance date_ge_total.

(** The reconstruction of quantities tests the transaction type against
    [BUY] and [SELL] in capitals, while [TransactionType] spells its values
    [Buy], [Sell], ...: on a ledger whose types are values of the
    enumeration, every date gets the current quantities, from scratch and in
    the sweep alike, on either database. *)
Theorem enum_typed_ledger_is_never_replayed (dia : dialect) (ledger : list Transaction)
    (assets : list Asset) :
  enum_typed ledger ->
  (forall target_date,
     _calculate_historical_quantities dia ledger assets target_date
     = current_quantities assets) /\
  (forall start_date dates d, d ∈ dates ->
     batch_quantities dia ledger assets start_date dates !! d
     = Some (current_quantities assets)).
Proof.
  intros Htyped.
  assert (forall txs (m : gmap Z Qc),
            (forall tx, tx ∈ txs -> tx ∈ ledger) ->
            fold_left (fun qty tx => revert tx qty) txs m = m) as Hid.
  { intros txs m Hsub. apply map_eq. intros k. rewrite replay_lookup.
    rewrite net_change_enum by (intros tx Hin; apply Htyped; by apply Hsub).
    apply fmap_minus_zero. }
  split.
  - intros target_date. rewrite historical_quantities_fold. apply Hid.
    intros tx Hin. unfold transactions_after in Hin.
    by apply list_elem_of_filter in Hin as [_ ?].
  - intros start_date dates d Hd. unfold batch_quantities. cbv zeta.
    rewrite sweep_lookup.
    + f_equal. apply Hid. intros tx Hin.
      apply list_elem_of_filter in Hin as [_ Hin].
      unfold order_by_date_desc in Hin. rewrite merge_sort_Permutation in Hin.
      unfold transactions_after in Hin. by apply list_elem_of_filter in Hin as [_ ?].
    + apply StronglySorted_merge_sort; apply _.
    + apply StronglySorted_merge_sort; apply _.
    + unfold sorted_reverse. by rewrite merge_sort_Permutation.
Qed.

(** A ledger with one purchase of 4 units, typed [Buy]. *)
Lemma enum_typed_ledger_is_never_replayed_witness :
  enum_typed [samples.stored_buy] /\
  (forall target_date,
     _calculate_historical_quantities sqlite [samples.stored_buy] samples.one_asset
       target_date
     = current_quantities samples.one_asset) /\
  (forall start_date dates d, d ∈ dates ->
     batch_quantities sqlite [samples.stored_buy] samples.one_asset start_date dates !! d
     = Some (current_quantities samples.one_asset)).
Proof.
  assert (enum_typed [samples.stored_buy]) as H.
  { intros tx Htx. apply list_elem_of_singleton in Htx as ->. by exists BUY. }
  split; [exact H |].
  exact (enum_typed_ledger_is_never_replayed sqlite [samples.stored_buy]
           samples.one_asset H).
Defined.
End enum_ledger.

(** ** Transaction validation *)

Section validation.
Import datetime_utils TransactionValidator transactions_endpoint vocabulary.

Lemma validate_transaction_raises (clock : Z) (transaction : TransactionCreate)
    (current_quantity : option decimal) :
  validate_transaction clock transaction current_quantity
  = if decimal_is_finite (price_per_unit transaction)
       && decimal_is_finite (quantity_change transaction)
    then Raise TypeError else Raise ValueError.
Proof.
  unfold validate_transaction.
  destruct (price_per_unit transaction); simpl; [| done | done].
  destruct (quantity_change transaction); simpl; [| done | done].
  by destruct (txn_date transaction) as [r [|]].
Qed.

(** [validate_transaction] never returns: a price or a quantity that is NaN or
    infinite raises ValueError, and otherwise the date, made offset-aware, is
    compared with the offset-naive [utc_now()], which raises TypeError. *)
Theorem validate_transaction_never_passes (clock : Z) (transaction : TransactionCreate)
    (current_quantity : option decimal) :
  validate_transaction clock transaction current_quantity
  = if decimal_is_finite (price_per_unit transaction)
       && decimal_is_finite (quantity_change transaction)
    then Raise TypeError else Raise ValueError.
Proof. apply validate_transaction_raises. Qed.

(** The POST handler never reaches [crud.create_transaction]: it answers 404
    when the asset is not found, 400 when the price or the quantity is not
    finite, and 500 otherwise. *)
Theorem create_transaction_never_creates {A : Type} (clock : Z)
    (asset : option models.Asset) (transaction : TransactionCreate)
    (crud_create_transaction : unit -> result A) :
  create_transaction clock asset transaction crud_create_transaction
  = match asset with
    | None => HTTPException 404
    | Some _ =>
        if decimal_is_finite (price_per_unit transaction)
           && decimal_is_finite (quantity_change transaction)
        then HTTPException 500 else HTTPException 400
    end.
Proof.
  unfold create_transaction. destruct asset as [a |]; [| done].
  rewrite validate_transaction_raises.
  by destruct (decimal_is_finite _ && decimal_is_finite _).
Qed.
End validation.

(** ** The value of a portfolio: [calculate_portfolio_value] *)

Section portfolio_value.
Import models ValuationService vocabulary.

Section valued.
Variable quantities : gmap Z Qc.
Variable rates : gmap string (option Qc).
Variable manual_prices : gmap Z (Qc * option string).
Variable main_currency : string.

Lemma get_price_unit_price a :
  get_price a rates manual_prices main_currency
  = Ok (unit_price_of rates manual_prices main_currency a).
Proof. apply get_price_unfold. Qed.

Lemma value_assets_spec assets : forall total vals0,
  NoDup (map asset_id assets) ->
  exists vals,
    value_assets assets quantities rates manual_prices main_currency total vals0
    = Ok ((total
           + foldr (fun a acc =>
                      asset_value quantities rates manual_prices main_currency a + acc)
                   0 assets)%Qc, vals) /\
    (forall a, a ∈ assets ->
       vals !! asset_id a
       = Some (asset_value quantities rates manual_prices main_currency a)) /\
    (forall k, k ∉ map asset_id assets -> vals !! k = vals0 !! k).
Proof.
  set (av := asset_value quantities rates manual_prices main_currency).
  induction assets as [| a assets IH]; intros total vals0 Hnd.
  - exists vals0. simpl. split; [do 2 f_equal; ring |]. split; [| done].
    intros a []%elem_of_nil.
  - simpl in Hnd. apply NoDup_cons in Hnd as [Ha Hnd]. cbn [value_assets]. cbv zeta.
    assert (forall v total',
              (total' = total + av a)%Qc -> v = av a ->
              exists vals,
                value_assets assets quantities rates manual_prices main_currency total'
                  (<[asset_id a := v]> vals0)
                = Ok ((total + foldr (fun a acc => av a + acc) 0 (a :: assets))%Qc, vals) /\
                (forall a0, a0 ∈ a :: assets -> vals !! asset_id a0 = Some (av a0)) /\
                (forall k, k ∉ map asset_id (a :: assets) -> vals !! k = vals0 !! k)) as Hstep.
    { intros v total' -> ->.
      destruct (IH (total + av a)%Qc (<[asset_id a := av a]> vals0) Hnd)
        as (vals & E & Hin & Hout).
      exists vals. split; [rewrite E; simpl; do 2 f_equal; ring |]. split.
      - intros a0 [-> | Ha0]%elem_of_cons; [| by apply Hin].
        rewrite Hout by done. apply lookup_insert_eq.
      - intros k Hk. simpl in Hk. apply not_elem_of_cons in Hk as [Hk1 Hk2].
        rewrite Hout by done. by apply lookup_insert_ne. }
    destruct (dec_is_zero (default 0%Qc (quantities !! asset_id a))) eqn:Ez.
    + apply Hstep.
      * apply dec_is_zero_true in Ez. subst av. unfold asset_value. rewrite Ez. ring.
      * apply dec_is_zero_true in Ez. subst av. unfold asset_value. rewrite Ez. ring.
    + rewrite get_price_unit_price. simpl. apply Hstep; reflexivity.
Qed.

(** [calculate_portfolio_value] on assets with distinct ids returns: each
    asset is valued at its quantity (0 when the map has none) times its
    [get_price], no other id gets a value, and the total is the sum of the
    values of the assets. *)
Theorem calculate_portfolio_value_total (assets : list Asset) :
  NoDup (map asset_id assets) ->
  exists total_value asset_values,
    calculate_portfolio_value assets quantities rates manual_prices main_currency
    = Ok (total_value, asset_values) /\
    (forall a, a ∈ assets ->
       exists unit_price,
         get_price a rates manual_prices main_currency = Ok unit_price /\
         asset_values !! asset_id a
         = Some (default 0%Qc (quantities !! asset_id a) * unit_price)%Qc) /\
    (forall k, k ∉ map asset_id assets -> asset_values !! k = None) /\
    total_value
    = foldr (fun a acc => (default 0%Qc (asset_values !! asset_id a) + acc)%Qc) 0%Qc assets.
Proof.
  intros Hnd. unfold calculate_portfolio_value.
  destruct (value_assets_spec assets 0%Qc ∅ Hnd) as (vals & E & Hin & Hout).
  eexists _, vals. split; [exact E |]. split; [| split].
  - intros a Ha. eexists. split; [apply get_price_unit_price |]. by apply Hin.
  - intros k Hk. by rewrite Hout.
  - rewrite Qcplus_0_l. clear E Hout Hnd.
    induction assets as [| a assets' IH]; [done |]. simpl.
    rewrite (Hin a) by (by left). simpl. f_equal.
    apply IH. intros a0 Ha0. apply Hin. by right.
Qed.

End valued.

(** Two units of the asset bought at 10 USD, valued in EUR. *)
Lemma calculate_portfolio_value_total_witness :
  let quantities : gmap Z Qc := {[ 1 := Q2Qc 2 ]} in
  NoDup (map asset_id [samples.usd_asset]) /\
  exists total_value asset_values,
    calculate_portfolio_value [samples.usd_asset] quantities samples.eur_rates ∅ "EUR"
    = Ok (total_value, asset_values) /\
    (forall a, a ∈ [samples.usd_asset] ->
       exists unit_price,
         get_price a samples.eur_rates ∅ "EUR" = Ok unit_price /\
         asset_values !! asset_id a
         = Some (default 0%Qc (quantities !! asset_id a) * unit_price)%Qc) /\
    (forall k, k ∉ map asset_id [samples.usd_asset] -> asset_values !! k = None) /\
    total_value
    = foldr (fun a acc => (default 0%Qc (asset_values !! asset_id a) + acc)%Qc) 0%Qc
        [samples.usd_asset].
Proof.
  intros quantities.
  assert (NoDup (map asset_id [samples.usd_asset])) as H.
  { apply (bool_decide_unpack _). vm_compute. reflexivity. }
  split; [exact H |].
  exact (calculate_portfolio_value_total quantities samples.eur_rates ∅ "EUR"
           [samples.usd_asset] H).
Defined.

End portfolio_value.

(** ** Grouping the summary: [get_allocation] *)

Section allocation_facts.
Import PortfolioService.

Variable round2 : float -> float.

Lemma groups_add_keys k val groups :
  map fst (groups_add k val groups)
  = if decide (k ∈ map fst groups) then map fst groups else map fst groups ++ [k].
Proof.
  induction groups as [| [k' v] groups IH]; cbn [groups_add map fst].
  - destruct (decide (k ∈ [])) as [[]%elem_of_nil |]; done.
  - destruct (String.eqb k' k) eqn:E; cbn [map fst].
    + apply String.eqb_eq in E as ->. by rewrite decide_True by (by left).
    + apply String.eqb_neq in E. rewrite IH.
      destruct (decide (k ∈ map fst groups)) as [Hin | Hnin].
      * by rewrite decide_True by (by right).
      * rewrite decide_False; [done |]. intros [? | ?]%elem_of_cons; done.
Qed.

Lemma groups_add_NoDup k val groups :
  NoDup (map fst groups) -> NoDup (map fst (groups_add k val groups)).
Proof.
  intros H. rewrite groups_add_keys. destruct (decide _); [done |].
  apply NoDup_app. split; [done |]. split; [| apply NoDup_singleton].
  intros x Hx ->%list_elem_of_singleton. done.
Qed.

Lemma groups_add_single k val val' :
  groups_add k val [(k, val')] = [(k, (val' + val)%float)].
Proof. simpl. by rewrite String.eqb_refl. Qed.

Lemma item_get_type a : item_get "type" a = None.
Proof. reflexivity. Qed.

(** [get_allocation] groups by the key [type], which the asset dictionaries
    of the summary do not have: [by_asset_type] is a single slice named
    Other that holds the whole value, or empty when there is no asset. *)
Theorem allocation_by_asset_type_is_other (assets : list summary_item) (total_val : float) :
  by_asset_type (get_allocation round2 assets total_val)
  = match assets with
    | [] => []
    | _ => [ ("Other"%string,
              round2 (fold_left (fun acc a => (acc + item_value a)%float) assets 0%float)) ]
    end.
Proof.
  cbn [get_allocation by_asset_type]. unfold group_by. cbv zeta.
  destruct assets as [| a assets]; [done |].
  cbn [fold_left]. unfold group_key at 2. rewrite item_get_type. cbn [groups_add].
  generalize (0 + item_value a)%float as acc.
  induction assets as [| a' assets IH]; intros acc; [done |].
  cbn [fold_left]. unfold group_key at 2. rewrite item_get_type, groups_add_single.
  apply IH.
Qed.

(** [group_by] returns one slice per key: the names are distinct and are the
    keys of the assets, a missing key counting as Other. *)
Theorem group_by_one_slice_per_key (key_func : summary_item -> option string)
    (assets : list summary_item) :
  NoDup (map fst (group_by round2 key_func assets)) /\
  forall k, k ∈ map fst (group_by round2 key_func assets) <->
            exists a, a ∈ assets /\ group_key key_func a = k.
Proof.
  unfold group_by. cbv zeta. rewrite map_map. simpl.
  change (map (fun x : string * float => fst x)) with (map (@fst string float)).
  assert (forall l (acc : list (string * float)),
            NoDup (map fst acc) ->
            NoDup (map fst (fold_left
                     (fun groups a => groups_add (group_key key_func a) (item_value a) groups)
                     l acc)) /\
            forall k, k ∈ map fst (fold_left
                     (fun groups a => groups_add (group_key key_func a) (item_value a) groups)
                     l acc) <->
                      k ∈ map fst acc \/ exists a, a ∈ l /\ group_key key_func a = k) as Hfold.
  { induction l as [| a l IH]; intros acc Hnd; cbn [fold_left].
    - split; [done |]. intros k. split; [by left |].
      intros [? | (a & []%elem_of_nil & _)]; done.
    - destruct (IH (groups_add (group_key key_func a) (item_value a) acc)
                   (groups_add_NoDup _ _ _ Hnd)) as [IH1 IH2].
      split; [done |]. intros k. rewrite IH2, groups_add_keys. split.
      + intros [Hk | (a' & Ha' & Hk)].
        * destruct (decide _) in Hk; [by left |].
          apply elem_of_app in Hk as [? | ->%list_elem_of_singleton]; [by left |].
          right. exists a. split; [by left | done].
        * right. exists a'. split; [by right | done].
      + intros [Hk | (a' & [-> | Ha']%elem_of_cons & Hk)].
        * left. destruct (decide _); [done |]. apply elem_of_app. by left.
        * left. subst k. destruct (decide _); [done |]. apply elem_of_app. right. by left.
        * right. by exists a'. }
  destruct (Hfold assets [] (NoDup_nil_2)) as [H1 H2]. split; [done |].
  intros k. rewrite H2. split; [intros [[]%elem_of_nil | ?]; done | by right].
Qed.
End allocation_facts.

(** ** Manual prices in [get_history] *)

Section manual_prices_facts.
Import models math_utils PortfolioService vocabulary.

#[local] Instance ph_date_le_trans : Transitive ph_date_le.
Proof. intros a b c. unfold ph_date_le. lia. Qed.
#[local] Instance ph_date_le_total : Total ph_date_le.
Proof. intros a b. unfold ph_date_le. lia. Qed.

Lemma latest_until_sorted d mps : forall latest,
  StronglySorted ph_date_le mps ->
  latest_until d mps latest
  = match last (filter (fun mp => date_of (ph_date mp) <=? d) mps) with
    | Some mp => Some mp
    | None => latest
    end.
Proof.
  induction mps as [| mp mps IH]; intros latest Hs; [done |].
  apply StronglySorted_inv in Hs as [Hs Hall].
  cbn [latest_until]. rewrite (filter_cons_bool (fun mp => date_of (ph_date mp) <=? d)).
  destruct (date_of (ph_date mp) <=? d) eqn:E.
  - rewrite IH by done. destruct (filter _ mps) as [| x l] eqn:Ef; [reflexivity |].
    rewrite (last_cons mp). by destruct (last (x :: l)).
  - rewrite (filter_none_bool (fun mp => date_of (ph_date mp) <=? d)); [done |].
    eapply Forall_impl; [exact Hall |]. intros mp' Hle. unfold ph_date_le in Hle.
    apply Z.leb_gt. apply Z.leb_gt in E. pose proof (date_of_mono _ _ Hle). lia.
Qed.

Lemma last_sorted_greatest (l : list PriceHistory) mp :
  StronglySorted ph_date_le l -> last l = Some mp ->
  mp ∈ l /\ forall mp', mp' ∈ l -> ph_date mp' <= ph_date mp.
Proof.
  induction 1 as [| x l Hs IH Hall]; [done |].
  destruct l as [| y l'].
  - simpl. intros [= <-]. split; [by left |].
    intros mp' ->%list_elem_of_singleton. lia.
  - rewrite last_cons. destruct (last (y :: l')) as [z |] eqn:El;
      [| by apply last_None in El].
    intros [= <-]. destruct (IH eq_refl) as [Hin Hmax]. split; [by right |].
    intros mp' [-> | Hmp']%elem_of_cons; [| by apply Hmax].
    rewrite Forall_forall in Hall. by apply (Hall z).
Qed.

Lemma dt_manual_prices_lookup all_mp ids d aid :
  dt_manual_prices all_mp ids d !! aid
  = if decide (aid ∈ ids)
    then (fun latest => (sanitize_decimal (ph_price latest), ph_currency latest))
           <$> latest_until d (asset_mp_history all_mp aid) None
    else None.
Proof.
  unfold dt_manual_prices.
  set (step := fun (prices : gmap Z (Qc * option string)) aid0 =>
                 match latest_until d (asset_mp_history all_mp aid0) None with
                 | Some latest =>
                     <[aid0 := (sanitize_decimal (ph_price latest), ph_currency latest)]> prices
                 | None => prices
                 end).
  assert (forall l (acc : gmap Z (Qc * option string)),
            fold_left step l acc !! aid
            = if decide (aid ∈ l)
              then match latest_until d (asset_mp_history all_mp aid) None with
                   | Some latest => Some (sanitize_decimal (ph_price latest), ph_currency latest)
                   | None => acc !! aid
                   end
              else acc !! aid) as Hfold.
  { induction l as [| a l IH]; intros acc; cbn [fold_left].
    - destruct (decide (aid ∈ [])) as [[]%elem_of_nil |]; done.
    - rewrite IH. clear IH. subst step. cbv beta.
      destruct (decide (aid = a)) as [<- | Hne].
      + rewrite (decide_True (P := aid ∈ aid :: l)) by (by left).
        destruct (latest_until d (asset_mp_history all_mp aid) None) as [latest |].
        * destruct (decide (aid ∈ l)); [done | apply lookup_insert_eq].
        * by destruct (decide (aid ∈ l)).
      + destruct (decide (aid ∈ l)) as [Hin | Hnin].
        * rewrite decide_True by (by right).
          destruct (latest_until d (asset_mp_history all_mp aid) None); [done |].
          destruct (latest_until d (asset_mp_history all_mp a) None); [| done].
          by apply lookup_insert_ne.
        * rewrite decide_False by (intros [? | ?]%elem_of_cons; done).
          destruct (latest_until d (asset_mp_history all_mp a) None); [| done].
          by apply lookup_insert_ne. }
  fold step. rewrite Hfold. destruct (decide (aid ∈ ids)); [| done].
  by destruct (latest_until _ _ _).
Qed.

Lemma id_in_true ids i : id_in ids i = true <-> i ∈ ids.
Proof.
  unfold id_in. rewrite existsb_exists. split.
  - intros (x & Hx & Heq). apply Z.eqb_eq in Heq as ->. by apply list_elem_of_In.
  - intros H. exists i. split; [by apply list_elem_of_In | apply Z.eqb_refl].
Qed.

Lemma sql_date_le_true dia dt d :
  sql_date_le dia dt d = true <->
  match dia with
  | postgresql => dt <= midnight d
  | sqlite => date_of dt < d
  end.
Proof. destruct dia; simpl; [apply Z.leb_le | apply Z.ltb_lt]. Qed.

(** The manual price [get_history] uses for an asset at a date is the
    sanitized price of the asset's latest row dated on or before that date
    among the rows the query up to the end date returns: on PostgreSQL the
    rows not after the midnight that starts the end date, on SQLite the rows
    of the days before it.  There is none exactly when the asset has no such
    row. *)
Theorem history_manual_price_is_latest (dia : dialect)
    (price_history : list PriceHistory) (ids : list Z) (end_date d aid : Z) :
  aid ∈ ids ->
  match dt_manual_prices (manual_prices_until dia price_history ids end_date) ids d
        !! aid with
  | Some (price, currency) =>
      exists mp, mp ∈ price_history /\ price_candidate dia end_date d aid mp /\
                 price = sanitize_decimal (ph_price mp) /\ currency = ph_currency mp /\
                 forall mp', mp' ∈ price_history ->
                             price_candidate dia end_date d aid mp' ->
                             ph_date mp' <= ph_date mp
  | None => forall mp, mp ∈ price_history -> ~ price_candidate dia end_date d aid mp
  end.
Proof.
  intros Haid. rewrite dt_manual_prices_lookup, decide_True by done.
  set (all_mp := manual_prices_until dia price_history ids end_date).
  assert (StronglySorted ph_date_le all_mp) as Hsorted
    by (apply StronglySorted_merge_sort; apply _).
  assert (forall mp, mp ∈ all_mp <->
            mp ∈ price_history /\ ph_asset_id mp ∈ ids /\
            sql_date_le dia (ph_date mp) end_date = true)
    as Hall.
  { intros mp. unfold all_mp, manual_prices_until.
    rewrite merge_sort_Permutation, list_elem_of_filter, Is_true_true, andb_true_iff.
    rewrite id_in_true. tauto. }
  assert (StronglySorted ph_date_le (asset_mp_history all_mp aid)) as Hs
    by (by apply (filter_strongly_sorted ph_date_le (fun mp => ph_asset_id mp =? aid))).
  rewrite latest_until_sorted by done.
  set (cands := filter (fun mp => date_of (ph_date mp) <=? d) (asset_mp_history all_mp aid)).
  assert (forall mp, mp ∈ cands <->
            mp ∈ price_history /\ price_candidate dia end_date d aid mp)
    as Hcands.
  { intros mp. unfold cands, asset_mp_history, price_candidate.
    rewrite <- sql_date_le_true.
    rewrite !list_elem_of_filter, !Is_true_true, Z.leb_le, Z.eqb_eq, Hall.
    split; [tauto |]. intros (? & <- & ? & ?). tauto. }
  assert (StronglySorted ph_date_le cands) as Hsc
    by (by apply (filter_strongly_sorted ph_date_le (fun mp => date_of (ph_date mp) <=? d))).
  destruct (last cands) as [mp |] eqn:El; simpl.
  - destruct (last_sorted_greatest cands mp Hsc El) as [Hin Hmax].
    apply Hcands in Hin as [Hin Hc]. exists mp. repeat split; try done.
    + by destruct Hc.
    + by destruct Hc as (_ & ? & _).
    + by destruct Hc as (_ & _ & ?).
    + intros mp' Hmp' Hc'. apply Hmax. by apply Hcands.
  - intros mp Hmp Hc. apply last_None in El.
    assert (mp ∈ cands) as Hin by (by apply Hcands). rewrite El in Hin.
    by apply elem_of_nil in Hin.
Qed.

(** The price entered at noon of day 3 and the one entered at the midnight
    that starts day 5, seen from day 5 of a range that ends on day 5, on
    SQLite. *)
Lemma history_manual_price_is_latest_witness :
  let table := [samples.noon_price; samples.midnight_price] in
  1 ∈ [1] /\
  match dt_manual_prices (manual_prices_until sqlite table [1] 5) [1] 5 !! 1 with
  | Some (price, currency) =>
      exists mp, mp ∈ table /\ price_candidate sqlite 5 5 1 mp /\
                 price = sanitize_decimal (ph_price mp) /\ currency = ph_currency mp /\
                 forall mp', mp' ∈ table -> price_candidate sqlite 5 5 1 mp' ->
                             ph_date mp' <= ph_date mp
  | None => forall mp, mp ∈ table -> ~ price_candidate sqlite 5 5 1 mp
  end.
Proof.
  intros table.
  assert (1 ∈ [1]) as H by (by left).
  split; [exact H |].
  exact (history_manual_price_is_latest sqlite table [1] 5 5 1 H).
Defined.

(** That input on the two databases: SQLite leaves the row of the end date
    out and the price is the 12 of day 3, PostgreSQL returns it and the
    price is 13. *)
Example manual_price_at_end_date :
  let table := [samples.noon_price; samples.midnight_price] in
  fst <$> (dt_manual_prices (manual_prices_until sqlite table [1] 5) [1] 5 !! 1)
  = Some (Q2Qc 12) /\
  fst <$> (dt_manual_prices (manual_prices_until postgresql table [1] 5) [1] 5 !! 1)
  = Some (Q2Qc 13).
Proof. split; vm_compute; apply (f_equal Some), Qc_is_canon; reflexivity. Qed.
End manual_prices_facts.

(** ** Floats for JSON: [sanitize_float] *)

Section sanitize_float_facts.
Import math_utils.

(** [sanitize_float] turns a float that is NaN or infinite into 0 and leaves
    the other floats as they are, but a Decimal NaN or Infinity goes through
    [float()] unguarded and comes out as NaN or infinity. *)
Theorem sanitize_float_guards_floats_only (float_of_decimal : Qc -> float) :
  (forall f,
     let r := sanitize_float float_of_decimal (Some (NumFloat f)) in
     PrimFloat.is_nan r = false /\ PrimFloat.is_infinity r = false /\
     (PrimFloat.is_nan f = false -> PrimFloat.is_infinity f = false -> r = f)) /\
  PrimFloat.is_nan (sanitize_float float_of_decimal (Some (NumDecimal DecNaN))) = true /\
  (forall negative,
     PrimFloat.is_infinity
       (sanitize_float float_of_decimal (Some (NumDecimal (DecInf negative)))) = true).
Proof.
  split; [| split].
  - intros f r. subst r. cbn [sanitize_float].
    destruct (PrimFloat.is_nan f) eqn:E1; [by repeat split |].
    destruct (PrimFloat.is_infinity f) eqn:E2; [by repeat split |].
    simpl. by repeat split.
  - reflexivity.
  - intros []; reflexivity.
Qed.
End sanitize_float_facts.
